(** * Data cleaning core of the dashboard: a shallow embedding

    The development follows [data_processor.py] (class [DataProcessor]) and
    the cleaning block of the [clean] view in [routes.py].

    - A pandas [DataFrame] is a list of named, typed columns and a list of
      rows; every row carries its index label, because [remove_outliers]
      selects rows through [.index] and [.loc].
    - A number in a cell is the rational that a finite double denotes
      ([Qc]); [NaN]/[None] is the one null cell.  Infinities are not
      represented.  Nothing is computed with these numbers in exact
      arithmetic where the program uses doubles: the statistics of pandas
      and the arithmetic of Python's floats are operations of an interface
      ([Libraries], [Floats]), about which the theorems assume nothing but
      what they state.
    - DataFrames handed to a method or returned by it live in a store of
      objects, so that assignment into a frame ([df[col] = ...]) is visible
      through every reference to it.  Frames local to one method body are
      plain values.
    - pandas, scikit-learn and the codecs are libraries outside the
      repository: what the code needs from them is either written out
      (row selection, duplicates, the most frequent value) or taken as an
      interface ([Libraries]). *)

From Stdlib Require Import ZArith QArith Qcanon Qround Lqa Ascii Strings.Byte.
From stdpp Require Import base numbers option list sorting strings gmap.

Set Default Proof Using "Type".

(** ** Cells, rows, frames *)

Inductive dtype := int64 | float64 | bool_ | object_ | datetime64.

Inductive cell :=
  | NaN
  | Num (x : Qc)
  | Str (s : string).

Record row := Row { label : Z; cells : list cell }.

Record DataFrame := Frame { columns : list (string * dtype); rows : list row }.

Global Instance dtype_eq_dec : EqDecision dtype.
Proof. solve_decision. Defined.
Global Instance cell_eq_dec : EqDecision cell.
Proof. solve_decision. Defined.
Global Instance row_eq_dec : EqDecision row.
Proof. solve_decision. Defined.
Global Instance DataFrame_eq_dec : EqDecision DataFrame.
Proof. solve_decision. Defined.

(** [np.number] covers the integer and floating dtypes. *)
Definition is_number (d : dtype) : bool :=
  match d with int64 | float64 => true | _ => false end.

(** ** The pandas operations the code calls *)

Module pd.

(** [len(df)], [df.index], [df.empty], [df.head(n)] *)
Definition len (df : DataFrame) : nat := length (rows df).
Definition index (df : DataFrame) : list Z := label <$> rows df.
Definition empty (df : DataFrame) : bool :=
  bool_decide (rows df = [] ∨ columns df = []).
Definition head (n : Z) (df : DataFrame) : DataFrame :=
  Frame (columns df)
        (if decide (0 ≤ n)%Z then take (Z.to_nat n) (rows df)
         else take (length (rows df) - Z.to_nat (- n)) (rows df)).

(** [df.select_dtypes(include=[np.number]).columns] *)
Definition select_dtypes_number (df : DataFrame) : list string :=
  (filter (λ c, is_number c.2 = true) (columns df)).*1.

(** Position of the column called [name]; column names are unique in a
    frame read from a file, so this is the column [df[name]] denotes. *)
Definition position (df : DataFrame) (name : string) : option nat :=
  fst <$> list_find (λ c, c.1 = name) (columns df).

Definition cell_at (df : DataFrame) (name : string) (r : row) : cell :=
  match position df name with
  | Some j => default NaN (cells r !! j)
  | None => NaN
  end.

(** [df[name]], the values of one column *)
Definition col (df : DataFrame) (name : string) : list cell :=
  cell_at df name <$> rows df.

(** [df[names]], the sub-frame of the listed columns (same index) *)
Definition select (df : DataFrame) (names : list string) : DataFrame :=
  Frame (omap (λ n, (λ j, (n, default object_ (snd <$> columns df !! j)))
                      <$> position df n) names)
        ((λ r, Row (label r) ((λ n, cell_at df n r) <$> names)) <$> rows df).

(** [s.notna().sum()] and [s.isnull().sum()] *)
Definition notna_sum (s : list cell) : nat := length (filter (λ c, c ≠ NaN) s).
Definition isnull_sum (s : list cell) : nat := length (filter (λ c, c = NaN) s).

(** [df.dropna()]: the rows without any null *)
Definition dropna (df : DataFrame) : DataFrame :=
  Frame (columns df) (filter (λ r, NaN ∉ cells r) (rows df)).

(** Boolean-mask indexing, [xs[mask]] *)
Fixpoint keep {A} (mask : list bool) (xs : list A) : list A :=
  match mask, xs with
  | b :: mask, x :: xs => if b then x :: keep mask xs else keep mask xs
  | _, _ => []
  end.

(** [df.duplicated()]: a row is a duplicate when an earlier row has the
    same values in every column (nulls compare equal; labels play no
    part). *)
Fixpoint duplicated_from (seen : list (list cell)) (rs : list row) : list bool :=
  match rs with
  | [] => []
  | r :: rs => bool_decide (cells r ∈ seen) :: duplicated_from (cells r :: seen) rs
  end.
Definition duplicated (df : DataFrame) : list bool := duplicated_from [] (rows df).

(** [df.drop_duplicates()] is [df[~df.duplicated()]] *)
Definition drop_duplicates (df : DataFrame) : DataFrame :=
  Frame (columns df) (keep (negb <$> duplicated df) (rows df)).

(** [df.loc[labels]]: for each requested label, in order, the rows that
    carry it. *)
Definition loc (df : DataFrame) (labels : list Z) : DataFrame :=
  Frame (columns df) (labels ≫= λ l, filter (λ r, label r = l) (rows df)).

(** [df.values] *)
Definition values (df : DataFrame) : list (list cell) := cells <$> rows df.

(** Numbers held by a column (nulls skipped) *)
Definition numbers (s : list cell) : list Qc :=
  omap (λ c, match c with Num x => Some x | _ => None end) s.
Definition texts (s : list cell) : list string :=
  omap (λ c, match c with Str x => Some x | _ => None end) s.

(** [df.duplicated().sum()] *)
Definition count_true (mask : list bool) : nat := length (filter (λ b, b = true) mask).

(** [df[name].dtype] *)
Definition dtype_of (df : DataFrame) (name : string) : option dtype :=
  position df name ≫= λ j, snd <$> columns df !! j.

(** [df[name] = s]: overwrite an existing column, row by row *)
Definition set_col (df : DataFrame) (name : string) (s : list cell) : DataFrame :=
  match position df name with
  | Some j => Frame (columns df)
                    (zip_with (λ r x, Row (label r) (<[j:=x]> (cells r))) (rows df) s)
  | None => df
  end.

(** [s.fillna(v)] *)
Definition fillna (v : cell) (s : list cell) : list cell :=
  (λ c, match c with NaN => v | _ => c end) <$> s.

(** An integer as a float *)
Definition of_nat (n : nat) : Qc := Qc_of_Z (Z.of_nat n).

(** [s.mode()]: the values, nulls apart, that occur most often.  numpy
    sorts them; text beside numbers cannot be ordered, the sort raises, and
    pandas then leaves the values in the order in which they first
    appear. *)
Definition occurrences (x : cell) (xs : list cell) : nat :=
  length (filter (λ y, y = x) xs).
Fixpoint unique (seen xs : list cell) : list cell :=
  match xs with
  | [] => []
  | x :: xs => if decide (x ∈ seen) then unique seen xs else x :: unique (x :: seen) xs
  end.
Definition is_text (c : cell) : Prop := match c with Str _ => True | _ => False end.
Definition is_num (c : cell) : Prop := match c with Num _ => True | _ => False end.
Global Instance is_text_dec c : Decision (is_text c).
Proof. destruct c; simpl; apply _. Defined.
Global Instance is_num_dec c : Decision (is_num c).
Proof. destruct c; simpl; apply _. Defined.
Definition sort_modes (modes : list cell) : list cell :=
  if decide (Forall is_text modes) then Str <$> merge_sort String.le (texts modes)
  else if decide (Forall is_num modes) then Num <$> merge_sort Qcle (numbers modes)
  else modes.
Definition mode (s : list cell) : list cell :=
  let xs := filter (λ c, c ≠ NaN) s in
  let top := max_list ((λ x, occurrences x xs) <$> xs) in
  sort_modes (unique [] (filter (λ x, occurrences x xs = top) xs)).

(** [df[names] = ...]: overwrite each listed column with [new name] *)
Definition set_cols (df : DataFrame) (names : list string) (new : string → list cell)
  : DataFrame :=
  foldl (λ acc name, set_col acc name (new name)) df names.

(** Comparison of a cell with a number; a null compares false *)
Definition lt_num (c : cell) (x : Qc) : bool :=
  match c with Num y => bool_decide (y < x)%Qc | _ => false end.
Definition gt_num (c : cell) (x : Qc) : bool :=
  match c with Num y => bool_decide (x < y)%Qc | _ => false end.

End pd.

(** ** Exceptions, log records, library interface *)

(** Errors of the CSV parser proper ([pandas.errors]); decoding has already
    happened when the parser runs on the text. *)
Inductive parse_error := EmptyDataError | ParserError.

Inductive exn :=
  | UnicodeDecodeError
  | LookupError
  | FileNotFoundError
  | ParseFailure (e : parse_error)
  | ValueError
  | IndexError.

Inductive level := INFO | WARNING | ERROR.

(** The messages handed to [logger], one constructor per format string. *)
Inductive message :=
  | Loaded_csv (encoding : string)
  | Failed_any_encoding
  | Loaded_excel
  | Unsupported_format (file_extension : string)
  | Empty_dataframe
  | Too_large (n max : Z)
  | Error_loading (e : exn)
  | Removed_duplicates (removed_count : Z)
  | No_numeric_columns
  | No_valid_columns
  | Insufficient_data
  | Removed_outliers (removed_count : Z)
  | Error_removing_outliers (e : exn).

Global Instance parse_error_eq_dec : EqDecision parse_error.
Proof. solve_decision. Defined.
Global Instance exn_eq_dec : EqDecision exn.
Proof. solve_decision. Defined.
Global Instance level_eq_dec : EqDecision level.
Proof. solve_decision. Defined.
Global Instance message_eq_dec : EqDecision message.
Proof. solve_decision. Defined.

(** Entries of the quality report *)
Record missing_entry := { missing_count : nat; missing_percentage : Qc }.
Record outlier_entry := {
  count : nat; percentage : Qc; lower_bound : Qc; upper_bound : Qc }.
Record quality_info := {
  total_rows : nat;
  total_columns : nat;
  missing_data : gmap string missing_entry;
  duplicate_rows : nat;
  data_types : gmap string dtype;
  outliers : gmap string outlier_entry
}.

Global Instance outlier_entry_eq_dec : EqDecision outlier_entry.
Proof. solve_decision. Defined.

(** What the code needs from the codecs, from the pandas readers, from
    scikit-learn's [IsolationForest] and from the statistics of pandas.  A
    decoder answers [None] when it raises [UnicodeDecodeError];
    [fit_predict] takes the contamination, the random state and the sample
    matrix and answers one label per sample, [1] for an inlier and [-1] for
    an outlier.  [mean], [median] and [quantile] are [s.mean()],
    [s.median()] and [s.quantile(q)]: a number computed in doubles, or the
    null. *)
Class Libraries := {
  decode_utf8 : list byte → option (list N);
  decode_cp1252 : list byte → option (list N);
  parse_csv : list N → DataFrame + parse_error;
  read_excel : list byte → DataFrame + exn;
  fit_predict : Qc → Z → list (list cell) → list Z + exn;
  mean : list cell → cell;
  median : list cell → cell;
  quantile : Qc → list cell → cell
}.

(** The arithmetic of doubles, as Python's floats and numpy's [float64]
    have it: every operation answers the double nearest to the exact
    result, so none of them is the operation of the rationals.  [round2] is
    [round(x, 2)] on a Python float, [np_round2] the same call on a
    [numpy.float64]. *)
Class Floats := {
  fadd : Qc → Qc → Qc;
  fsub : Qc → Qc → Qc;
  fmul : Qc → Qc → Qc;
  fdiv : Qc → Qc → Qc;
  round2 : Qc → Qc;
  np_round2 : Qc → Qc
}.

(** What rounding to the nearest double keeps of the order of the
    rationals, and where interpolation between neighbouring values puts
    the quartiles of more than ten values.  The bounds of the outlier
    report are ordered because of these facts; they are assumed only where
    a theorem names them. *)
Class Ordered `{Libraries} `{Floats} : Prop := {
  fsub_nonneg x y : (x ≤ y)%Qc → (0 ≤ fsub y x)%Qc;
  fmul_nonneg x y : (0 ≤ x)%Qc → (0 ≤ y)%Qc → (0 ≤ fmul x y)%Qc;
  fsub_le x w : (0 ≤ w)%Qc → (fsub x w ≤ x)%Qc;
  fadd_ge x w : (0 ≤ w)%Qc → (x ≤ fadd x w)%Qc;
  quartiles_enclose s Q1 Q3 :
    10 < pd.notna_sum s →
    quantile (Q2Qc 0.25) s = Num Q1 → quantile (Q2Qc 0.75) s = Num Q3 →
    ∃ v, Num v ∈ s ∧ (Q1 ≤ v)%Qc ∧ (v ≤ Q3)%Qc
}.

(** ** The store and the method monad *)

Definition obj := positive.

Record state := State {
  heap : gmap obj DataFrame;
  files : gmap string (list byte);
  logged : list (level * message)
}.

Global Instance byte_eq_dec : EqDecision byte := Byte.byte_eq_dec.
Global Instance state_eq_dec : EqDecision state.
Proof. solve_decision. Defined.

(** A method maps a state to its result and the new state; [None] stands
    for following a reference to no object, which Python rules out. *)
Definition M (A : Type) : Type := state → option (A * state).

Definition ret {A} (a : A) : M A := λ σ, Some (a, σ).
Definition bind {A B} (m : M A) (k : A → M B) : M B :=
  λ σ, match m σ with Some (a, σ') => k a σ' | None => None end.

Notation "'let*' x := m 'in' k" := (bind m (λ x, k))
  (at level 10, x name, m at level 100, k at level 200).
Notation "m ;;; k" := (bind m (λ _, k))
  (at level 100, k at level 200, right associativity).

Definition read (l : obj) : M DataFrame :=
  λ σ, (λ d, (d, σ)) <$> heap σ !! l.
Definition write (l : obj) (d : DataFrame) : M unit :=
  λ σ, match heap σ !! l with
       | Some _ => Some ((), State (<[l:=d]> (heap σ)) (files σ) (logged σ))
       | None => None
       end.
Definition alloc (d : DataFrame) : M obj :=
  λ σ, let l := fresh (dom (heap σ)) in
       Some (l, State (<[l:=d]> (heap σ)) (files σ) (logged σ)).
Definition log (lv : level) (m : message) : M unit :=
  λ σ, Some ((), State (heap σ) (files σ) (logged σ ++ [(lv, m)])).
Definition open_file (path : string) : M (option (list byte)) :=
  λ σ, Some (files σ !! path, σ).

(** A record that is none of the listed ones *)
Ltac not_logged :=
  let Hin := fresh in
  intros Hin;
  repeat (apply elem_of_cons in Hin as [Hin|Hin]; [discriminate|]);
  by apply elem_of_nil in Hin.

Fixpoint for_each {A} (xs : list A) (body : A → M unit) : M unit :=
  match xs with
  | [] => ret ()
  | x :: xs => body x ;;; for_each xs body
  end.

(** ** Python string methods used on the file path *)

(** [s.lower()] on the ASCII letters *)
Definition lower_ascii (a : ascii) : ascii :=
  let n := nat_of_ascii a in
  if bool_decide (65 ≤ n ≤ 90) then ascii_of_nat (n + 32) else a.
Fixpoint lower (s : string) : string :=
  match s with
  | EmptyString => EmptyString
  | String a s => String (lower_ascii a) (lower s)
  end.

(** [s.split(sep)] *)
Fixpoint split (sep : ascii) (s : string) : list string :=
  match s with
  | EmptyString => [EmptyString]
  | String a s =>
      if decide (a = sep) then EmptyString :: split sep s
      else match split sep s with
           | w :: ws => String a w :: ws
           | [] => [String a EmptyString]
           end
  end.

(** ** [data_processor.py] *)

Record DataProcessor := { max_rows : Z; encodings : list string }.

(** [DataProcessor.__init__] *)
Definition init : DataProcessor :=
  {| max_rows := 100000; encodings := ["utf-8"; "latin-1"; "iso-8859-1"; "cp1252"]%string |}.

(** The Latin-1 codec maps every byte to the code point of the same
    number; it has no undecodable input. *)
Definition latin_1 (data : list byte) : list N := Byte.to_N <$> data.

(** How the body of a [try] block ends: it falls through with a value, it
    executes [return], or it raises. *)
Inductive flow (A B : Type) :=
  | Next (a : A)
  | Return (b : B)
  | Raise (e : exn).
Global Arguments Next {_ _} _.
Global Arguments Return {_ _} _.
Global Arguments Raise {_ _} _.
Global Instance flow_eq_dec `{EqDecision A, EqDecision B} : EqDecision (flow A B).
Proof. solve_decision. Defined.

Section processor.
Context `{Libraries} `{Floats}.

Definition decode (encoding : string) (data : list byte) : list N + exn :=
  if decide (encoding = "utf-8"%string) then
    match decode_utf8 data with Some t => inl t | None => inr UnicodeDecodeError end
  else if decide (encoding = "latin-1"%string ∨ encoding = "iso-8859-1"%string) then
    inl (latin_1 data)
  else if decide (encoding = "cp1252"%string) then
    match decode_cp1252 data with Some t => inl t | None => inr UnicodeDecodeError end
  else inr LookupError.

(** [pd.read_csv(file_path, encoding=encoding)] *)
Definition read_csv (data : option (list byte)) (encoding : string) : DataFrame + exn :=
  match data with
  | None => inr FileNotFoundError
  | Some bytes =>
      match decode encoding bytes with
      | inr e => inr e
      | inl text =>
          match parse_csv text with
          | inl df => inl df
          | inr e => inr (ParseFailure e)
          end
      end
  end.

(** The [for encoding in self.encodings: ... else: ...] loop of
    [load_data]: [break] on the first encoding that reads, [continue] on
    [UnicodeDecodeError], the [else] branch when the list is exhausted. *)
Fixpoint try_encodings (data : option (list byte)) (encodings : list string)
  : M (flow DataFrame (option obj)) :=
  match encodings with
  | [] => log ERROR Failed_any_encoding ;;; ret (Return None)
  | encoding :: encodings =>
      match read_csv data encoding with
      | inl df => log INFO (Loaded_csv encoding) ;;; ret (Next df)
      | inr UnicodeDecodeError => try_encodings data encodings
      | inr e => ret (Raise e)
      end
  end.

(** [load_data], up to the validation: the frame read from the file *)
Definition read_file (self : DataProcessor) (file_path : string)
  : M (flow DataFrame (option obj)) :=
  let file_extension := default EmptyString (last (split "." (lower file_path))) in
  let* data := open_file file_path in
  if decide (file_extension = "csv"%string) then
    try_encodings data (encodings self)
  else if decide (file_extension ∈ ["xlsx"; "xls"]%string) then
    match data with
    | None => ret (Raise FileNotFoundError)
    | Some bytes =>
        match read_excel bytes with
        | inl df => log INFO Loaded_excel ;;; ret (Next df)
        | inr e => ret (Raise e)
        end
    end
  else
    log ERROR (Unsupported_format file_extension) ;;; ret (Return None).

(** [load_data]: validation, row limit, and the handler of the [try] *)
Definition load_data (self : DataProcessor) (file_path : string) : M (option obj) :=
  let* body := read_file self file_path in
  match body with
  | Raise e => log ERROR (Error_loading e) ;;; ret None
  | Return r => ret r
  | Next df =>
      if pd.empty df then
        log ERROR Empty_dataframe ;;; ret None
      else if decide (max_rows self < Z.of_nat (pd.len df))%Z then
        log WARNING (Too_large (Z.of_nat (pd.len df)) (max_rows self)) ;;;
        let* df := alloc (pd.head (max_rows self) df) in
        ret (Some df)
      else
        let* df := alloc df in
        ret (Some df)
  end.

(** [get_data_quality_info]; the report is a fresh dictionary, modelled by
    its value.  With more than 10 numbers in the column the two quantiles
    are numbers; were one of them null, the bounds would be null, every
    comparison false and the column would get no entry. *)
Definition outlier_mask (s : list cell) (lower_bound upper_bound : Qc) : list bool :=
  (λ c, pd.lt_num c lower_bound || pd.gt_num c upper_bound) <$> s.

(** A value strictly below the lower or strictly above the upper bound *)
Definition outside (lower upper : Qc) (c : cell) : Prop :=
  match c with Num x => (x < lower ∨ upper < x)%Qc | _ => False end.
Global Instance outside_dec lower upper c : Decision (outside lower upper c).
Proof. destruct c; simpl; apply _. Defined.

Definition detect_outliers (d : DataFrame) (col : string) : option outlier_entry :=
  match quantile (Q2Qc 0.25) (pd.col d col), quantile (Q2Qc 0.75) (pd.col d col) with
  | Num Q1, Num Q3 =>
      let IQR := fsub Q3 Q1 in
      let lower_bound := fsub Q1 (fmul (Q2Qc 1.5) IQR) in
      let upper_bound := fadd Q3 (fmul (Q2Qc 1.5) IQR) in
      let outliers := pd.keep (outlier_mask (pd.col d col) lower_bound upper_bound)
                              (pd.col d col) in
      if decide (0 < length outliers) then
        Some {| count := length outliers;
                percentage :=
                  round2 (fmul (fdiv (pd.of_nat (length outliers)) (pd.of_nat (pd.len d)))
                               (Qc_of_Z 100));
                lower_bound := lower_bound;
                upper_bound := upper_bound |}
      else None
  | _, _ => None
  end.

Definition get_data_quality_info (df : obj) : M quality_info :=
  let* d := read df in
  let missing_data :=
    foldl (λ acc col,
             let missing_count := pd.isnull_sum (pd.col d col) in
             if decide (0 < missing_count) then
               <[col := {| missing_count := missing_count;
                           missing_percentage :=
                             np_round2
                               (fmul (fdiv (pd.of_nat missing_count) (pd.of_nat (pd.len d)))
                                     (Qc_of_Z 100)) |}]> acc
             else acc)
          ∅ (columns d).*1 in
  let numeric_columns := pd.select_dtypes_number d in
  let outliers :=
    foldl (λ acc col,
             if decide (10 < pd.notna_sum (pd.col d col)) then
               match detect_outliers d col with
               | Some entry => <[col := entry]> acc
               | None => acc
               end
             else acc)
          ∅ numeric_columns in
  ret {| total_rows := pd.len d;
         total_columns := length (columns d);
         missing_data := missing_data;
         duplicate_rows := pd.count_true (pd.duplicated d);
         data_types := list_to_map (columns d);
         outliers := outliers |}.

(** One turn of the loop of the [fill_mode] strategy:
    [if df[col].dtype == 'object': df[col] = df[col].fillna(...)] *)
Definition fill_mode_column (df : obj) (col : string) : M unit :=
  let* d := read df in
  if decide (pd.dtype_of d col = Some object_) then
    write df (pd.set_col d col
                (pd.fillna (match pd.mode (pd.col d col) with
                            | m :: _ => m
                            | [] => Str "Unknown"
                            end)
                           (pd.col d col)))
  else ret ().

(** [handle_missing_values]; none of the pandas calls in its body raises on
    a frame, so the handler of its [try] is not reached. *)
Definition handle_missing_values (df : obj) (strategy : string) : M obj :=
  if decide (strategy = "drop"%string) then
    let* d := read df in
    alloc (pd.dropna d)
  else if decide (strategy = "fill_mean"%string) then
    let* d := read df in
    let numeric_columns := pd.select_dtypes_number d in
    write df (pd.set_cols d numeric_columns
                (λ col, pd.fillna (mean (pd.col d col)) (pd.col d col))) ;;;
    ret df
  else if decide (strategy = "fill_median"%string) then
    let* d := read df in
    let numeric_columns := pd.select_dtypes_number d in
    write df (pd.set_cols d numeric_columns
                (λ col, pd.fillna (median (pd.col d col)) (pd.col d col))) ;;;
    ret df
  else if decide (strategy = "fill_mode"%string) then
    let* d := read df in
    for_each (columns d).*1 (fill_mode_column df) ;;;
    ret df
  else
    ret df.

(** [remove_duplicates]; [drop_duplicates] does not raise on a frame, so
    the handler of the [try] is not reached here either. *)
Definition remove_duplicates (df : obj) : M obj :=
  let* d := read df in
  let initial_count := pd.len d in
  let* df_clean := alloc (pd.drop_duplicates d) in
  let removed_count := (Z.of_nat initial_count - Z.of_nat (pd.len (pd.drop_duplicates d)))%Z in
  log INFO (Removed_duplicates removed_count) ;;;
  ret df_clean.

(** [index[mask]] raises [IndexError] when the mask has another length. *)
Definition index_mask (index : list Z) (mask : list bool) : list Z + exn :=
  if decide (length mask = length index) then inl (pd.keep mask index)
  else inr IndexError.

(** [remove_outliers].  The detector and the mask indexing are the calls
    that can raise; the handler logs the error and returns [df]. *)
Definition valid_columns (d : DataFrame) : list string :=
  filter (λ col, 10 < pd.notna_sum (pd.col d col)) (pd.select_dtypes_number d).

Definition data_for_outliers (d : DataFrame) : DataFrame :=
  pd.dropna (pd.select d (valid_columns d)).

Definition remove_outliers (df : obj) : M obj :=
  let* d := read df in
  let numeric_columns := pd.select_dtypes_number d in
  if decide (length numeric_columns = 0) then
    log WARNING No_numeric_columns ;;; ret df
  else if decide (valid_columns d = []) then
    log WARNING No_valid_columns ;;; ret df
  else if decide (pd.len (data_for_outliers d) < 10) then
    log WARNING Insufficient_data ;;; ret df
  else
    match fit_predict (Q2Qc 0.1) 42 (pd.values (data_for_outliers d)) with
    | inr e => log ERROR (Error_removing_outliers e) ;;; ret df
    | inl outlier_labels =>
        match index_mask (pd.index (data_for_outliers d))
                         ((λ y, bool_decide (y = 1%Z)) <$> outlier_labels) with
        | inr e => log ERROR (Error_removing_outliers e) ;;; ret df
        | inl non_outlier_indices =>
            let* df_clean := alloc (pd.loc d non_outlier_indices) in
            let removed_count :=
              (Z.of_nat (pd.len d) - Z.of_nat (pd.len (pd.loc d non_outlier_indices)))%Z in
            log INFO (Removed_outliers removed_count) ;;;
            ret df_clean
        end
    end.

(** ** [routes.py]: the cleaning block of the [clean] view

    [clean_options] is the submitted form as a dictionary. *)
Definition clean (clean_options : gmap string string) (df : obj) : M obj :=
  let* df :=
    (if decide (is_Some (clean_options !! "remove_duplicates"%string))
     then remove_duplicates df else ret df) in
  let* df :=
    (if decide (is_Some (clean_options !! "handle_missing"%string))
     then let missing_strategy :=
            default "drop"%string (clean_options !! "missing_strategy"%string) in
          handle_missing_values df missing_strategy
     else ret df) in
  let* df :=
    (if decide (is_Some (clean_options !! "remove_outliers"%string))
     then remove_outliers df else ret df) in
  ret df.

End processor.

(** [drop_duplicates] on the rows, relative to the values already seen *)
Definition dedup (seen : list (list cell)) (rs : list row) : list row :=
  pd.keep (negb <$> pd.duplicated_from seen rs) rs.

(** ** Frames as pandas builds them

    Column names are distinct and every row has one cell per column. *)
Definition well_formed (d : DataFrame) : Prop :=
  NoDup (columns d).*1 ∧ ∀ r, r ∈ rows d → length (cells r) = length (columns d).

Global Instance well_formed_dec d : Decision (well_formed d).
Proof.
  unfold well_formed.
  refine (cast_if_and (decide (NoDup (columns d).*1))
            (decide (Forall (λ r, length (cells r) = length (columns d)) (rows d))));
    rewrite ?Forall_forall in *; tauto.
Defined.

(** No cell of the frame is null *)
Definition complete (d : DataFrame) : Prop := ∀ r, r ∈ rows d → NaN ∉ cells r.

Global Instance complete_dec d : Decision (complete d).
Proof.
  unfold complete.
  refine (cast_if (decide (Forall (λ r, NaN ∉ cells r) (rows d))));
    rewrite ?Forall_forall in *; tauto.
Defined.

(** [d'] has the rows of [d], label by label and cell by cell, except that
    nulls of [d] may have been replaced. *)
Definition fills (d d' : DataFrame) : Prop :=
  columns d' = columns d
  ∧ length (rows d') = length (rows d)
  ∧ ∀ i r, rows d !! i = Some r →
      ∃ r', rows d' !! i = Some r'
            ∧ label r' = label r
            ∧ length (cells r') = length (cells r)
            ∧ ∀ k c, cells r !! k = Some c → c ≠ NaN → cells r' !! k = Some c.

(** ** [routes.py]: accepted uploads *)

(** [a in s], for a character [a] *)
Fixpoint contains (a : ascii) (s : string) : bool :=
  match s with
  | EmptyString => false
  | String b s => bool_decide (b = a) || contains a s
  end.

(** [s.rsplit(sep, 1)]: split at the last [sep], if there is one *)
Fixpoint rpartition (sep : ascii) (s : string) : option (string * string) :=
  match s with
  | EmptyString => None
  | String a s =>
      match rpartition sep s with
      | Some (before, after) => Some (String a before, after)
      | None => if decide (a = sep) then Some (EmptyString, s) else None
      end
  end.
Definition rsplit1 (sep : ascii) (s : string) : list string :=
  match rpartition sep s with
  | Some (before, after) => [before; after]
  | None => [s]
  end.

Definition ALLOWED_EXTENSIONS : gset string := {[ "csv"; "xlsx"; "xls" ]}%string.

(** [allowed_file]; [and] evaluates the subscript only when there is a dot *)
Definition allowed_file (filename : string) : bool :=
  contains "." filename
  && bool_decide (lower (default EmptyString (rsplit1 "." filename !! 1))
                  ∈ ALLOWED_EXTENSIONS).

(** ** [export_handler.py]

    The module has a logger of its own; the records it logs are returned
    beside the result.  The clock is read once per call: the value of
    [datetime.now().strftime("%Y%m%d_%H%M%S")] is the argument [timestamp].
    The methods only read the frame, which is passed by value. *)

(** [s.startswith(p)], [s.endswith(p)] *)
Definition startswith (p s : string) : bool := String.prefix p s.
Definition endswith (p s : string) : bool := String.prefix (String.rev p) (String.rev s).

(** [os.path.join(a, b)] on a POSIX system *)
Definition path_join (a b : string) : string :=
  if startswith "/" b then b
  else if bool_decide (a = EmptyString) || endswith "/" a then a +:+ b
  else a +:+ "/" +:+ b.

(** What a pandas writer did with the path it was given: the bytes it left
    there, if any, and the exception it raised, if any. *)
Record written := { content : option (list byte); raised : option exn }.

(** [df.to_csv(path, index=False)],
    [df.to_excel(path, index=False, engine='openpyxl')] and
    [df.to_json(path, orient='records', indent=2)] *)
Class Writers := {
  to_csv : DataFrame → string → written;
  to_excel : DataFrame → string → written;
  to_json : DataFrame → string → written
}.

Inductive export_message :=
  | Unsupported_export_format (format : string)
  | Data_exported (filepath : string)
  | Error_exporting (e : exn).

Record ExportHandler := { supported_formats : list string }.

(** [ExportHandler.__init__] *)
Definition ExportHandler_init : ExportHandler :=
  {| supported_formats := ["csv"; "xlsx"; "json"]%string |}.

Section exporting.
Context `{Writers}.

(** [export_data]: the path returned, the files afterwards, the records
    logged *)
Definition export_data (self : ExportHandler) (timestamp : string) (df : DataFrame)
    (format export_folder : string) (fs : gmap string (list byte))
  : option string * gmap string (list byte) * list (level * export_message) :=
  if decide (format ∉ supported_formats self) then
    (None, fs, [(ERROR, Unsupported_export_format format)])
  else
    let filename := ("exported_data_" +:+ timestamp +:+ "." +:+ format)%string in
    let filepath := path_join export_folder filename in
    let w :=
      if decide (format = "csv"%string) then to_csv df filepath
      else if decide (format = "xlsx"%string) then to_excel df filepath
      else if decide (format = "json"%string) then to_json df filepath
      else {| content := None; raised := None |} in
    let fs := match content w with Some bytes => <[filepath:=bytes]> fs | None => fs end in
    match raised w with
    | Some e => (None, fs, [(ERROR, Error_exporting e)])
    | None => (Some filepath, fs, [(INFO, Data_exported filepath)])
    end.

End exporting.

(** [s.nunique()]: the number of distinct non-null values *)
Definition nunique (s : list cell) : nat :=
  length (remove_dups (filter (λ c, c ≠ NaN) s)).

(** A sheet of the summary report: the records built by the loop, or the
    one-cell frame [{'Error': [str(e)]}] of the handler. *)
Inductive sheet (A : Type) :=
  | Sheet (records : list A)
  | Error_sheet (message : string).
Global Arguments Sheet {_} _.
Global Arguments Error_sheet {_} _.

Record quality_record := {
  Column : string;
  Data_Type : dtype;
  Total_Values : nat;
  Missing_Values : nat;
  Missing_Percentage : Qc;
  Unique_Values : nat;
  Uniqueness_Percentage : Qc
}.

Section quality_sheet.
Context `{Floats}.

(** [_create_quality_dataframe].  With no row the first turn of the loop
    divides the integer [unique_count] by [len(df)], which is zero: Python
    raises [ZeroDivisionError] and the handler returns the error frame.
    With no column the loop body does not run.  [missing_count] is a numpy
    integer, so the first percentage is a [numpy.float64]. *)
Definition _create_quality_dataframe (df : DataFrame) : sheet quality_record :=
  if decide (columns df = []) then Sheet []
  else if decide (pd.len df = 0) then Error_sheet "division by zero"
  else
    Sheet ((λ column,
              let missing_count := pd.isnull_sum (pd.col df column) in
              let missing_percentage :=
                fmul (fdiv (pd.of_nat missing_count) (pd.of_nat (pd.len df)))
                     (Qc_of_Z 100) in
              let unique_count := nunique (pd.col df column) in
              {| Column := column;
                 Data_Type := default object_ (pd.dtype_of df column);
                 Total_Values := pd.len df;
                 Missing_Values := missing_count;
                 Missing_Percentage := np_round2 missing_percentage;
                 Unique_Values := unique_count;
                 Uniqueness_Percentage :=
                   round2 (fmul (fdiv (pd.of_nat unique_count) (pd.of_nat (pd.len df)))
                                (Qc_of_Z 100)) |})
             <$> (columns df).*1).

End quality_sheet.

(** ** [chart_generator.py]

    plotly is outside the repository.  A figure is what the code hands to
    it: the traces with the arguments given, and the layout settings.
    Building the figure from them and [fig.to_html] are one call of the
    interface, which answers the markup or the exception raised.  The
    module has a logger of its own; the records a method logs are returned
    beside its result. *)

Inductive trace :=
  | Bar (x y : list cell) (marker_color : string) (text : list cell) (textposition : string)
  | Lines_markers (x y : list cell) (line_color : string) (line_width marker_size : Z)
  | Markers (x y : list cell) (marker_color : string) (marker_size : Z) (marker_opacity : Qc)
  | Markers_of_frames (x y : DataFrame) (marker_color : string) (marker_size : Z)
      (marker_opacity : Qc)
  | Histogram (x : list cell) (marker_color : string) (opacity : Qc)
  | Box (y : list cell) (name marker_color : string)
  | Pie (labels values : list cell) (marker_colors : list string).

Record Figure := {
  data : list trace;
  title : string;
  xaxis_title : option string;
  yaxis_title : option string;
  template : string;
  height : Z;
  showlegend : option bool
}.

(** [px.colors.qualitative.Set3]; [fig.to_html(include_plotlyjs=False,
    div_id=...)]; and [f"chart-{hash(str(v))}"] for a list or an array of
    values, for a list of names and for the array of a frame. *)
Class Plotly := {
  Set3 : list string;
  to_html : Figure → string → string + exn;
  div_id_of_values : list cell → string;
  div_id_of_names : list string → string;
  div_id_of_table : list (list cell) → string
}.

(** What a [try] block of the module can raise: a subscript of the palette
    out of range, a remainder by the length of an empty palette, or
    whatever pandas or plotly raised. *)
Inductive chart_exn :=
  | Index_out_of_range
  | Modulo_by_zero
  | Raised (e : exn).

Inductive chart_message :=
  | Invalid_bar_data
  | Columns_not_found (x_column y_column : string)
  | No_valid_points
  | Column_not_found (column : string)
  | No_valid_histogram_data
  | No_valid_box_columns
  | Invalid_pie_data
  | Error_creating (chart : string) (e : chart_exn).

Record ChartGenerator := { theme : string; color_palette : list string }.

Definition chart_result : Type := option string * list (level * chart_message).

(** [title or default] *)
Definition or_default (title : option string) (default_title : string) : string :=
  match title with
  | Some t => if decide (t = EmptyString) then default_title else t
  | None => default_title
  end.

(** [sep.join(names)] *)
Fixpoint join (sep : string) (names : list string) : string :=
  match names with
  | [] => EmptyString
  | [n] => n
  | n :: rest => n +:+ sep +:+ join sep rest
  end.

(** [s.dropna()] on a column *)
Definition dropna_values (s : list cell) : list cell := filter (λ c, c ≠ NaN) s.

Section charts.
Context `{Plotly}.

(** [ChartGenerator.__init__] *)
Definition ChartGenerator_init : ChartGenerator :=
  {| theme := "plotly_white"; color_palette := Set3 |}.

(** The end of every method: [return fig.to_html(...)] inside the [try] *)
Definition render (chart : string) (fig : Figure) (div_id : string) : chart_result :=
  match to_html fig div_id with
  | inl html => (Some html, [])
  | inr e => (None, [(ERROR, Error_creating chart (Raised e))])
  end.

(** [create_bar_chart]; the two lists are Python lists *)
Definition create_bar_chart (self : ChartGenerator) (x_data y_data : list cell)
    (x_title y_title : string) (title : option string) : chart_result :=
  if decide (x_data = [] ∨ y_data = [] ∨ length x_data ≠ length y_data) then
    (None, [(ERROR, Invalid_bar_data)])
  else
    match color_palette self !! 0 with
    | None => (None, [(ERROR, Error_creating "bar chart" Index_out_of_range)])
    | Some color =>
        render "bar chart"
          {| data := [Bar x_data y_data color y_data "auto"];
             title := or_default title (y_title +:+ " by " +:+ x_title);
             xaxis_title := Some x_title;
             yaxis_title := Some y_title;
             template := theme self;
             height := 500;
             showlegend := Some false |}
          (div_id_of_values x_data)
    end.

(** [create_line_chart]; [sort_values] is [df.sort_values(x_column)] *)
Definition create_line_chart (sort_values : DataFrame → string → DataFrame + exn)
    (self : ChartGenerator) (df : DataFrame) (x_column y_column : string)
    (title : option string) : chart_result :=
  if decide (x_column ∉ (columns df).*1 ∨ y_column ∉ (columns df).*1) then
    (None, [(ERROR, Columns_not_found x_column y_column)])
  else
    match sort_values df x_column with
    | inr e => (None, [(ERROR, Error_creating "line chart" (Raised e))])
    | inl df_sorted =>
        match color_palette self !! 1 with
        | None => (None, [(ERROR, Error_creating "line chart" Index_out_of_range)])
        | Some color =>
            render "line chart"
              {| data := [Lines_markers (pd.col df_sorted x_column)
                            (pd.col df_sorted y_column) color 3 6];
                 title := or_default title (y_column +:+ " vs " +:+ x_column);
                 xaxis_title := Some x_column;
                 yaxis_title := Some y_column;
                 template := theme self;
                 height := 500;
                 showlegend := Some false |}
              (div_id_of_values (pd.col df_sorted x_column))
        end
    end.

(** [create_scatter_plot].  With the same name given twice the selection
    [df[[x_column, y_column]]] has the column twice, and
    [clean_df[x_column]] is that frame again rather than a column. *)
Definition create_scatter_plot (self : ChartGenerator) (df : DataFrame)
    (x_column y_column : string) (title : option string) : chart_result :=
  if decide (x_column ∉ (columns df).*1 ∨ y_column ∉ (columns df).*1) then
    (None, [(ERROR, Columns_not_found x_column y_column)])
  else
    let clean_df := pd.dropna (pd.select df [x_column; y_column]) in
    if pd.empty clean_df then
      (None, [(ERROR, No_valid_points)])
    else
      match color_palette self !! 2 with
      | None => (None, [(ERROR, Error_creating "scatter plot" Index_out_of_range)])
      | Some color =>
          render "scatter plot"
            {| data := [if decide (x_column = y_column)
                        then Markers_of_frames clean_df clean_df color 8 (Q2Qc 0.7)
                        else Markers (pd.col clean_df x_column) (pd.col clean_df y_column)
                               color 8 (Q2Qc 0.7)];
               title := or_default title (y_column +:+ " vs " +:+ x_column);
               xaxis_title := Some x_column;
               yaxis_title := Some y_column;
               template := theme self;
               height := 500;
               showlegend := Some false |}
            (if decide (x_column = y_column)
             then div_id_of_table (pd.values clean_df)
             else div_id_of_values (pd.col clean_df x_column))
      end.

(** [create_histogram] *)
Definition create_histogram (self : ChartGenerator) (df : DataFrame) (column : string)
    (title : option string) : chart_result :=
  if decide (column ∉ (columns df).*1) then
    (None, [(ERROR, Column_not_found column)])
  else
    let clean_data := dropna_values (pd.col df column) in
    if decide (clean_data = []) then
      (None, [(ERROR, No_valid_histogram_data)])
    else
      match color_palette self !! 3 with
      | None => (None, [(ERROR, Error_creating "histogram" Index_out_of_range)])
      | Some color =>
          render "histogram"
            {| data := [Histogram clean_data color (Q2Qc 0.8)];
               title := or_default title ("Distribution of " +:+ column);
               xaxis_title := Some column;
               yaxis_title := Some "Frequency"%string;
               template := theme self;
               height := 500;
               showlegend := Some false |}
            (div_id_of_values clean_data)
      end.

(** The loop of [create_box_plot] from position [i] of the enumeration: a
    column without a value gets no trace, and its position is counted. *)
Fixpoint box_traces (self : ChartGenerator) (df : DataFrame) (i : nat)
    (valid_columns : list string) : list trace + chart_exn :=
  match valid_columns with
  | [] => inl []
  | column :: rest =>
      let clean_data := dropna_values (pd.col df column) in
      if decide (clean_data = []) then box_traces self df (S i) rest
      else if decide (length (color_palette self) = 0) then inr Modulo_by_zero
      else
        match color_palette self !! (i mod length (color_palette self)) with
        | None => inr Index_out_of_range
        | Some color =>
            match box_traces self df (S i) rest with
            | inl traces => inl (Box clean_data column color :: traces)
            | inr e => inr e
            end
        end
  end.

(** [create_box_plot] *)
Definition create_box_plot (self : ChartGenerator) (df : DataFrame) (columns_ : list string)
    (title : option string) : chart_result :=
  let valid_columns := filter (λ col, col ∈ (columns df).*1) columns_ in
  if decide (valid_columns = []) then
    (None, [(ERROR, No_valid_box_columns)])
  else
    match box_traces self df 0 valid_columns with
    | inr e => (None, [(ERROR, Error_creating "box plot" e)])
    | inl traces =>
        render "box plot"
          {| data := traces;
             title := or_default title ("Box Plot of " +:+ join ", " valid_columns);
             xaxis_title := None;
             yaxis_title := Some "Values"%string;
             template := theme self;
             height := 500;
             showlegend := None |}
          (div_id_of_names valid_columns)
    end.

(** [create_pie_chart] *)
Definition create_pie_chart (self : ChartGenerator) (labels values : list cell)
    (title : option string) : chart_result :=
  if decide (labels = [] ∨ values = [] ∨ length labels ≠ length values) then
    (None, [(ERROR, Invalid_pie_data)])
  else
    render "pie chart"
      {| data := [Pie labels values (take (length labels) (color_palette self))];
         title := or_default title "Distribution";
         xaxis_title := None;
         yaxis_title := None;
         template := theme self;
         height := 500;
         showlegend := None |}
      (div_id_of_values labels).

End charts.

(** ** [routes.py]: the [generate_chart] view, from the parsed request on

    [json_data] is what [request.get_json()] returned, any JSON value or
    [None], [df] the frame that [load_data] returned.  The answer is the
    JSON body with its status; the records of the chart module's logger and
    of the view's own logger are returned beside it. *)

(** A parsed JSON value.  [null] is Python's [None]; [JNonfinite] stands
    for the floats [NaN] and [Infinity], which Python's parser accepts; an
    object is the list of its members as written. *)
#[warnings="-register-all"] Inductive json :=
  | JNull
  | JBool (b : bool)
  | JNumber (x : Qc)
  | JNonfinite
  | JString (s : string)
  | JArray (items : list json)
  | JObject (members : list (string * json)).

(** [d.get(key)], [d.get(key, default)] on the dictionary of an object: of
    members with the same name the last one counts, and a missing key
    gives [None]. *)
Definition lookup_member (members : list (string * json)) (key : string) : option json :=
  (λ m, m.2.2) <$> list_find (λ m, m.1 = key) (reverse members).
Definition get (members : list (string * json)) (key : string) : json :=
  default JNull (lookup_member members key).

(** The truth value of a value *)
Definition truthy (v : json) : bool :=
  match v with
  | JNull => false
  | JBool b => b
  | JNumber x => negb (bool_decide (x = 0%Qc))
  | JNonfinite => true
  | JString s => negb (bool_decide (s = EmptyString))
  | JArray items => match items with [] => false | _ => true end
  | JObject members => match members with [] => false | _ => true end
  end.

(** [v == 'text'] *)
Definition is_string (v : json) (text : string) : bool :=
  match v with JString s => bool_decide (s = text) | _ => false end.

(** [df.sort_values(x)], [df.groupby(x)[y].sum()] and [s.value_counts()],
    the last two as the list of index and value pairs in the order pandas
    gives them. *)
Class Aggregates := {
  sort_values : DataFrame → string → DataFrame + exn;
  groupby_sum : DataFrame → string → string → list (cell * cell) + exn;
  value_counts : list cell → list (cell * cell)
}.

(** What the body of the view's [try] raises: a method missing on a value
    ([.get] on what is no dictionary, [.title()] on what is no text), a
    list or a dictionary where a hashable value is needed, or whatever
    pandas raised. *)
Inductive view_exn :=
  | AttributeError
  | TypeError
  | Pandas_raised (e : exn).

Inductive response :=
  | Chart_json (chart : string) (title : json)
  | Error_json (error : string) (status : Z).

Inductive route_message := Chart_generation_error (e : view_exn).

(** [s.title()] on the ASCII letters: a letter after a letter is lowered,
    any other letter is raised.  The title is part of an answer only
    beside a chart, which is made for the six chart types alone. *)
Definition is_letter (a : ascii) : bool :=
  let n := nat_of_ascii a in
  bool_decide (65 ≤ n ≤ 90) || bool_decide (97 ≤ n ≤ 122).
Definition upper_ascii (a : ascii) : ascii :=
  let n := nat_of_ascii a in
  if bool_decide (97 ≤ n ≤ 122) then ascii_of_nat (n - 32) else a.
Fixpoint title_from (previous_is_cased : bool) (s : string) : string :=
  match s with
  | EmptyString => EmptyString
  | String a s =>
      String (if previous_is_cased then lower_ascii a else upper_ascii a)
             (title_from (is_letter a) s)
  end.
Definition str_title (s : string) : string := title_from false s.

(** [name in df.columns], with the name when it holds.  The index hashes
    the value first, which raises for a list and for a dictionary.  The
    labels of a frame are text here, so that null, a boolean or a number
    is none of them. *)
Definition in_columns (df : DataFrame) (name : json) : option string + view_exn :=
  match name with
  | JString n => inl (if decide (n ∈ (columns df).*1) then Some n else None)
  | JArray _ | JObject _ => inr TypeError
  | _ => inl None
  end.

(** [name and name in df.columns] *)
Definition and_in_columns (df : DataFrame) (name : json) : option string + view_exn :=
  if truthy name then in_columns df name else inl None.

(** [f'{chart_type.title()} Chart' if chart_type else 'Chart'] *)
Definition default_title (chart_type : json) : string + view_exn :=
  if truthy chart_type then
    match chart_type with
    | JString t => inl (str_title t +:+ " Chart")
    | _ => inr AttributeError
    end
  else inl "Chart"%string.

Section chart_view.
Context `{Plotly} `{Aggregates}.

Definition no_chart : chart_result + view_exn := inl (None, []).

(** The chain of [if chart_type == ...] *)
Definition chart_for (chart_generator : ChartGenerator) (df : DataFrame)
    (chart_type x_column y_column : json) : chart_result + view_exn :=
  if is_string chart_type "bar" then
    match in_columns df x_column with
    | inr e => inr e
    | inl None => no_chart
    | inl (Some x) =>
        match and_in_columns df y_column with
        | inr e => inr e
        | inl (Some y) =>
            match groupby_sum df x y with
            | inr e => inr (Pandas_raised e)
            | inl grouped =>
                inl (create_bar_chart chart_generator grouped.*1 grouped.*2 x y None)
            end
        | inl None =>
            let value_counts := take 20 (value_counts (pd.col df x)) in
            inl (create_bar_chart chart_generator value_counts.*1 value_counts.*2
                   x "Count" None)
        end
    end
  else if is_string chart_type "line" then
    match in_columns df x_column with
    | inr e => inr e
    | inl None => no_chart
    | inl (Some x) =>
        match in_columns df y_column with
        | inr e => inr e
        | inl None => no_chart
        | inl (Some y) => inl (create_line_chart sort_values chart_generator df x y None)
        end
    end
  else if is_string chart_type "scatter" then
    match in_columns df x_column with
    | inr e => inr e
    | inl None => no_chart
    | inl (Some x) =>
        match in_columns df y_column with
        | inr e => inr e
        | inl None => no_chart
        | inl (Some y) => inl (create_scatter_plot chart_generator df x y None)
        end
    end
  else if is_string chart_type "histogram" then
    match in_columns df x_column with
    | inr e => inr e
    | inl None => no_chart
    | inl (Some x) => inl (create_histogram chart_generator df x None)
    end
  else if is_string chart_type "box" then
    match in_columns df x_column with
    | inr e => inr e
    | inl x =>
        let columns_ := match x with Some x => [x] | None => [] end in
        match and_in_columns df y_column with
        | inr e => inr e
        | inl y =>
            let columns_ := match y with Some y => columns_ ++ [y] | None => columns_ end in
            if decide (columns_ = []) then no_chart
            else inl (create_box_plot chart_generator df columns_ None)
        end
    end
  else if is_string chart_type "pie" then
    match in_columns df x_column with
    | inr e => inr e
    | inl None => no_chart
    | inl (Some x) =>
        let value_counts := take 10 (value_counts (pd.col df x)) in
        inl (create_pie_chart chart_generator value_counts.*1 value_counts.*2 None)
    end
  else no_chart.

(** The body of the [try] from [chart_type = json_data.get(...)] on: the
    chart with the records of its making, and the title of the answer *)
Definition chart_and_title (chart_generator : ChartGenerator) (json_data : json)
    (df : DataFrame) : chart_result * json + view_exn :=
  match json_data with
  | JObject members =>
      let chart_type := get members "chart_type" in
      let x_column := get members "x_column" in
      let y_column := get members "y_column" in
      match default_title chart_type with
      | inr e => inr e
      | inl text =>
          let title := default (JString text) (lookup_member members "title") in
          match chart_for chart_generator df chart_type x_column y_column with
          | inr e => inr e
          | inl chart => inl (chart, title)
          end
      end
  | _ => inr AttributeError
  end.

Definition generate_chart (chart_generator : ChartGenerator) (json_data : json)
    (df : DataFrame)
  : response * list (level * chart_message) * list (level * route_message) :=
  if truthy json_data then
    match chart_and_title chart_generator json_data df with
    | inr e =>
        (Error_json "Error generating chart" 500, [], [(ERROR, Chart_generation_error e)])
    | inl ((Some html, records), title) =>
        if decide (html = EmptyString)
        then (Error_json "Could not generate chart with selected parameters" 400,
              records, [])
        else (Chart_json html title, records, [])
    | inl ((None, records), title) =>
        (Error_json "Could not generate chart with selected parameters" 400, records, [])
    end
  else (Error_json "No JSON data provided" 400, [], []).

End chart_view.



(** ** Statistics in exact arithmetic

    The mean, the median, the quantile by linear interpolation at position
    [q * (n - 1)] of the sorted values, and rounding to two decimals with
    ties to even, all without rounding to a double.  They serve the sample
    library below, on frames of small integers. *)

Module exact.

Definition total (xs : list Qc) : Qc := foldr Qcplus 0%Qc xs.
Definition sorted (xs : list Qc) : list Qc := merge_sort Qcle xs.
Definition item (xs : list Qc) (i : nat) : Qc := default 0%Qc (xs !! i).

Definition mean (s : list cell) : cell :=
  match pd.numbers s with
  | [] => NaN
  | xs => Num (total xs / pd.of_nat (length xs))
  end.

Definition median (s : list cell) : cell :=
  match sorted (pd.numbers s) with
  | [] => NaN
  | xs => let n := length xs in
          if Nat.even n
          then Num ((item xs (n / 2 - 1) + item xs (n / 2)) / 2)
          else Num (item xs (n / 2))
  end.

Definition quantile (q : Qc) (s : list cell) : cell :=
  match sorted (pd.numbers s) with
  | [] => NaN
  | xs => let h := (q * pd.of_nat (length xs - 1))%Qc in
          let lo := Z.to_nat (Qfloor h) in
          let frac := (h - Qc_of_Z (Qfloor h))%Qc in
          let a := item xs lo in
          let b := item xs (Nat.min (lo + 1) (length xs - 1)) in
          Num (a + frac * (b - a))
  end.

Definition rint (x : Qc) : Z :=
  let f := Qfloor x in
  let r := (x - Qc_of_Z f)%Qc in
  if decide (r < 1 / 2)%Qc then f
  else if decide (1 / 2 < r)%Qc then (f + 1)%Z
  else if Z.even f then f else (f + 1)%Z.
Definition round2 (x : Qc) : Qc := (Qc_of_Z (rint (x * Qc_of_Z 100)) / Qc_of_Z 100)%Qc.

End exact.

(** ** Sample data

    A small library instance and a few frames on which the definitions
    can be run. *)

Module sample.

(** Strict UTF-8: one to four bytes per code point, no overlong forms, no
    surrogates, nothing above U+10FFFF. *)
Definition continuation (b : byte) : option N :=
  let n := Byte.to_N b in
  if decide (128 ≤ n < 192)%N then Some (n - 128)%N else None.

Fixpoint utf8 (data : list byte) : option (list N) :=
  match data with
  | [] => Some []
  | b0 :: rest =>
      let n0 := Byte.to_N b0 in
      if decide (n0 < 128)%N then cons n0 <$> utf8 rest
      else if decide (194 ≤ n0 < 224)%N then
        match rest with
        | b1 :: rest =>
            c1 ← continuation b1;
            cons ((n0 - 192) * 64 + c1)%N <$> utf8 rest
        | _ => None
        end
      else if decide (224 ≤ n0 < 240)%N then
        match rest with
        | b1 :: b2 :: rest =>
            c1 ← continuation b1;
            c2 ← continuation b2;
            let cp := ((n0 - 224) * 4096 + c1 * 64 + c2)%N in
            if decide (2048 ≤ cp ∧ ¬ (55296 ≤ cp < 57344))%N
            then cons cp <$> utf8 rest else None
        | _ => None
        end
      else if decide (240 ≤ n0 < 245)%N then
        match rest with
        | b1 :: b2 :: b3 :: rest =>
            c1 ← continuation b1;
            c2 ← continuation b2;
            c3 ← continuation b3;
            let cp := ((n0 - 240) * 262144 + c1 * 4096 + c2 * 64 + c3)%N in
            if decide (65536 ≤ cp < 1114112)%N
            then cons cp <$> utf8 rest else None
        | _ => None
        end
      else None
  end.

(** Windows-1252: the bytes 0x80..0x9F have characters of their own, and
    five of them have none. *)
Definition cp1252_high : list (option N) :=
  [Some 8364; None; Some 8218; Some 402; Some 8222; Some 8230; Some 8224; Some 8225;
   Some 710; Some 8240; Some 352; Some 8249; Some 338; None; Some 381; None;
   None; Some 8216; Some 8217; Some 8220; Some 8221; Some 8226; Some 8211; Some 8212;
   Some 732; Some 8482; Some 353; Some 8250; Some 339; None; Some 382; Some 376]%N.

Definition cp1252 (data : list byte) : option (list N) :=
  mapM (λ b, let n := Byte.to_N b in
             if decide (128 ≤ n < 160)%N
             then mjoin (cp1252_high !! N.to_nat (n - 128))
             else Some n) data.

(** Rows labelled by a [RangeIndex] starting at [start] *)
Fixpoint ranged (start : Z) (values : list (list cell)) : list row :=
  match values with
  | [] => []
  | v :: values => Row start v :: ranged (start + 1) values
  end.

(** A reader for one-column files of text: the first line names the
    column, every further line is one row. *)
Fixpoint lines (cur : string) (text : list N) : list string :=
  match text with
  | [] => if decide (cur = EmptyString) then [] else [String.rev cur]
  | c :: text =>
      if decide (c = 10%N) then String.rev cur :: lines EmptyString text
      else lines (String (ascii_of_N c) cur) text
  end.

Definition one_column (text : list N) : DataFrame + parse_error :=
  match lines EmptyString text with
  | [] => inr EmptyDataError
  | name :: body =>
      inl (Frame [(name, object_)] (ranged 0 ((λ s, [Str s]) <$> body)))
  end.

(** A detector that flags the samples whose first coordinate exceeds 50. *)
Definition threshold (contamination : Qc) (random_state : Z) (X : list (list cell))
  : list Z + exn :=
  inl ((λ x, match x with
             | Num v :: _ => if decide (Qc_of_Z 50 < v)%Qc then (-1)%Z else 1%Z
             | _ => 1%Z
             end) <$> X).

(** The statistics of a column of numbers; the sample library answers the
    null for a column that holds text. *)
Definition of_numbers (f : list cell → cell) (s : list cell) : cell :=
  if decide (Exists pd.is_text s) then NaN else f s.

Definition libraries : Libraries := {|
  decode_utf8 := utf8;
  decode_cp1252 := cp1252;
  parse_csv := one_column;
  read_excel := λ _, inr ValueError;
  fit_predict := threshold;
  mean := of_numbers exact.mean;
  median := of_numbers exact.median;
  quantile := λ q, of_numbers (exact.quantile q)
|}.

(** Arithmetic without rounding *)
Definition floats : Floats := {|
  fadd := Qcplus;
  fsub := Qcminus;
  fmul := Qcmult;
  fdiv := Qcdiv;
  round2 := exact.round2;
  np_round2 := exact.round2
|}.

(** One float column [x] over the labels 0, 1, 2, ... *)
Definition series (name : string) (xs : list cell) : DataFrame :=
  Frame [(name, float64)] (ranged 0 ((λ c, [c]) <$> xs)).

Definition z (n : Z) : cell := Num (Qc_of_Z n).

(** the values 1..11 followed by a null *)
Definition eleven_and_null : DataFrame :=
  series "x" ((z <$> [1; 2; 3; 4; 5; 6; 7; 8; 9; 10; 11]%Z) ++ [NaN]).

(** ten values, eleven values, and eleven values with one far out *)
Definition ten : DataFrame :=
  series "x" (z <$> [1; 2; 3; 4; 5; 6; 7; 8; 9; 100]%Z).
Definition eleven_far : DataFrame :=
  series "x" (z <$> [1; 2; 3; 4; 5; 6; 7; 8; 9; 10; 100]%Z).

Definition six : DataFrame := series "x" (z <$> [1; 2; 3; 4; 5; 100]%Z).

(** the six values, and beside them eleven values whose quartiles are 2.25
    and 4.75 *)
Definition six_and_eleven : DataFrame :=
  Frame [("x", float64); ("y", float64)]%string
        (ranged 0 (zip_with (λ x y, [x; y])
                   ((z <$> [1; 2; 3; 4; 5; 100]%Z) ++ replicate 5 NaN)
                   (Num <$> [Q2Qc 1; Q2Qc 1.5; Q2Qc 2; Q2Qc 2.5; Q2Qc 3; Q2Qc 3.5;
                             Q2Qc 4; Q2Qc 4.5; Q2Qc 5; Q2Qc 5; Q2Qc 100]))).

(** rows 0 and 1 agree, and so do the two null rows 3 and 4 *)
Definition repeated : DataFrame := series "x" [z 1; z 1; z 2; NaN; NaN].

Definition gap : DataFrame := series "x" [z 1; NaN; z 3].

Definition filled : DataFrame := series "x" [z 1; z 2; z 3].

(** two numeric columns, each with 11 values, that share only 9 rows *)
Definition staggered : DataFrame :=
  Frame [("x", float64); ("y", float64)]%string
        (ranged 0 (zip_with (λ x y, [x; y])
                   ((z <$> [1; 2; 3; 4; 5; 6; 7; 8; 9; 10; 11]%Z) ++ [NaN; NaN])
                   ([NaN; NaN] ++ (z <$> [1; 2; 3; 4; 5; 6; 7; 8; 9; 10; 11]%Z)))).

Definition store (d : DataFrame) : state :=
  State {[ 1%positive := d ]} ∅ [].

(** A file of [n] lines [a] under the header [v], and the frame it reads as *)
Definition text_file (n : Z) : list byte :=
  [x76; x0a] ++ mjoin (replicate (Z.to_nat n) [x61; x0a]).
Definition text_frame (n : Z) : DataFrame :=
  Frame [("v", object_)]%string
        (ranged 0 (replicate (Z.to_nat n) [Str "a"])).
Definition disk (data : list byte) : state :=
  State ∅ {[ "data.csv"%string := data ]} [].


(** a text column and a numeric column, each with gaps *)
Definition mixed : DataFrame :=
  Frame [("city", object_); ("x", float64)]%string
        (ranged 0 [[Str "b"; z 1]; [NaN; NaN]; [Str "a"; z 4]; [Str "b"; NaN];
                   [Str "a"; z 1]; [Str "b"; z 1]]).

(** columns of dtype [object] that hold numbers, numbers and text, two
    values equally often, and no value at all *)
Definition objects : DataFrame :=
  Frame [("sevens", object_); ("ones", object_); ("tied", object_);
         ("nothing", object_)]%string
        (ranged 0 [[z 7; z 1; Str "b"; NaN]; [z 7; z 1; z 2; NaN];
                   [NaN; Str "a"; NaN; NaN]; [NaN; NaN; z 2; NaN];
                   [NaN; NaN; Str "b"; NaN]]).

(** Writers that leave one byte per row at the path, for the examples *)
Definition writers : Writers := {|
  to_csv := λ d _, {| content := Some (replicate (pd.len d) x61); raised := None |};
  to_excel := λ d _, {| content := Some (replicate (pd.len d) x62); raised := None |};
  to_json := λ d _, {| content := Some (replicate (pd.len d) x63); raised := None |}
|}.

(** twelve complete rows with distinct labels; the value in row 11 is far
    out *)
Definition twelve : DataFrame :=
  series "x" (z <$> [1; 2; 3; 4; 5; 6; 7; 8; 9; 10; 11; 100]%Z).

(** plotly for the examples: the palette, and markup that only names the
    division *)
Definition plotly : Plotly := {|
  Set3 := ["rgb(141,211,199)"; "rgb(255,255,179)"; "rgb(190,186,218)";
           "rgb(251,128,114)"; "rgb(128,177,211)"; "rgb(253,180,98)";
           "rgb(179,222,105)"; "rgb(252,205,229)"; "rgb(217,217,217)";
           "rgb(188,128,189)"; "rgb(204,235,197)"; "rgb(255,237,111)"]%string;
  to_html := λ _ div_id, inl ("<div id=" +:+ div_id +:+ "></div>")%string;
  div_id_of_values := λ _, "chart-1"%string;
  div_id_of_names := λ _, "chart-2"%string;
  div_id_of_table := λ _, "chart-3"%string
|}.

(** plotly whose rendering raises *)
Definition failing_plotly : Plotly := {|
  Set3 := Set3 (Plotly := plotly);
  to_html := λ _ _, inr ValueError;
  div_id_of_values := div_id_of_values (Plotly := plotly);
  div_id_of_names := div_id_of_names (Plotly := plotly);
  div_id_of_table := div_id_of_table (Plotly := plotly)
|}.

(** The generator as [routes.py] builds it *)
Definition chart_generator : ChartGenerator := ChartGenerator_init (H := plotly).

(** Aggregations for the examples: rows left in place, no grouping, and
    every distinct value counted once *)
Definition aggregates : Aggregates := {|
  sort_values := λ d _, inl d;
  groupby_sum := λ _ _ _, inr ValueError;
  value_counts := λ s, (λ c, (c, z 1)) <$> remove_dups (dropna_values s)
|}.

(** two numeric columns with gaps in different rows *)
Definition pairs : DataFrame :=
  Frame [("x", float64); ("y", float64)]%string
        (ranged 0 [[z 1; z 10]; [NaN; z 20]; [z 3; NaN]; [z 4; z 40]]).
End sample.

(** * Properties *)

(** ** The store *)

Lemma read_Some σ l d : heap σ !! l = Some d → read l σ = Some (d, σ).
Proof. intros Hl. unfold read. by rewrite Hl. Qed.

Lemma fresh_heap σ : heap σ !! fresh (dom (heap σ)) = None.
Proof. apply not_elem_of_dom, is_fresh. Qed.

Lemma fresh_heap_ne σ l d : heap σ !! l = Some d → fresh (dom (heap σ)) ≠ l.
Proof. intros Hl Heq. rewrite <- Heq, fresh_heap in Hl. discriminate. Qed.

Lemma bind_read {A} σ l d (k : DataFrame → M A) :
  heap σ !! l = Some d → bind (read l) k σ = k d σ.
Proof. intros Hl. unfold bind. by rewrite (read_Some _ _ _ Hl). Qed.


(** ** Duplicates *)

Lemma dedup_cons seen r rs :
  dedup seen (r :: rs) =
  if decide (cells r ∈ seen) then dedup (cells r :: seen) rs
  else r :: dedup (cells r :: seen) rs.
Proof.
  unfold dedup. simpl. destruct (decide (cells r ∈ seen)) as [Hin|Hin].
  - by rewrite bool_decide_eq_true_2.
  - by rewrite bool_decide_eq_false_2.
Qed.

Lemma dedup_dedup rs : ∀ seen seen',
  seen' ⊆ seen → dedup seen' (dedup seen rs) = dedup seen rs.
Proof.
  induction rs as [|r rs IH]; intros seen seen' Hsub; [done|].
  rewrite dedup_cons. destruct (decide (cells r ∈ seen)) as [Hin|Hin].
  - apply IH. intros x Hx. right. by apply Hsub.
  - rewrite dedup_cons.
    destruct (decide (cells r ∈ seen')) as [Hin'|_]; [by apply Hsub in Hin'|].
    f_equal. apply IH. intros x [->|Hx]%elem_of_cons; [by left|right; by apply Hsub].
Qed.

Lemma drop_duplicates_idem d :
  pd.drop_duplicates (pd.drop_duplicates d) = pd.drop_duplicates d.
Proof.
  unfold pd.drop_duplicates, pd.duplicated. simpl. f_equal.
  by apply (dedup_dedup (rows d) [] []).
Qed.

Lemma remove_duplicates_run σ df d :
  heap σ !! df = Some d →
  remove_duplicates df σ =
  Some (fresh (dom (heap σ)),
        State (<[fresh (dom (heap σ)) := pd.drop_duplicates d]> (heap σ)) (files σ)
              (logged σ ++ [(INFO, Removed_duplicates
                 (Z.of_nat (pd.len d) - Z.of_nat (pd.len (pd.drop_duplicates d))))])).
Proof. intros Hl. unfold remove_duplicates. rewrite (bind_read _ _ _ _ Hl). reflexivity. Qed.

(** C7. Deduplication is idempotent: running [remove_duplicates] on its own
    result yields a table equal to that result. *)
Theorem remove_duplicates_idempotent σ df d :
  heap σ !! df = Some d →
  ∃ df1 σ1 d1 df2 σ2,
    remove_duplicates df σ = Some (df1, σ1) ∧ heap σ1 !! df1 = Some d1 ∧
    remove_duplicates df1 σ1 = Some (df2, σ2) ∧ heap σ2 !! df2 = Some d1.
Proof.
  intros Hl. eexists _, _, (pd.drop_duplicates d), _, _.
  split; [by apply remove_duplicates_run|].
  assert (heap (State (<[fresh (dom (heap σ)) := pd.drop_duplicates d]> (heap σ))
                      (files σ)
                      (logged σ ++ [(INFO, Removed_duplicates
                         (Z.of_nat (pd.len d) - Z.of_nat (pd.len (pd.drop_duplicates d))))]))
          !! fresh (dom (heap σ)) = Some (pd.drop_duplicates d)) as Hl1
    by (simpl; apply lookup_insert_eq).
  split; [exact Hl1|].
  split; [by apply remove_duplicates_run|].
  simpl. rewrite lookup_insert_eq. by rewrite drop_duplicates_idem.
Qed.

Lemma remove_duplicates_idempotent_witness :
  heap (sample.store sample.repeated) !! 1%positive = Some sample.repeated ∧
  ∃ df1 σ1 d1 df2 σ2,
    remove_duplicates 1%positive (sample.store sample.repeated) = Some (df1, σ1) ∧
    heap σ1 !! df1 = Some d1 ∧
    remove_duplicates df1 σ1 = Some (df2, σ2) ∧ heap σ2 !! df2 = Some d1.
Proof.
  split; [reflexivity|].
  apply (remove_duplicates_idempotent _ _ sample.repeated). reflexivity.
Defined.

(** ** What each cleaning method does to the store *)

Lemma set_col_columns d name s : columns (pd.set_col d name s) = columns d.
Proof. unfold pd.set_col. by destruct (pd.position d name). Qed.

Lemma set_cols_columns names new : ∀ d, columns (pd.set_cols d names new) = columns d.
Proof.
  unfold pd.set_cols. induction names as [|n names IH]; intros d; [done|].
  simpl. rewrite IH. apply set_col_columns.
Qed.

Lemma write_Some σ l d d' :
  heap σ !! l = Some d →
  write l d' σ = Some ((), State (<[l:=d']> (heap σ)) (files σ) (logged σ)).
Proof. intros Hl. unfold write. by rewrite Hl. Qed.

(** The loop of [fill_mode] only ever rewrites the frame [df], and keeps
    its columns. *)
Lemma fill_mode_loop df names : ∀ σ d,
  heap σ !! df = Some d →
  ∃ d', for_each names (fill_mode_column df) σ
        = Some ((), State (<[df:=d']> (heap σ)) (files σ) (logged σ))
        ∧ columns d' = columns d.
Proof.
  induction names as [|n names IH]; intros σ d Hl.
  - exists d. split; [|done]. simpl. unfold ret. rewrite insert_id by done.
    by destruct σ.
  - simpl. unfold bind at 1. unfold fill_mode_column at 1. rewrite (bind_read _ _ _ _ Hl).
    destruct (decide (pd.dtype_of d n = Some object_)).
    + rewrite (write_Some _ _ d) by done.
      edestruct (IH (State (<[df:=pd.set_col d n
                     (pd.fillna match pd.mode (pd.col d n) with
                                | [] => Str "Unknown"
                                | m :: _ => m
                                end (pd.col d n))]> (heap σ)) (files σ) (logged σ)))
        as (d' & Hrun & Hcols); [simpl; apply lookup_insert_eq|].
      exists d'. rewrite Hrun. simpl. rewrite insert_insert_eq.
      split; [done|]. by rewrite Hcols, set_col_columns.
    + unfold ret at 1. by apply IH.
Qed.

Section filling.
Context `{Libraries}.

Lemma handle_missing_values_drop σ df d :
  heap σ !! df = Some d →
  handle_missing_values df "drop" σ =
  Some (fresh (dom (heap σ)),
        State (<[fresh (dom (heap σ)) := pd.dropna d]> (heap σ)) (files σ) (logged σ)).
Proof. intros Hl. unfold handle_missing_values. simpl. by rewrite (bind_read _ _ _ _ Hl). Qed.

(** The three filling strategies write into the frame they were given and
    return that frame. *)
Lemma handle_missing_values_fill σ df d strategy :
  heap σ !! df = Some d →
  strategy ∈ ["fill_mean"; "fill_median"; "fill_mode"]%string →
  ∃ d', handle_missing_values df strategy σ
        = Some (df, State (<[df:=d']> (heap σ)) (files σ) (logged σ))
        ∧ columns d' = columns d.
Proof.
  intros Hl Hs. unfold handle_missing_values.
  rewrite !elem_of_cons, elem_of_nil in Hs.
  destruct Hs as [->|[->|[->|[]]]]; simpl.
  - rewrite (bind_read _ _ _ _ Hl). unfold bind. rewrite (write_Some _ _ d) by done.
    eexists. split; [reflexivity|]. apply set_cols_columns.
  - rewrite (bind_read _ _ _ _ Hl). unfold bind. rewrite (write_Some _ _ d) by done.
    eexists. split; [reflexivity|]. apply set_cols_columns.
  - rewrite (bind_read _ _ _ _ Hl). unfold bind.
    destruct (fill_mode_loop df (columns d).*1 σ d Hl) as (d' & -> & Hcols).
    by exists d'.
Qed.

Lemma handle_missing_values_other σ df strategy :
  strategy ∉ ["drop"; "fill_mean"; "fill_median"; "fill_mode"]%string →
  handle_missing_values df strategy σ = Some (df, σ).
Proof.
  intros Hs. unfold handle_missing_values.
  repeat (destruct (decide (strategy = _)) as [->|_];
          [exfalso; apply Hs; rewrite !elem_of_cons; auto|]).
  done.
Qed.

End filling.

(** ** Selecting rows through the index *)

Lemma keep_fmap {A B} (f : A → B) xs : ∀ mask,
  pd.keep mask (f <$> xs) = f <$> pd.keep mask xs.
Proof.
  induction xs as [|x xs IH]; intros [|[] mask]; simpl; try done.
  by rewrite IH.
Qed.

Lemma keep_elem_of {A} (xs : list A) x : ∀ mask, x ∈ pd.keep mask xs → x ∈ xs.
Proof.
  induction xs as [|y xs IH]; intros [|[] mask]; simpl; intros Hx;
    try (by apply elem_of_nil in Hx).
  - apply elem_of_cons in Hx as [->|Hx]; [by left|right; by apply (IH mask)].
  - right. by apply (IH mask).
Qed.

Lemma filter_none {A} (P : A → Prop) `{∀ x, Decision (P x)} (xs : list A) :
  (∀ x, x ∈ xs → ¬ P x) → filter P xs = [].
Proof.
  induction xs as [|x xs IH]; intros Hno; [done|].
  rewrite filter_cons_False; [apply IH|apply Hno; by left].
  intros y Hy. apply Hno. by right.
Qed.

(** With distinct labels, a label picks the one row that carries it. *)
Lemma filter_label_unique (rs : list row) y :
  NoDup (label <$> rs) → y ∈ rs →
  filter (λ r, label r = label y) rs = [y].
Proof.
  induction rs as [|r rs IH]; intros Hnd Hy; [by inversion Hy|].
  rewrite fmap_cons, NoDup_cons in Hnd. destruct Hnd as [Hr Hnd].
  apply elem_of_cons in Hy as [->|Hy].
  - rewrite filter_cons_True by done. f_equal.
    apply filter_none. intros r' Hr' Heq. apply Hr.
    rewrite <- Heq. by apply list_elem_of_fmap_2.
  - rewrite filter_cons_False; [by apply IH|].
    intros Heq. apply Hr. rewrite Heq. by apply list_elem_of_fmap_2.
Qed.

Lemma loc_of_labels (rs ys : list row) :
  NoDup (label <$> rs) → (∀ y, y ∈ ys → y ∈ rs) →
  (label <$> ys) ≫= (λ l, filter (λ r, label r = l) rs) = ys.
Proof.
  intros Hnd. induction ys as [|y ys IH]; intros Hin; [done|].
  rewrite fmap_cons, bind_cons, filter_label_unique, IH; try done.
  - intros y' Hy'. apply Hin. by right.
  - apply Hin. by left.
Qed.

(** The index of the fit set: the labels of the rows of [d] that have no
    null in the evaluated columns. *)
Lemma data_for_outliers_rows d :
  rows (data_for_outliers d)
  = (λ r, Row (label r) ((λ n, pd.cell_at d n r) <$> valid_columns d))
    <$> filter (λ r, NaN ∉ (λ n, pd.cell_at d n r) <$> valid_columns d) (rows d).
Proof.
  unfold data_for_outliers, pd.dropna, pd.select. simpl.
  induction (rows d) as [|r rs IH]; [done|].
  rewrite fmap_cons, !filter_cons. simpl.
  destruct (decide (NaN ∉ _)); by rewrite IH.
Qed.

Lemma data_for_outliers_index d :
  pd.index (data_for_outliers d)
  = label <$> filter (λ r, NaN ∉ (λ n, pd.cell_at d n r) <$> valid_columns d) (rows d).
Proof.
  unfold pd.index. rewrite data_for_outliers_rows, <- list_fmap_compose.
  by apply list_fmap_ext.
Qed.

Section outliers.
Context `{Libraries}.

(** [remove_outliers] either hands back the frame it was given, with one
    record added to the log, or stores the selected rows as a new frame. *)
Lemma remove_outliers_run σ df d :
  heap σ !! df = Some d →
  (∃ record, remove_outliers df σ
             = Some (df, State (heap σ) (files σ) (logged σ ++ [record])))
  ∨ (∃ outlier_labels removed,
       fit_predict (Q2Qc 0.1) 42 (pd.values (data_for_outliers d)) = inl outlier_labels
       ∧ length outlier_labels = pd.len (data_for_outliers d)
       ∧ valid_columns d ≠ []
       ∧ 10 ≤ pd.len (data_for_outliers d)
       ∧ remove_outliers df σ
         = Some (fresh (dom (heap σ)),
                 State (<[fresh (dom (heap σ)) :=
                          pd.loc d (pd.keep ((λ y, bool_decide (y = 1%Z)) <$> outlier_labels)
                                            (pd.index (data_for_outliers d)))]> (heap σ))
                       (files σ)
                       (logged σ ++ [(INFO, Removed_outliers removed)]))).
Proof.
  intros Hl. unfold remove_outliers. rewrite (bind_read _ _ _ _ Hl).
  destruct (decide (length (pd.select_dtypes_number d) = 0)); [left; by eexists|].
  destruct (decide (valid_columns d = [])); [left; by eexists|].
  destruct (decide (pd.len (data_for_outliers d) < 10)); [left; by eexists|].
  destruct (fit_predict _ _ _) as [outlier_labels|e] eqn:Hfit; [|left; by eexists].
  unfold index_mask.
  destruct (decide (length _ = length _)) as [Hlen|Hlen]; [|left; by eexists].
  right. exists outlier_labels. eexists. split; [done|].
  split; [|split; [done|split; [lia|reflexivity]]].
  rewrite length_fmap in Hlen. rewrite Hlen. unfold pd.index, pd.len.
  by rewrite length_fmap.
Qed.

(** With at least one evaluated column, at least 10 complete rows and one
    label per complete row, the rows selected through the index are stored
    as a new frame. *)
Lemma remove_outliers_proceeds σ df d outlier_labels :
  heap σ !! df = Some d →
  valid_columns d ≠ [] →
  10 ≤ pd.len (data_for_outliers d) →
  fit_predict (Q2Qc 0.1) 42 (pd.values (data_for_outliers d)) = inl outlier_labels →
  length outlier_labels = pd.len (data_for_outliers d) →
  ∃ removed,
    remove_outliers df σ
    = Some (fresh (dom (heap σ)),
            State (<[fresh (dom (heap σ)) :=
                     pd.loc d (pd.keep ((λ y, bool_decide (y = 1%Z)) <$> outlier_labels)
                                       (pd.index (data_for_outliers d)))]> (heap σ))
                  (files σ)
                  (logged σ ++ [(INFO, Removed_outliers removed)])).
Proof.
  intros Hl Hvalid Hrows Hfit Hlen. unfold remove_outliers. rewrite (bind_read _ _ _ _ Hl).
  destruct (decide (length (pd.select_dtypes_number d) = 0)) as [Hnum|_].
  { apply nil_length_inv in Hnum. unfold valid_columns in Hvalid.
    by rewrite Hnum in Hvalid. }
  destruct (decide (valid_columns d = [])); [done|].
  destruct (decide (pd.len (data_for_outliers d) < 10)); [lia|].
  rewrite Hfit. unfold index_mask.
  destruct (decide (length _ = length _)) as [_|Hne]; [by eexists|].
  exfalso. apply Hne. unfold pd.index. rewrite !length_fmap. exact Hlen.
Qed.

(** C1, as the code has it.  When the detector runs on a frame with
    distinct labels, the result holds exactly the rows that are complete in
    the evaluated columns and that the detector labels [1]; a row with a
    null in an evaluated column is never in the fit set and is dropped from
    the result, whatever the detector answers. *)
Theorem remove_outliers_drops_rows_with_nulls σ df d outlier_labels :
  heap σ !! df = Some d →
  NoDup (pd.index d) →
  valid_columns d ≠ [] →
  10 ≤ pd.len (data_for_outliers d) →
  fit_predict (Q2Qc 0.1) 42 (pd.values (data_for_outliers d)) = inl outlier_labels →
  length outlier_labels = pd.len (data_for_outliers d) →
  ∃ l σ' d',
    remove_outliers df σ = Some (l, σ') ∧ heap σ' !! l = Some d'
    ∧ rows d' = pd.keep ((λ y, bool_decide (y = 1%Z)) <$> outlier_labels)
                  (filter (λ r, NaN ∉ (λ n, pd.cell_at d n r) <$> valid_columns d)
                          (rows d))
    ∧ ∀ r col, r ∈ rows d → col ∈ valid_columns d → pd.cell_at d col r = NaN →
               r ∉ rows d'.
Proof.
  intros Hl Hnd Hvalid Hrows Hfit Hlen.
  destruct (remove_outliers_proceeds σ df d outlier_labels) as [removed Hrun]; try done.
  eexists _, _, _. split; [exact Hrun|]. simpl. rewrite lookup_insert_eq.
  split; [reflexivity|].
  assert (rows (pd.loc d (pd.keep ((λ y, bool_decide (y = 1%Z)) <$> outlier_labels)
                                  (pd.index (data_for_outliers d))))
          = pd.keep ((λ y, bool_decide (y = 1%Z)) <$> outlier_labels)
              (filter (λ r, NaN ∉ (λ n, pd.cell_at d n r) <$> valid_columns d) (rows d)))
    as Hkept.
  { unfold pd.loc. simpl. rewrite data_for_outliers_index, keep_fmap.
    apply loc_of_labels; [exact Hnd|].
    intros y Hy%keep_elem_of. by apply list_elem_of_filter in Hy as [_ ?]. }
  split; [exact Hkept|].
  intros r col Hr Hcol Hnull Hin. rewrite Hkept in Hin.
  apply keep_elem_of, list_elem_of_filter in Hin as [Hcomplete _].
  apply Hcomplete. rewrite <- Hnull. by apply (list_elem_of_fmap_2 (λ n, pd.cell_at d n r)).
Qed.

(** C8. When no numeric column has more than 10 non-null values, or those
    columns leave fewer than 10 complete rows, [remove_outliers] returns
    the frame it was given and changes no frame: nothing is removed, and
    the call does not fail. *)
Theorem remove_outliers_skips σ df d :
  heap σ !! df = Some d →
  valid_columns d = [] ∨ pd.len (data_for_outliers d) < 10 →
  ∃ warning, remove_outliers df σ
             = Some (df, State (heap σ) (files σ) (logged σ ++ [(WARNING, warning)])).
Proof.
  intros Hl Hskip. unfold remove_outliers. rewrite (bind_read _ _ _ _ Hl).
  destruct (decide (length (pd.select_dtypes_number d) = 0)); [by eexists|].
  destruct (decide (valid_columns d = [])); [by eexists|].
  destruct (decide (pd.len (data_for_outliers d) < 10)); [by eexists|].
  by destruct Hskip.
Qed.

(** C9. Each cleaning method yields a frame with the columns of the frame
    it was given, in the same order. *)
Theorem cleaning_preserves_columns σ df d strategy :
  heap σ !! df = Some d →
  (∃ l σ' d', remove_duplicates df σ = Some (l, σ')
              ∧ heap σ' !! l = Some d' ∧ columns d' = columns d)
  ∧ (∃ l σ' d', handle_missing_values df strategy σ = Some (l, σ')
                ∧ heap σ' !! l = Some d' ∧ columns d' = columns d)
  ∧ (∃ l σ' d', remove_outliers df σ = Some (l, σ')
                ∧ heap σ' !! l = Some d' ∧ columns d' = columns d).
Proof.
  intros Hl. split; [|split].
  - eexists _, _, _. split; [by apply remove_duplicates_run|].
    simpl. by rewrite lookup_insert_eq.
  - destruct (decide (strategy = "drop"%string)) as [->|Hdrop].
    { eexists _, _, _. split; [by apply handle_missing_values_drop|].
      simpl. by rewrite lookup_insert_eq. }
    destruct (decide (strategy ∈ ["fill_mean"; "fill_median"; "fill_mode"]%string))
      as [Hfill|Hfill].
    { destruct (handle_missing_values_fill σ df d strategy Hl Hfill) as (d' & Hrun & Hcols).
      eexists _, _, d'. split; [exact Hrun|]. simpl. by rewrite lookup_insert_eq. }
    eexists _, _, d. split; [|done].
    apply handle_missing_values_other.
    rewrite not_elem_of_cons. split; [done|exact Hfill].
  - destruct (remove_outliers_run σ df d Hl)
      as [[record Hrun]|(labels & removed & _ & _ & _ & _ & Hrun)].
    + eexists _, _, d. by split; [exact Hrun|].
    + eexists _, _, _. split; [exact Hrun|]. simpl. by rewrite lookup_insert_eq.
Qed.

(** C6. A cleaning request that selects none of the three operations gives
    back the table it was given, and no frame is touched. *)
Theorem clean_without_options (clean_options : gmap string string) σ df :
  clean_options !! "remove_duplicates"%string = None →
  clean_options !! "handle_missing"%string = None →
  clean_options !! "remove_outliers"%string = None →
  clean clean_options df σ = Some (df, σ).
Proof.
  intros Hd Hm Ho. unfold clean. rewrite Hd, Hm, Ho.
  rewrite !decide_False by (intros [? ?]; discriminate). reflexivity.
Qed.


End outliers.

(** ** The quality report *)

Lemma outlier_mask_count s lower upper :
  length (pd.keep (outlier_mask s lower upper) s) = length (filter (outside lower upper) s).
Proof.
  unfold outlier_mask. induction s as [|c s IH]; [done|].
  rewrite fmap_cons, filter_cons. simpl.
  destruct c as [|x|t]; simpl; try exact IH.
  destruct (decide (x < lower ∨ upper < x)%Qc) as [[Hlo|Hhi]|Hno].
  - rewrite (bool_decide_eq_true_2 _ Hlo). simpl. by rewrite IH.
  - rewrite (bool_decide_eq_true_2 _ Hhi), orb_true_r. simpl. by rewrite IH.
  - rewrite !bool_decide_eq_false_2 by tauto. exact IH.
Qed.

(** A dictionary filled by a loop [for col in names: if ...: acc[col] = f col] *)
Lemma loop_insert_lookup {V} (f : string → option V)
    (g : gmap string V → string → gmap string V) names :
  (∀ acc col, g acc col = match f col with Some e => <[col:=e]> acc | None => acc end) →
  ∀ acc k, foldl g acc names !! k
           = match (if decide (k ∈ names) then f k else None) with
             | Some e => Some e
             | None => acc !! k
             end.
Proof.
  intros Hg. induction names as [|n names IH]; intros acc k.
  - rewrite decide_False; [done|apply not_elem_of_nil].
  - simpl. rewrite IH, Hg. destruct (decide (k ∈ names)) as [Hin|Hin].
    + rewrite decide_True by (apply elem_of_cons; auto).
      destruct (f k) eqn:Hk; [done|].
      destruct (decide (k = n)) as [->|Hne]; [by rewrite Hk|].
      destruct (f n); [by rewrite lookup_insert_ne|done].
    + destruct (decide (k = n)) as [->|Hne].
      * rewrite decide_True by (apply elem_of_cons; auto).
        destruct (f n); [by rewrite lookup_insert_eq|done].
      * rewrite decide_False by (rewrite elem_of_cons; tauto).
        destruct (f n); [by rewrite lookup_insert_ne|done].
Qed.


Section quality_report.
Context `{Libraries} `{Floats}.


(** The outlier section as a function of the column name *)
Lemma outliers_lookup σ df d :
  heap σ !! df = Some d →
  ∃ report,
    get_data_quality_info df σ = Some (report, σ)
    ∧ ∀ col,
        outliers report !! col
        = if decide (col ∈ pd.select_dtypes_number d ∧ 10 < pd.notna_sum (pd.col d col))
          then detect_outliers d col else None.
Proof.
  intros Hl. eexists. split.
  { unfold get_data_quality_info. rewrite (bind_read _ _ _ _ Hl). reflexivity. }
  intros col. simpl.
  rewrite (loop_insert_lookup
             (λ col, if decide (10 < pd.notna_sum (pd.col d col))
                     then detect_outliers d col else None));
    [|intros acc c; by destruct (decide (10 < _))].
  rewrite lookup_empty.
  destruct (decide (col ∈ pd.select_dtypes_number d)) as [Hin|Hin].
  - destruct (decide (10 < pd.notna_sum (pd.col d col))) as [Hn|Hn].
    + rewrite decide_True by done. by destruct (detect_outliers d col).
    + rewrite decide_False; [done|tauto].
  - rewrite decide_False; [done|tauto].
Qed.

(** C5, amended. The quartile computation runs only for a numeric column
    with more than 10 non-null values: a column with at most 10, such as
    one holding just 1, 2, 3, 4, 5 and 100, gets no entry, whatever its
    values.  For a column on which it runs and whose quartiles are 2.25
    and 4.75, with the subtractions, the product and the sum exact on
    these numbers as they are in binary floating point, the range between
    the quartiles is 2.5 and the bounds are -1.5 and 8.5; the entry counts
    the values strictly outside them, which 100 is and 1, 2, 3, 4 and 5 are
    not. *)
Theorem iqr_needs_more_than_ten_values σ df d col :
  heap σ !! df = Some d →
  col ∈ pd.select_dtypes_number d →
  10 < pd.notna_sum (pd.col d col) →
  quantile (Q2Qc 0.25) (pd.col d col) = Num (Q2Qc 2.25) →
  quantile (Q2Qc 0.75) (pd.col d col) = Num (Q2Qc 4.75) →
  fsub (Q2Qc 4.75) (Q2Qc 2.25) = Q2Qc 2.5 →
  fmul (Q2Qc 1.5) (Q2Qc 2.5) = Q2Qc 3.75 →
  fsub (Q2Qc 2.25) (Q2Qc 3.75) = Q2Qc (-1.5) →
  fadd (Q2Qc 4.75) (Q2Qc 3.75) = Q2Qc 8.5 →
  ∃ report,
    get_data_quality_info df σ = Some (report, σ)
    ∧ (∀ c, pd.notna_sum (pd.col d c) ≤ 10 → outliers report !! c = None)
    ∧ (let n := length (filter (outside (Q2Qc (-1.5)) (Q2Qc 8.5)) (pd.col d col)) in
       outliers report !! col
       = if decide (0 < n)
         then Some {| count := n;
                      percentage :=
                        round2 (fmul (fdiv (pd.of_nat n) (pd.of_nat (pd.len d)))
                                     (Qc_of_Z 100));
                      lower_bound := Q2Qc (-1.5);
                      upper_bound := Q2Qc 8.5 |}
         else None)
    ∧ (Num (Qc_of_Z 100) ∈ pd.col d col → is_Some (outliers report !! col))
    ∧ outside (Q2Qc (-1.5)) (Q2Qc 8.5) (Num (Qc_of_Z 100))
    ∧ Forall (λ v, ¬ outside (Q2Qc (-1.5)) (Q2Qc 8.5) (Num (Qc_of_Z v))) [1; 2; 3; 4; 5]%Z.
Proof.
  intros Hl Hin Hn HQ1 HQ3 Hiqr Hmul Hlower Hupper.
  destruct (outliers_lookup σ df d Hl) as (report & Hrun & Hlookup).
  exists report. split; [exact Hrun|].
  assert (outliers report !! col
          = if decide (0 < length (filter (outside (Q2Qc (-1.5)) (Q2Qc 8.5)) (pd.col d col)))
            then Some {| count := length (filter (outside (Q2Qc (-1.5)) (Q2Qc 8.5))
                                            (pd.col d col));
                         percentage :=
                           round2 (fmul (fdiv (pd.of_nat
                                                 (length (filter (outside (Q2Qc (-1.5))
                                                                    (Q2Qc 8.5))
                                                            (pd.col d col))))
                                              (pd.of_nat (pd.len d)))
                                        (Qc_of_Z 100));
                         lower_bound := Q2Qc (-1.5);
                         upper_bound := Q2Qc 8.5 |}
            else None) as Hentry.
  { rewrite Hlookup, decide_True by done. unfold detect_outliers.
    rewrite HQ1, HQ3. cbv zeta. rewrite Hiqr, Hmul, Hlower, Hupper.
    by rewrite outlier_mask_count. }
  assert (outside (Q2Qc (-1.5)) (Q2Qc 8.5) (Num (Qc_of_Z 100))) as Hfar
    by compute_done.
  split; [|split; [exact Hentry|split; [|split; [exact Hfar|]]]].
  - intros c Hc. rewrite Hlookup. apply decide_False. lia.
  - intros Hhundred. rewrite Hentry.
    assert (Num (Qc_of_Z 100) ∈ filter (outside (Q2Qc (-1.5)) (Q2Qc 8.5)) (pd.col d col))
      as Hflagged by (by apply list_elem_of_filter).
    destruct (filter _ _) as [|c cs]; [by apply elem_of_nil in Hflagged|].
    by rewrite decide_True by (simpl; lia).
  - compute_done.
Qed.

End quality_report.

(** ** Loading *)

Section loading.
Context `{Libraries}.

Lemma read_csv_latin_1 data encoding :
  encoding = "latin-1"%string ∨ encoding = "iso-8859-1"%string →
  read_csv data encoding ≠ inr UnicodeDecodeError.
Proof.
  intros Henc. unfold read_csv, decode. destruct data as [bytes|]; [|done].
  destruct (decide (encoding = "utf-8"%string)) as [->|_];
    [by destruct Henc|].
  rewrite decide_True by exact Henc. by destruct (parse_csv _).
Qed.

(** With Latin-1 among the candidates the loop never runs out of
    encodings: it reads a frame, or an error other than a decoding error
    leaves the loop. *)
Lemma try_encodings_latin_1 data candidates :
  (∃ encoding, encoding ∈ candidates
               ∧ (encoding = "latin-1"%string ∨ encoding = "iso-8859-1"%string)) →
  ∀ σ,
    (∃ encoding df,
        try_encodings data candidates σ
        = Some (Next df, State (heap σ) (files σ)
                               (logged σ ++ [(INFO, Loaded_csv encoding)])))
    ∨ (∃ e, e ≠ UnicodeDecodeError
            ∧ try_encodings data candidates σ = Some (Raise e, σ)).
Proof.
  induction candidates as [|c candidates IH]; intros (encoding & Hin & Henc) σ.
  { by apply elem_of_nil in Hin. }
  simpl. destruct (read_csv data c) as [df|e] eqn:Hread.
  { left. by exists c, df. }
  destruct (decide (e = UnicodeDecodeError)) as [->|He].
  - apply IH. exists encoding. split; [|exact Henc].
    apply elem_of_cons in Hin as [->|Hin]; [|exact Hin].
    by apply read_csv_latin_1 in Hread.
  - right. exists e. split; [exact He|]. by destruct e as [| | |pe| |].
Qed.

(** The three ways [read_file] ends for the processor built by [init] *)
Lemma read_file_init σ file_path :
  let file_extension := default EmptyString (last (split "." (lower file_path))) in
  (∃ df m, read_file init file_path σ
           = Some (Next df, State (heap σ) (files σ) (logged σ ++ [(INFO, m)])))
  ∨ (∃ e, read_file init file_path σ = Some (Raise e, σ)
          ∧ (file_extension = "csv"%string → e ≠ UnicodeDecodeError))
  ∨ (read_file init file_path σ
     = Some (Return None,
             State (heap σ) (files σ)
                   (logged σ ++ [(ERROR, Unsupported_format file_extension)]))
     ∧ file_extension ≠ "csv"%string).
Proof.
  intros file_extension. unfold read_file. fold file_extension.
  unfold bind, open_file.
  destruct (decide (file_extension = "csv"%string)) as [Hcsv|Hcsv].
  - destruct (try_encodings_latin_1 (files σ !! file_path) (encodings init)) with σ
      as [(encoding & df & ->)|(e & He & ->)].
    + exists "latin-1"%string. split; [|by left].
      simpl. rewrite !elem_of_cons. auto.
    + left. by eexists _, _.
    + right. left. by exists e.
  - destruct (decide (file_extension ∈ ["xlsx"; "xls"]%string)) as [Hxls|Hxls].
    + destruct (files σ !! file_path) as [bytes|].
      * destruct (read_excel bytes) as [df|e].
        -- left. by eexists _, _.
        -- right. left. by exists e.
      * right. left. by exists FileNotFoundError.
    + right. right. done.
Qed.

(** C10. Loading with the processor built by [init] never takes the
    branch taken when every encoding has failed, whatever the file holds:
    the record [Failed_any_encoding] is not logged.  When the load returns
    [None], the last record names the reason: an unsupported extension
    (not for a [csv] path), an empty frame, or an error caught by the
    handler, which for a [csv] path is not a decoding error. *)
Theorem load_data_never_exhausts_encodings σ file_path :
  let file_extension := default EmptyString (last (split "." (lower file_path))) in
  ∃ result σ' new,
    load_data init file_path σ = Some (result, σ')
    ∧ files σ' = files σ
    ∧ logged σ' = logged σ ++ new
    ∧ ((ERROR, Failed_any_encoding) ∉ new)
    ∧ (result = None →
       ∃ m, last new = Some (ERROR, m)
            ∧ ((m = Unsupported_format file_extension ∧ file_extension ≠ "csv"%string)
               ∨ m = Empty_dataframe
               ∨ ∃ e, m = Error_loading e
                      ∧ (file_extension = "csv"%string → e ≠ UnicodeDecodeError))).
Proof.
  intros file_extension. unfold load_data. unfold bind at 1.
  destruct (read_file_init σ file_path)
    as [(df & m & ->)|[(e & -> & He)|[-> Hext]]].
  - destruct (pd.empty df).
    + eexists _, _, [(INFO, m); (ERROR, Empty_dataframe)].
      split; [reflexivity|]. simpl. rewrite <- app_assoc.
      repeat split; [not_logged|]. intros _. exists Empty_dataframe. auto.
    + destruct (decide (max_rows init < Z.of_nat (pd.len df))%Z).
      * eexists _, _, [(INFO, m); _]. split; [reflexivity|]. simpl.
        rewrite <- app_assoc. repeat split; [not_logged|done].
      * eexists _, _, [(INFO, m)]. split; [reflexivity|]. simpl.
        repeat split; [not_logged|done].
  - eexists _, _, [(ERROR, Error_loading e)]. split; [reflexivity|]. simpl.
    repeat split; [not_logged|]. intros _. exists (Error_loading e).
    split; [done|]. right. right. by exists e.
  - eexists _, _, [(ERROR, Unsupported_format _)]. split; [reflexivity|]. simpl.
    repeat split; [not_logged|]. intros _. eexists. split; [done|]. by left.
Qed.

(** C4, amended. When the file reads as a frame with at least one column
    and more than 100,000 rows, [load_data] succeeds: it returns a new
    frame with the same columns and exactly the first 100,000 rows.  The
    truncation is reported by one warning in the log; the value returned
    is the frame alone. *)
Theorem load_data_truncates σ file_path d σ1 :
  read_file init file_path σ = Some (Next d, σ1) →
  columns d ≠ [] →
  (100000 < Z.of_nat (pd.len d))%Z →
  ∃ l d',
    load_data init file_path σ
    = Some (Some l,
            State (<[l:=d']> (heap σ1)) (files σ1)
                  (logged σ1 ++ [(WARNING, Too_large (Z.of_nat (pd.len d)) 100000)]))
    ∧ heap σ1 !! l = None
    ∧ columns d' = columns d
    ∧ rows d' = take (Z.to_nat 100000) (rows d)
    ∧ Z.of_nat (pd.len d') = 100000%Z.
Proof.
  intros Hread Hcols Hlen. unfold load_data. unfold bind at 1. rewrite Hread.
  assert (pd.empty d = false) as ->.
  { apply bool_decide_eq_false_2. intros [Hr|Hc]; [|done].
    unfold pd.len in Hlen. rewrite Hr in Hlen. simpl in Hlen. lia. }
  rewrite decide_True by exact Hlen.
  exists (fresh (dom (heap σ1))), (pd.head 100000 d).
  split; [reflexivity|]. split; [apply fresh_heap|].
  unfold pd.head. rewrite decide_True by lia. simpl.
  repeat split. unfold pd.len in *. simpl. rewrite length_take. lia.
Qed.

End loading.

(** * The properties on the sample data *)

Lemma remove_outliers_drops_rows_with_nulls_witness :
  let d := sample.eleven_and_null in
  let outlier_labels := replicate 11 1%Z in
  heap (sample.store d) !! 1%positive = Some d
  ∧ NoDup (pd.index d)
  ∧ valid_columns d ≠ []
  ∧ 10 ≤ pd.len (data_for_outliers d)
  ∧ sample.threshold (Q2Qc 0.1) 42 (pd.values (data_for_outliers d)) = inl outlier_labels
  ∧ length outlier_labels = pd.len (data_for_outliers d)
  ∧ ∃ l σ' d',
      remove_outliers (H := sample.libraries) 1%positive (sample.store d) = Some (l, σ')
      ∧ heap σ' !! l = Some d'
      ∧ rows d' = pd.keep ((λ y, bool_decide (y = 1%Z)) <$> outlier_labels)
                    (filter (λ r, NaN ∉ (λ n, pd.cell_at d n r) <$> valid_columns d)
                            (rows d))
      ∧ ∀ r col, r ∈ rows d → col ∈ valid_columns d → pd.cell_at d col r = NaN →
                 r ∉ rows d'.
Proof.
  intros d outlier_labels.
  split; [reflexivity|]. split; [compute_done|]. split; [compute_done|].
  split; [compute_done|]. split; [compute_done|]. split; [reflexivity|].
  apply (remove_outliers_drops_rows_with_nulls (H := sample.libraries));
    [reflexivity|compute_done|compute_done|compute_done|compute_done|reflexivity].
Defined.

(** On the frame with the values 1..11 and one null, the detector of the
    sample flags nothing, and still the row with the null is gone. *)
Lemma remove_outliers_eleven_and_null :
  (λ r, pd.index <$> heap r.2 !! r.1)
    <$> remove_outliers (H := sample.libraries) 1%positive
          (sample.store sample.eleven_and_null)
  = Some (Some [0; 1; 2; 3; 4; 5; 6; 7; 8; 9; 10]%Z)
  ∧ pd.index sample.eleven_and_null = [0; 1; 2; 3; 4; 5; 6; 7; 8; 9; 10; 11]%Z.
Proof. split; compute_done. Qed.



(** The report on the frame with ten values and on the one with eleven
    values, one of them far out. *)
Lemma outlier_report_ten_eleven :
  (λ r, outliers r.1 !! "x"%string)
    <$> get_data_quality_info (H := sample.libraries) (H0 := sample.floats)
          1%positive (sample.store sample.ten)
  = Some None
  ∧ (λ r, outliers r.1 !! "x"%string)
      <$> get_data_quality_info (H := sample.libraries) (H0 := sample.floats)
            1%positive (sample.store sample.eleven_far)
    = Some (Some {| count := 1; percentage := Q2Qc 9.09;
                    lower_bound := Q2Qc (-4); upper_bound := Q2Qc 16 |}).
Proof. split; compute_done. Qed.

(** C5, as stated, fails: the numeric column that holds just 1, 2, 3, 4, 5
    and 100 has six values, the quartiles are not asked for, and the report
    has no entry for it with any library and any arithmetic: 100 is not
    flagged. *)
Lemma six_values_are_not_examined :
  pd.col sample.six "x"
  = [sample.z 1; sample.z 2; sample.z 3; sample.z 4; sample.z 5; sample.z 100]
  ∧ pd.select_dtypes_number sample.six = ["x"%string]
  ∧ ∀ (libraries : Libraries) (floats : Floats),
      (λ r, outliers r.1)
        <$> get_data_quality_info (H := libraries) (H0 := floats)
              1%positive (sample.store sample.six)
      = Some ∅.
Proof.
  split; [compute_done|]. split; [compute_done|]. intros libraries floats.
  destruct (outliers_lookup (H := libraries) (H0 := floats)
              (sample.store sample.six) 1%positive sample.six eq_refl)
    as (report & Hrun & Hlookup).
  rewrite Hrun. simpl. f_equal. apply map_eq. intros col.
  rewrite Hlookup, lookup_empty. apply decide_False. intros [Hin Hn].
  change (pd.select_dtypes_number sample.six) with ["x"%string] in Hin.
  apply list_elem_of_singleton in Hin as ->. vm_compute in Hn. lia.
Qed.

Lemma iqr_needs_more_than_ten_values_witness :
  let σ := sample.store sample.six_and_eleven in
  let d := sample.six_and_eleven in
  heap σ !! 1%positive = Some d
  ∧ "y"%string ∈ pd.select_dtypes_number d
  ∧ 10 < pd.notna_sum (pd.col d "y")
  ∧ quantile (Libraries := sample.libraries) (Q2Qc 0.25) (pd.col d "y") = Num (Q2Qc 2.25)
  ∧ quantile (Libraries := sample.libraries) (Q2Qc 0.75) (pd.col d "y") = Num (Q2Qc 4.75)
  ∧ fsub (Floats := sample.floats) (Q2Qc 4.75) (Q2Qc 2.25) = Q2Qc 2.5
  ∧ fmul (Floats := sample.floats) (Q2Qc 1.5) (Q2Qc 2.5) = Q2Qc 3.75
  ∧ fsub (Floats := sample.floats) (Q2Qc 2.25) (Q2Qc 3.75) = Q2Qc (-1.5)
  ∧ fadd (Floats := sample.floats) (Q2Qc 4.75) (Q2Qc 3.75) = Q2Qc 8.5
  ∧ ∃ report,
      get_data_quality_info (H := sample.libraries) (H0 := sample.floats) 1%positive σ
      = Some (report, σ)
      ∧ (∀ c, pd.notna_sum (pd.col d c) ≤ 10 → outliers report !! c = None)
      ∧ (let n := length (filter (outside (Q2Qc (-1.5)) (Q2Qc 8.5)) (pd.col d "y")) in
         outliers report !! "y"%string
         = if decide (0 < n)
           then Some {| count := n;
                        percentage :=
                          round2 (Floats := sample.floats)
                            (fmul (Floats := sample.floats)
                               (fdiv (Floats := sample.floats)
                                  (pd.of_nat n) (pd.of_nat (pd.len d)))
                               (Qc_of_Z 100));
                        lower_bound := Q2Qc (-1.5);
                        upper_bound := Q2Qc 8.5 |}
           else None)
      ∧ (Num (Qc_of_Z 100) ∈ pd.col d "y" → is_Some (outliers report !! "y"%string))
      ∧ outside (Q2Qc (-1.5)) (Q2Qc 8.5) (Num (Qc_of_Z 100))
      ∧ Forall (λ v, ¬ outside (Q2Qc (-1.5)) (Q2Qc 8.5) (Num (Qc_of_Z v)))
               [1; 2; 3; 4; 5]%Z.
Proof.
  intros σ d. split; [reflexivity|]. split; [compute_done|]. split; [compute_done|].
  split; [compute_done|]. split; [compute_done|]. split; [compute_done|].
  split; [compute_done|]. split; [compute_done|]. split; [compute_done|].
  apply (iqr_needs_more_than_ten_values (H := sample.libraries) (H0 := sample.floats)
           σ 1%positive d "y"); compute_done.
Defined.

(** The report on that frame: nothing for the column of six values, the
    value 100 for the column of eleven. *)
Lemma six_and_eleven_report :
  (λ r, (outliers r.1 !! "x"%string, outliers r.1 !! "y"%string))
    <$> get_data_quality_info (H := sample.libraries) (H0 := sample.floats)
          1%positive (sample.store sample.six_and_eleven)
  = Some (None, Some {| count := 1; percentage := Q2Qc 9.09;
                        lower_bound := Q2Qc (-1.5); upper_bound := Q2Qc 8.5 |}).
Proof. compute_done. Qed.

(** Linear interpolation at the positions [0.25 (n - 1)] and
    [0.75 (n - 1)] of the sorted values puts the quartiles of 1, 2, 3, 4, 5
    and 100 at 2.25 and 4.75, where those of the eleven values are too. *)
Lemma quartiles_of_the_six_values :
  exact.quantile (Q2Qc 0.25) (pd.col sample.six "x") = Num (Q2Qc 2.25)
  ∧ exact.quantile (Q2Qc 0.75) (pd.col sample.six "x") = Num (Q2Qc 4.75)
  ∧ exact.quantile (Q2Qc 0.25) (pd.col sample.six_and_eleven "y") = Num (Q2Qc 2.25)
  ∧ exact.quantile (Q2Qc 0.75) (pd.col sample.six_and_eleven "y") = Num (Q2Qc 4.75).
Proof. repeat split; compute_done. Qed.

Lemma remove_outliers_skips_witness :
  let σ := sample.store sample.staggered in
  let d := sample.staggered in
  heap σ !! 1%positive = Some d
  ∧ (valid_columns d = [] ∨ pd.len (data_for_outliers d) < 10)
  ∧ ∃ warning,
      remove_outliers (H := sample.libraries) 1%positive σ
      = Some (1%positive, State (heap σ) (files σ) (logged σ ++ [(WARNING, warning)])).
Proof.
  intros σ d. split; [reflexivity|]. split; [right; compute_done|].
  apply (remove_outliers_skips (H := sample.libraries) σ 1%positive d);
    [reflexivity|right; compute_done].
Defined.

(** The two ways of skipping: ten values leave no column to evaluate; two
    columns of eleven values that share nine rows leave too few rows. *)
Lemma remove_outliers_skips_samples :
  valid_columns sample.ten = []
  ∧ remove_outliers (H := sample.libraries) 1%positive (sample.store sample.ten)
    = Some (1%positive,
            State {[ 1%positive := sample.ten ]} ∅ [(WARNING, No_valid_columns)])
  ∧ valid_columns sample.staggered = ["x"; "y"]%string
  ∧ pd.len (data_for_outliers sample.staggered) = 9
  ∧ remove_outliers (H := sample.libraries) 1%positive (sample.store sample.staggered)
    = Some (1%positive,
            State {[ 1%positive := sample.staggered ]} ∅ [(WARNING, Insufficient_data)]).
Proof. repeat split; compute_done. Qed.

Lemma cleaning_preserves_columns_witness :
  let σ := sample.store sample.gap in
  let d := sample.gap in
  heap σ !! 1%positive = Some d
  ∧ ((∃ l σ' d', remove_duplicates 1%positive σ = Some (l, σ')
                 ∧ heap σ' !! l = Some d' ∧ columns d' = columns d)
     ∧ (∃ l σ' d', handle_missing_values (H := sample.libraries) 1%positive "fill_median" σ
                   = Some (l, σ')
                   ∧ heap σ' !! l = Some d' ∧ columns d' = columns d)
     ∧ (∃ l σ' d', remove_outliers (H := sample.libraries) 1%positive σ = Some (l, σ')
                   ∧ heap σ' !! l = Some d' ∧ columns d' = columns d)).
Proof.
  intros σ d. split; [reflexivity|].
  apply (cleaning_preserves_columns (H := sample.libraries) σ 1%positive d "fill_median").
  reflexivity.
Defined.

Lemma clean_without_options_witness :
  let clean_options : gmap string string := {[ "missing_strategy" := "fill_mean" ]}%string in
  let σ := sample.store sample.gap in
  clean_options !! "remove_duplicates"%string = None
  ∧ clean_options !! "handle_missing"%string = None
  ∧ clean_options !! "remove_outliers"%string = None
  ∧ clean (H := sample.libraries) clean_options 1%positive σ = Some (1%positive, σ).
Proof.
  intros clean_options σ.
  split; [reflexivity|]. split; [reflexivity|]. split; [reflexivity|].
  apply (clean_without_options (H := sample.libraries)); reflexivity.
Defined.

(** The request that selects everything, on the frame with a repeated row
    and a gap: duplicates go first, then the rows with a null, and the
    five rows left are too few for the detector. *)
Lemma clean_all_options_sample :
  (λ r, pd.values <$> heap r.2 !! r.1)
    <$> clean (H := sample.libraries)
          {[ "remove_duplicates" := "on"; "handle_missing" := "on";
             "missing_strategy" := "drop"; "remove_outliers" := "on" ]}%string
          1%positive (sample.store sample.repeated)
  = Some (Some [[sample.z 1]; [sample.z 2]]).
Proof. compute_done. Qed.

(** *** Reading the sample text files

    The files of the sample are read by calculation on their shape, not by
    evaluation: they are long. *)

Lemma utf8_ascii data :
  Forall (λ b, (Byte.to_N b < 128)%N) data → sample.utf8 data = Some (Byte.to_N <$> data).
Proof.
  induction 1 as [|b data Hb _ IH]; [done|].
  cbn [sample.utf8]. rewrite decide_True by exact Hb. by rewrite IH.
Qed.

Lemma text_file_ascii n : Forall (λ b, (Byte.to_N b < 128)%N) (sample.text_file n).
Proof.
  unfold sample.text_file. apply Forall_app. split.
  { repeat constructor. }
  induction (Z.to_nat n) as [|k IH]; [constructor|].
  repeat constructor. exact IH.
Qed.

Lemma fmap_join_replicate {A B} (f : A → B) k (x : list A) :
  f <$> mjoin (replicate k x) = mjoin (replicate k (f <$> x)).
Proof. induction k as [|k IH]; simpl; [done|]. by rewrite fmap_app, IH. Qed.

Lemma text_file_decoded n :
  Byte.to_N <$> sample.text_file n
  = [118; 10]%N ++ mjoin (replicate (Z.to_nat n) [97; 10]%N).
Proof.
  unfold sample.text_file. by rewrite fmap_app, fmap_join_replicate.
Qed.

Lemma lines_of_a k :
  sample.lines EmptyString (mjoin (replicate k [97; 10]%N)) = replicate k "a"%string.
Proof.
  induction k as [|k IH]; [done|].
  change (mjoin (replicate (S k) [97; 10]%N))
    with (97 :: 10 :: mjoin (replicate k [97; 10]))%N.
  change (sample.lines EmptyString (97 :: 10 :: ?t)%N)
    with ("a"%string :: sample.lines EmptyString t).
  by rewrite IH.
Qed.

Lemma one_column_text_file n :
  sample.one_column (Byte.to_N <$> sample.text_file n) = inl (sample.text_frame n).
Proof.
  rewrite text_file_decoded. unfold sample.one_column, sample.text_frame.
  change (sample.lines EmptyString ([118; 10]%N ++ ?t))
    with ("v"%string :: sample.lines EmptyString t).
  rewrite lines_of_a. by rewrite fmap_replicate.
Qed.

Lemma ranged_length values : ∀ start, length (sample.ranged start values) = length values.
Proof. induction values as [|v values IH]; intros start; simpl; [done|by rewrite IH]. Qed.

Lemma ranged_take values : ∀ start k,
  take k (sample.ranged start values) = sample.ranged start (take k values).
Proof.
  induction values as [|v values IH]; intros start [|k]; simpl; try done.
  by rewrite IH.
Qed.

Lemma text_frame_len n : (0 ≤ n)%Z → Z.of_nat (pd.len (sample.text_frame n)) = n.
Proof.
  intros Hn. unfold pd.len, sample.text_frame. cbn [rows].
  rewrite ranged_length, length_replicate. lia.
Qed.

Lemma text_frame_head n m :
  (0 ≤ m ≤ n)%Z → pd.head m (sample.text_frame n) = sample.text_frame m.
Proof.
  intros Hm. unfold pd.head, sample.text_frame. cbn [rows columns].
  rewrite decide_True by lia. f_equal.
  rewrite ranged_take, take_replicate. do 2 f_equal. lia.
Qed.

Lemma text_frame_not_empty n : (0 < n)%Z → pd.empty (sample.text_frame n) = false.
Proof.
  intros Hn. apply bool_decide_eq_false_2. intros [Hrows|Hcols]; [|done].
  apply (f_equal length) in Hrows. unfold sample.text_frame in Hrows.
  cbn [rows] in Hrows. rewrite ranged_length, length_replicate in Hrows.
  simpl in Hrows. lia.
Qed.

Lemma read_text_file n :
  read_file (H := sample.libraries) init "data.csv" (sample.disk (sample.text_file n))
  = Some (Next (sample.text_frame n),
          State ∅ {[ "data.csv"%string := sample.text_file n ]}
                [(INFO, Loaded_csv "utf-8")]).
Proof.
  unfold read_file, bind, open_file, sample.disk. cbn [files heap logged].
  rewrite lookup_singleton_eq.
  change (default EmptyString (last (split "." (lower "data.csv")))) with "csv"%string.
  rewrite decide_True by done.
  cbn [init encodings try_encodings]. unfold read_csv, decode.
  rewrite decide_True by done. cbn [decode_utf8 parse_csv sample.libraries].
  rewrite utf8_ascii by apply text_file_ascii.
  rewrite one_column_text_file. reflexivity.
Qed.

(** [load_data] once the file has been read as [d] *)
Lemma load_data_after_read `{Libraries} self file_path σ d σ1 :
  read_file self file_path σ = Some (Next d, σ1) →
  pd.empty d = false →
  load_data self file_path σ
  = if decide (max_rows self < Z.of_nat (pd.len d))%Z then
      Some (Some (fresh (dom (heap σ1))),
            State (<[fresh (dom (heap σ1)) := pd.head (max_rows self) d]> (heap σ1))
                  (files σ1)
                  (logged σ1 ++ [(WARNING,
                                  Too_large (Z.of_nat (pd.len d)) (max_rows self))]))
    else
      Some (Some (fresh (dom (heap σ1))),
            State (<[fresh (dom (heap σ1)) := d]> (heap σ1)) (files σ1) (logged σ1)).
Proof.
  intros Hread Hempty. unfold load_data. unfold bind at 1.
  rewrite Hread, Hempty. by destruct (decide _).
Qed.

(** C4, as stated, fails: a file of 100,001 rows is cut to 100,000 rows,
    and what [load_data] returns, reference and frame alike, is what it
    returns for the file that holds those 100,000 rows; the warning in the
    log is the only trace of the cut. *)
Lemma truncation_is_not_flagged :
  let load := load_data (H := sample.libraries) init "data.csv" in
  read_file (H := sample.libraries) init "data.csv"
    (sample.disk (sample.text_file 100001))
  = Some (Next (sample.text_frame 100001),
          State ∅ {[ "data.csv"%string := sample.text_file 100001 ]}
                [(INFO, Loaded_csv "utf-8")])
  ∧ Z.of_nat (pd.len (sample.text_frame 100001)) = 100001%Z
  ∧ load (sample.disk (sample.text_file 100001))
    = Some (Some 1%positive,
            State {[ 1%positive := sample.text_frame 100000 ]}
                  {[ "data.csv"%string := sample.text_file 100001 ]}
                  [(INFO, Loaded_csv "utf-8"); (WARNING, Too_large 100001 100000)])
  ∧ load (sample.disk (sample.text_file 100000))
    = Some (Some 1%positive,
            State {[ 1%positive := sample.text_frame 100000 ]}
                  {[ "data.csv"%string := sample.text_file 100000 ]}
                  [(INFO, Loaded_csv "utf-8")]).
Proof.
  intros load. split; [apply read_text_file|].
  split; [by apply text_frame_len|]. split.
  - unfold load.
    rewrite (load_data_after_read _ _ _ _ _ (read_text_file 100001))
      by (by apply text_frame_not_empty).
    rewrite text_frame_len by done. cbn [init max_rows heap files logged].
    rewrite decide_True by done. rewrite text_frame_head by done. reflexivity.
  - unfold load.
    rewrite (load_data_after_read _ _ _ _ _ (read_text_file 100000))
      by (by apply text_frame_not_empty).
    rewrite text_frame_len by done. cbn [init max_rows heap files logged].
    rewrite decide_False by done. reflexivity.
Qed.

Lemma load_data_truncates_witness :
  let σ := sample.disk (sample.text_file 100001) in
  let d := sample.text_frame 100001 in
  let σ1 := State ∅ {[ "data.csv"%string := sample.text_file 100001 ]}
                  [(INFO, Loaded_csv "utf-8")] in
  read_file (H := sample.libraries) init "data.csv" σ = Some (Next d, σ1)
  ∧ columns d ≠ []
  ∧ (100000 < Z.of_nat (pd.len d))%Z
  ∧ ∃ l d',
      load_data (H := sample.libraries) init "data.csv" σ
      = Some (Some l,
              State (<[l:=d']> (heap σ1)) (files σ1)
                    (logged σ1 ++ [(WARNING, Too_large (Z.of_nat (pd.len d)) 100000)]))
      ∧ heap σ1 !! l = None
      ∧ columns d' = columns d
      ∧ rows d' = take (Z.to_nat 100000) (rows d)
      ∧ Z.of_nat (pd.len d') = 100000%Z.
Proof.
  intros σ d σ1.
  assert (100000 < Z.of_nat (pd.len d))%Z as Hlen
    by (unfold d; rewrite text_frame_len; done).
  split; [apply read_text_file|]. split; [done|]. split; [exact Hlen|].
  apply (load_data_truncates (H := sample.libraries) σ "data.csv" d σ1);
    [apply read_text_file|done|exact Hlen].
Defined.

(** A file in a single-byte code page: UTF-8 fails on the byte 0xE9, the
    second candidate reads it. *)
Lemma load_data_falls_back_to_latin_1 :
  sample.utf8 [x76; x0a; xe9; x0a] = None
  ∧ (λ r, (pd.values <$> (r.1 ≫= λ l, heap r.2 !! l), logged r.2))
      <$> load_data (H := sample.libraries) init "data.csv"
            (sample.disk [x76; x0a; xe9; x0a])
    = Some (Some [[Str (String (ascii_of_nat 233) EmptyString)]],
            [(INFO, Loaded_csv "latin-1")]).
Proof. split; compute_done. Qed.

(** * Further properties of the cleaning methods *)

(** ** Deduplication *)

Lemma dedup_elem_of rs : ∀ seen r,
  r ∈ dedup seen rs →
  ∃ before after, rs = before ++ r :: after
                  ∧ (cells r ∉ seen) ∧ (cells r ∉ cells <$> before).
Proof.
  induction rs as [|r0 rs IH]; intros seen r Hr.
  { by apply elem_of_nil in Hr. }
  rewrite dedup_cons in Hr.
  assert (r ∈ dedup (cells r0 :: seen) rs →
          ∃ before after, r0 :: rs = before ++ r :: after
                          ∧ (cells r ∉ seen) ∧ (cells r ∉ cells <$> before)) as Htail.
  { intros Hin. destruct (IH _ _ Hin) as (before & after & -> & Hseen & Hbefore).
    apply not_elem_of_cons in Hseen as [Hne Hseen].
    exists (r0 :: before), after. split; [done|]. split; [done|].
    rewrite fmap_cons. apply not_elem_of_cons. done. }
  destruct (decide (cells r0 ∈ seen)) as [Hin|Hin]; [by apply Htail|].
  apply elem_of_cons in Hr as [->|Hr]; [|by apply Htail].
  exists [], rs. split; [done|]. split; [done|]. apply not_elem_of_nil.
Qed.

Lemma dedup_values rs : ∀ seen v,
  v ∈ cells <$> rs → v ∉ seen → v ∈ cells <$> dedup seen rs.
Proof.
  induction rs as [|r0 rs IH]; intros seen v Hv Hseen.
  { by apply elem_of_nil in Hv. }
  rewrite dedup_cons. rewrite fmap_cons in Hv.
  destruct (decide (v = cells r0)) as [->|Hne].
  - rewrite decide_False by done. rewrite fmap_cons. by left.
  - apply elem_of_cons in Hv as [?|Hv]; [done|].
    assert (v ∈ cells <$> dedup (cells r0 :: seen) rs) as Hin.
    { apply IH; [done|]. apply not_elem_of_cons. done. }
    destruct (decide (cells r0 ∈ seen)); [done|]. rewrite fmap_cons. by right.
Qed.

Lemma dedup_NoDup rs : ∀ seen, NoDup (cells <$> dedup seen rs).
Proof.
  induction rs as [|r0 rs IH]; intros seen; [constructor|].
  rewrite dedup_cons. destruct (decide (cells r0 ∈ seen)); [apply IH|].
  rewrite fmap_cons. apply NoDup_cons. split; [|apply IH].
  intros (r & Heq & Hr)%list_elem_of_fmap.
  apply dedup_elem_of in Hr as (_ & _ & _ & Hseen & _).
  apply Hseen. rewrite <- Heq. by left.
Qed.

Lemma dedup_sublist rs : ∀ seen, sublist (dedup seen rs) rs.
Proof.
  induction rs as [|r0 rs IH]; intros seen; [constructor|].
  rewrite dedup_cons. destruct (decide (cells r0 ∈ seen)).
  - by apply sublist_cons.
  - by apply sublist_skip.
Qed.

(** X1. The frame [remove_duplicates] returns holds pairwise distinct rows,
    in the order of the input; it holds every row value of the input, and
    each row it keeps is the first row of the input with its values. *)
Theorem remove_duplicates_keeps_first_occurrences σ df d :
  heap σ !! df = Some d →
  ∃ l σ' d',
    remove_duplicates df σ = Some (l, σ') ∧ heap σ' !! l = Some d'
    ∧ NoDup (pd.values d')
    ∧ rows d' `sublist_of` rows d
    ∧ (∀ v, v ∈ pd.values d' ↔ v ∈ pd.values d)
    ∧ ∀ r, r ∈ rows d' →
        ∃ before after, rows d = before ++ r :: after ∧ (cells r ∉ cells <$> before).
Proof.
  intros Hl. eexists _, _, _. split; [by apply remove_duplicates_run|].
  simpl. rewrite lookup_insert_eq. split; [done|].
  unfold pd.values, pd.drop_duplicates, pd.duplicated. simpl.
  change (pd.keep (negb <$> pd.duplicated_from [] (rows d)) (rows d))
    with (dedup [] (rows d)).
  split; [apply dedup_NoDup|]. split; [apply dedup_sublist|]. split.
  - intros v. split.
    + intros (r & -> & Hr)%list_elem_of_fmap. apply list_elem_of_fmap_2.
      by apply (elem_of_sublist _ _ _ Hr (dedup_sublist (rows d) [])).
    + intros Hv. apply dedup_values; [done|apply not_elem_of_nil].
  - intros r Hr. apply dedup_elem_of in Hr as (before & after & ? & _ & ?).
    by exists before, after.
Qed.

Lemma duplicated_from_length rs : ∀ seen, length (pd.duplicated_from seen rs) = length rs.
Proof. induction rs as [|r rs IH]; intros seen; simpl; [done|by rewrite IH]. Qed.

Lemma count_true_cons b mask :
  pd.count_true (b :: mask) = (if b then 1 else 0) + pd.count_true mask.
Proof. unfold pd.count_true. rewrite filter_cons. by destruct b. Qed.

Lemma count_true_keep {A} (xs : list A) : ∀ mask,
  length mask = length xs →
  pd.count_true mask + length (pd.keep (negb <$> mask) xs) = length xs.
Proof.
  induction xs as [|x xs IH]; intros [|b mask] Hlen; try done.
  rewrite count_true_cons, fmap_cons. simpl in Hlen.
  destruct b; simpl; rewrite <- (IH mask) by lia; lia.
Qed.

Lemma duplicated_from_dedup rs : ∀ seen seen',
  seen' ⊆ seen → pd.count_true (pd.duplicated_from seen' (dedup seen rs)) = 0.
Proof.
  induction rs as [|r rs IH]; intros seen seen' Hsub; [done|].
  rewrite dedup_cons. destruct (decide (cells r ∈ seen)) as [Hin|Hin].
  - apply IH. intros x Hx. right. by apply Hsub.
  - simpl. rewrite count_true_cons.
    rewrite bool_decide_eq_false_2 by (intros Hin'; by apply Hsub in Hin').
    apply IH. intros x [->|Hx]%elem_of_cons; [by left|right; by apply Hsub].
Qed.

(** X2. The number of duplicate rows in the quality report is the number
    of rows [remove_duplicates] removes and logs, and the report on the
    frame it returns counts no duplicate row. *)
Theorem duplicate_rows_are_the_rows_removed `{Libraries} `{Floats} σ df d :
  heap σ !! df = Some d →
  ∃ report l σ1 report',
    get_data_quality_info df σ = Some (report, σ)
    ∧ remove_duplicates df σ = Some (l, σ1)
    ∧ logged σ1
      = logged σ ++ [(INFO, Removed_duplicates (Z.of_nat (duplicate_rows report)))]
    ∧ get_data_quality_info l σ1 = Some (report', σ1)
    ∧ duplicate_rows report' = 0
    ∧ total_rows report' + duplicate_rows report = total_rows report.
Proof.
  intros Hl.
  pose proof (count_true_keep (rows d) (pd.duplicated d)
                (duplicated_from_length (rows d) [])) as Hcount.
  eexists _, _, _, _. split.
  { unfold get_data_quality_info. rewrite (bind_read _ _ _ _ Hl). reflexivity. }
  split; [by apply remove_duplicates_run|]. simpl. split.
  { do 4 f_equal. unfold pd.len, pd.drop_duplicates. simpl. lia. }
  split.
  { unfold get_data_quality_info. erewrite bind_read; [reflexivity|].
    simpl. apply lookup_insert_eq. }
  simpl. split.
  - apply (duplicated_from_dedup (rows d) [] []). done.
  - unfold pd.len, pd.drop_duplicates. simpl. lia.
Qed.

Lemma duplicate_rows_are_the_rows_removed_witness :
  let σ := sample.store sample.repeated in
  heap σ !! 1%positive = Some sample.repeated
  ∧ ∃ report l σ1 report',
      get_data_quality_info (H := sample.libraries) (H0 := sample.floats) 1%positive σ
      = Some (report, σ)
      ∧ remove_duplicates 1%positive σ = Some (l, σ1)
      ∧ logged σ1
        = logged σ ++ [(INFO, Removed_duplicates (Z.of_nat (duplicate_rows report)))]
      ∧ get_data_quality_info (H := sample.libraries) (H0 := sample.floats) l σ1
        = Some (report', σ1)
      ∧ duplicate_rows report' = 0
      ∧ total_rows report' + duplicate_rows report = total_rows report.
Proof.
  intros σ. split; [reflexivity|].
  apply (duplicate_rows_are_the_rows_removed (H := sample.libraries) (H0 := sample.floats)
           σ 1%positive sample.repeated).
  reflexivity.
Defined.

Lemma remove_duplicates_keeps_first_occurrences_witness :
  let σ := sample.store sample.repeated in
  let d := sample.repeated in
  heap σ !! 1%positive = Some d
  ∧ ∃ l σ' d',
      remove_duplicates 1%positive σ = Some (l, σ') ∧ heap σ' !! l = Some d'
      ∧ NoDup (pd.values d')
      ∧ rows d' `sublist_of` rows d
      ∧ (∀ v, v ∈ pd.values d' ↔ v ∈ pd.values d)
      ∧ ∀ r, r ∈ rows d' →
          ∃ before after, rows d = before ++ r :: after ∧ (cells r ∉ cells <$> before).
Proof.
  intros σ d. split; [reflexivity|].
  apply (remove_duplicates_keeps_first_occurrences σ 1%positive d). reflexivity.
Defined.

(** ** Rows without nulls *)

Lemma dedup_filter_complete rs : ∀ seen seen',
  (∀ v, NaN ∉ v → v ∈ seen ↔ v ∈ seen') →
  filter (λ r, NaN ∉ cells r) (dedup seen rs)
  = dedup seen' (filter (λ r, NaN ∉ cells r) rs).
Proof.
  induction rs as [|r rs IH]; intros seen seen' Hagree; [done|].
  rewrite dedup_cons, filter_cons.
  destruct (decide (NaN ∉ cells r)) as [Hr|Hr].
  - rewrite dedup_cons.
    assert (∀ v, NaN ∉ v → v ∈ cells r :: seen ↔ v ∈ cells r :: seen') as Hnext.
    { intros v Hv. rewrite !elem_of_cons, (Hagree v Hv). done. }
    destruct (decide (cells r ∈ seen)) as [Hin|Hin].
    + rewrite decide_True by (by apply (Hagree _ Hr)). by apply IH.
    + rewrite decide_False by (by rewrite <- (Hagree _ Hr)).
      rewrite filter_cons_True by done. f_equal. by apply IH.
  - assert (∀ v, NaN ∉ v → v ∈ cells r :: seen ↔ v ∈ seen') as Hnext.
    { intros v Hv. rewrite elem_of_cons, (Hagree v Hv).
      split; [intros [->|?]; done|by right]. }
    destruct (decide (cells r ∈ seen)); [by apply IH|].
    rewrite filter_cons_False by done. by apply IH.
Qed.

Lemma dropna_drop_duplicates d :
  pd.dropna (pd.drop_duplicates d) = pd.drop_duplicates (pd.dropna d).
Proof.
  unfold pd.dropna, pd.drop_duplicates, pd.duplicated. simpl. f_equal.
  by apply (dedup_filter_complete (rows d) [] []).
Qed.

(** X3. Removing duplicates and dropping the rows with nulls commute:
    [remove_duplicates] followed by the [drop] strategy yields the same
    table as the [drop] strategy followed by [remove_duplicates]. *)
Theorem remove_duplicates_commutes_with_drop `{Libraries} σ df d :
  heap σ !! df = Some d →
  ∃ l1 σ1 l2 σ2 m1 τ1 m2 τ2,
    remove_duplicates df σ = Some (l1, σ1)
    ∧ handle_missing_values l1 "drop" σ1 = Some (l2, σ2)
    ∧ handle_missing_values df "drop" σ = Some (m1, τ1)
    ∧ remove_duplicates m1 τ1 = Some (m2, τ2)
    ∧ heap σ2 !! l2 = Some (pd.dropna (pd.drop_duplicates d))
    ∧ heap τ2 !! m2 = Some (pd.dropna (pd.drop_duplicates d)).
Proof.
  intros Hl. eexists _, _, _, _, _, _, _, _.
  split; [by apply remove_duplicates_run|].
  split; [apply handle_missing_values_drop; simpl; apply lookup_insert_eq|].
  split; [by apply handle_missing_values_drop|].
  split; [apply remove_duplicates_run; simpl; apply lookup_insert_eq|].
  simpl. rewrite !lookup_insert_eq. by rewrite dropna_drop_duplicates.
Qed.

Lemma remove_duplicates_commutes_with_drop_witness :
  let σ := sample.store sample.repeated in
  let d := sample.repeated in
  heap σ !! 1%positive = Some d
  ∧ ∃ l1 σ1 l2 σ2 m1 τ1 m2 τ2,
      remove_duplicates 1%positive σ = Some (l1, σ1)
      ∧ handle_missing_values (H := sample.libraries) l1 "drop" σ1 = Some (l2, σ2)
      ∧ handle_missing_values (H := sample.libraries) 1%positive "drop" σ = Some (m1, τ1)
      ∧ remove_duplicates m1 τ1 = Some (m2, τ2)
      ∧ heap σ2 !! l2 = Some (pd.dropna (pd.drop_duplicates d))
      ∧ heap τ2 !! m2 = Some (pd.dropna (pd.drop_duplicates d)).
Proof.
  intros σ d. split; [reflexivity|].
  apply (remove_duplicates_commutes_with_drop (H := sample.libraries) σ 1%positive d).
  reflexivity.
Defined.

(** ** Columns by name *)

Lemma position_lookup d name j :
  pd.position d name = Some j →
  ∃ dt, columns d !! j = Some (name, dt).
Proof.
  unfold pd.position. destruct (list_find _ _) as [[i [n dt]]|] eqn:Hfind; [|done].
  intros [= <-]. apply list_find_Some in Hfind as (Hi & Hn & _).
  simpl in Hn. subst n. by exists dt.
Qed.

Lemma position_lt d name j : pd.position d name = Some j → j < length (columns d).
Proof. intros (dt & Hj)%position_lookup. by apply lookup_lt_Some in Hj. Qed.

Lemma position_elem_of d name :
  name ∈ (columns d).*1 → is_Some (pd.position d name).
Proof.
  intros (x & -> & Hin)%list_elem_of_fmap. unfold pd.position.
  destruct (list_find_elem_of (λ c : string * dtype, c.1 = x.1) (columns d) x Hin eq_refl)
    as [y Hy].
  by rewrite Hy.
Qed.

Lemma position_inj d n m j :
  pd.position d n = Some j → pd.position d m = Some j → n = m.
Proof.
  intros (dt & Hn)%position_lookup (dt' & Hm)%position_lookup. congruence.
Qed.

Lemma cell_at_elem_of d name r :
  length (cells r) = length (columns d) →
  name ∈ (columns d).*1 →
  pd.cell_at d name r ∈ cells r.
Proof.
  intros Hlen [j Hj]%position_elem_of. unfold pd.cell_at. rewrite Hj.
  destruct (lookup_lt_is_Some_2 (cells r) j) as [c Hc].
  { rewrite Hlen. by eapply position_lt. }
  rewrite Hc. simpl. by eapply list_elem_of_lookup_2.
Qed.

Lemma isnull_sum_complete d name :
  well_formed d → complete d → name ∈ (columns d).*1 →
  pd.isnull_sum (pd.col d name) = 0.
Proof.
  intros [_ Hlen] Hcomplete Hname. unfold pd.isnull_sum, pd.col.
  rewrite filter_none; [done|].
  intros c (r & -> & Hr)%list_elem_of_fmap Hnull.
  apply (Hcomplete r Hr). rewrite <- Hnull. apply cell_at_elem_of; auto.
Qed.

(** ** The missing-data section of the quality report *)

(** The missing-data section as a function of the column name *)
Lemma missing_data_lookup `{Libraries} `{Floats} σ df d :
  heap σ !! df = Some d →
  ∃ report,
    get_data_quality_info df σ = Some (report, σ)
    ∧ total_rows report = pd.len d
    ∧ total_columns report = length (columns d)
    ∧ ∀ col,
        missing_data report !! col
        = if decide (col ∈ (columns d).*1 ∧ 0 < pd.isnull_sum (pd.col d col))
          then Some {| missing_count := pd.isnull_sum (pd.col d col);
                       missing_percentage :=
                         np_round2
                           (fmul (fdiv (pd.of_nat (pd.isnull_sum (pd.col d col)))
                                       (pd.of_nat (pd.len d)))
                                 (Qc_of_Z 100)) |}
          else None.
Proof.
  intros Hl. eexists. split.
  { unfold get_data_quality_info. rewrite (bind_read _ _ _ _ Hl). reflexivity. }
  simpl. split; [done|]. split; [done|]. intros col.
  rewrite (loop_insert_lookup
             (λ col, if decide (0 < pd.isnull_sum (pd.col d col))
                     then Some {| missing_count := pd.isnull_sum (pd.col d col);
                                  missing_percentage :=
                                    np_round2
                                      (fmul (fdiv (pd.of_nat (pd.isnull_sum (pd.col d col)))
                                                  (pd.of_nat (pd.len d)))
                                            (Qc_of_Z 100)) |}
                     else None));
    [|intros acc c; by destruct (decide (0 < _))].
  rewrite lookup_empty.
  destruct (decide (col ∈ (columns d).*1)) as [Hin|Hin].
  - destruct (decide (0 < pd.isnull_sum (pd.col d col))) as [Hpos|Hpos].
    + by rewrite decide_True.
    + rewrite decide_False; [done|tauto].
  - rewrite decide_False; [done|tauto].
Qed.

(** X4. The missing-data section of the quality report has an entry
    exactly for the columns that hold at least one null; the entry records
    the number of nulls, which is at most the number of rows, and its share
    of all rows as a percentage rounded to 2 decimals: the quotient of the
    two counts, its product with 100 and the rounding, each as the
    arithmetic of doubles gives it. *)
Theorem missing_data_report `{Libraries} `{Floats} σ df d :
  heap σ !! df = Some d →
  ∃ report,
    get_data_quality_info df σ = Some (report, σ)
    ∧ total_rows report = pd.len d
    ∧ total_columns report = length (columns d)
    ∧ ∀ col entry,
        missing_data report !! col = Some entry ↔
        col ∈ (columns d).*1
        ∧ 0 < pd.isnull_sum (pd.col d col) ≤ pd.len d
        ∧ entry = {| missing_count := pd.isnull_sum (pd.col d col);
                     missing_percentage :=
                       np_round2
                         (fmul (fdiv (pd.of_nat (pd.isnull_sum (pd.col d col)))
                                     (pd.of_nat (pd.len d)))
                               (Qc_of_Z 100)) |}.
Proof.
  intros Hl.
  destruct (missing_data_lookup σ df d Hl) as (report & Hrun & Hrows & Hcols & Hmissing).
  exists report. split; [done|]. split; [done|]. split; [done|].
  intros col entry. rewrite Hmissing.
  assert (pd.isnull_sum (pd.col d col) ≤ pd.len d) as Hle.
  { unfold pd.isnull_sum, pd.col, pd.len.
    etrans; [apply length_filter|]. by rewrite length_fmap. }
  destruct (decide _) as [[Hin Hpos]|Hno].
  - split; [intros [= <-]; auto|]. by intros (_ & _ & ->).
  - split; [done|]. intros (? & [? _] & _). tauto.
Qed.

Lemma missing_data_report_witness :
  let σ := sample.store sample.mixed in
  heap σ !! 1%positive = Some sample.mixed
  ∧ ∃ report,
      get_data_quality_info (H := sample.libraries) (H0 := sample.floats) 1%positive σ = Some (report, σ)
      ∧ total_rows report = pd.len sample.mixed
      ∧ total_columns report = length (columns sample.mixed)
      ∧ ∀ col entry,
          missing_data report !! col = Some entry ↔
          col ∈ (columns sample.mixed).*1
          ∧ 0 < pd.isnull_sum (pd.col sample.mixed col) ≤ pd.len sample.mixed
          ∧ entry = {| missing_count := pd.isnull_sum (pd.col sample.mixed col);
                       missing_percentage :=
                         np_round2 (Floats := sample.floats)
                           (fmul (Floats := sample.floats)
                              (fdiv (Floats := sample.floats)
                                 (pd.of_nat (pd.isnull_sum (pd.col sample.mixed col)))
                                 (pd.of_nat (pd.len sample.mixed)))
                              (Qc_of_Z 100)) |}.
Proof.
  intros σ. split; [reflexivity|].
  apply (missing_data_report (H := sample.libraries) (H0 := sample.floats)
           σ 1%positive sample.mixed).
  reflexivity.
Defined.

Lemma dropna_well_formed d : well_formed d → well_formed (pd.dropna d).
Proof.
  intros [Hnames Hlen]. split; [done|]. simpl.
  intros r [_ Hr]%list_elem_of_filter. by apply Hlen.
Qed.

Lemma dropna_complete d : complete (pd.dropna d).
Proof. intros r [Hr _]%list_elem_of_filter. done. Qed.

(** X5. The [drop] strategy keeps, in order, exactly the rows without a
    null; on a well-formed frame the quality report of the result has no
    entry in its missing-data section. *)
Theorem drop_leaves_nothing_missing `{Libraries} `{Floats} σ df d :
  heap σ !! df = Some d →
  well_formed d →
  ∃ l σ' d' report,
    handle_missing_values df "drop" σ = Some (l, σ')
    ∧ heap σ' !! l = Some d'
    ∧ rows d' `sublist_of` rows d
    ∧ (∀ r, r ∈ rows d' ↔ r ∈ rows d ∧ NaN ∉ cells r)
    ∧ well_formed d'
    ∧ get_data_quality_info l σ' = Some (report, σ')
    ∧ missing_data report = ∅.
Proof.
  intros Hl Hwf.
  destruct (missing_data_lookup
              (State (<[fresh (dom (heap σ)) := pd.dropna d]> (heap σ)) (files σ) (logged σ))
              (fresh (dom (heap σ))) (pd.dropna d))
    as (report & Hrun & _ & _ & Hmissing); [simpl; apply lookup_insert_eq|].
  eexists _, _, _, report. split; [by apply handle_missing_values_drop|].
  simpl. rewrite lookup_insert_eq. split; [done|].
  split; [apply sublist_filter|].
  split; [intros r; unfold pd.dropna; simpl; rewrite list_elem_of_filter; tauto|].
  split; [by apply dropna_well_formed|]. split; [exact Hrun|].
  apply map_eq. intros col. rewrite lookup_empty, Hmissing.
  apply decide_False. intros [Hin Hpos].
  rewrite isnull_sum_complete in Hpos;
    [lia|by apply dropna_well_formed|apply dropna_complete|done].
Qed.

Lemma drop_leaves_nothing_missing_witness :
  let σ := sample.store sample.mixed in
  let d := sample.mixed in
  heap σ !! 1%positive = Some d
  ∧ well_formed d
  ∧ ∃ l σ' d' report,
      handle_missing_values (H := sample.libraries) 1%positive "drop" σ = Some (l, σ')
      ∧ heap σ' !! l = Some d'
      ∧ rows d' `sublist_of` rows d
      ∧ (∀ r, r ∈ rows d' ↔ r ∈ rows d ∧ NaN ∉ cells r)
      ∧ well_formed d'
      ∧ get_data_quality_info (H := sample.libraries) (H0 := sample.floats) l σ' = Some (report, σ')
      ∧ missing_data report = ∅.
Proof.
  intros σ d. split; [reflexivity|]. split; [compute_done|].
  apply (drop_leaves_nothing_missing (H := sample.libraries) (H0 := sample.floats)
           σ 1%positive d); [reflexivity|compute_done].
Defined.

(** ** Filling *)

Lemma fills_refl d : fills d d.
Proof.
  split; [done|]. split; [done|]. intros i r Hr. exists r. auto.
Qed.

Lemma fills_trans d1 d2 d3 : fills d1 d2 → fills d2 d3 → fills d1 d3.
Proof.
  intros (Hc12 & Hl12 & H12) (Hc23 & Hl23 & H23).
  split; [congruence|]. split; [congruence|]. intros i r1 Hr1.
  destruct (H12 i r1 Hr1) as (r2 & Hr2 & Hlab2 & Hlen2 & Hkeep2).
  destruct (H23 i r2 Hr2) as (r3 & Hr3 & Hlab3 & Hlen3 & Hkeep3).
  exists r3. split; [done|]. split; [congruence|]. split; [congruence|].
  intros k c Hk Hc. apply Hkeep3; [|done]. by apply Hkeep2.
Qed.

Lemma position_columns d d' name :
  columns d' = columns d → pd.position d' name = pd.position d name.
Proof. unfold pd.position. by intros ->. Qed.

Lemma fillna_lookup v s i :
  pd.fillna v s !! i = (λ c, match c with NaN => v | _ => c end) <$> s !! i.
Proof. unfold pd.fillna. apply list_lookup_fmap. Qed.

Lemma col_lookup d name i : pd.col d name !! i = pd.cell_at d name <$> rows d !! i.
Proof. unfold pd.col. apply list_lookup_fmap. Qed.

Lemma col_length d name : length (pd.col d name) = length (rows d).
Proof. unfold pd.col. apply length_fmap. Qed.

Lemma fillna_length v s : length (pd.fillna v s) = length s.
Proof. unfold pd.fillna. apply length_fmap. Qed.

(** Writing the filled column of [d0] into a frame that differs from [d0]
    by fills only is again a fill of [d0]. *)
Lemma set_col_fills d0 d name v :
  fills d0 d → fills d0 (pd.set_col d name (pd.fillna v (pd.col d0 name))).
Proof.
  intros (Hcols & Hlen & Hrows). unfold pd.set_col.
  destruct (pd.position d name) as [j|] eqn:Hj; [|done].
  rewrite (position_columns d0 d) in Hj by done.
  split; [done|]. simpl. split.
  { rewrite length_zip_with_l_eq; [done|].
    by rewrite fillna_length, col_length. }
  intros i r0 Hr0. destruct (Hrows i r0 Hr0) as (r & Hr & Hlab & Hclen & Hkeep).
  eexists. split.
  { rewrite lookup_zip_with, Hr, fillna_lookup, col_lookup, Hr0. reflexivity. }
  simpl. split; [done|]. split; [by rewrite length_insert|].
  intros k c Hk Hc. destruct (decide (j = k)) as [->|Hne].
  - rewrite list_lookup_insert_eq.
    + unfold pd.cell_at. rewrite Hj, Hk. simpl. by destruct c.
    + rewrite Hclen. by apply lookup_lt_Some in Hk.
  - rewrite list_lookup_insert_ne by done. by apply Hkeep.
Qed.

Lemma set_cols_fills d (agg : list cell → cell) names :
  fills d (pd.set_cols d names (λ col, pd.fillna (agg (pd.col d col)) (pd.col d col))).
Proof.
  unfold pd.set_cols.
  assert (∀ acc, fills d acc →
            fills d (foldl (λ acc name,
                       pd.set_col acc name (pd.fillna (agg (pd.col d name)) (pd.col d name)))
                     acc names)) as Hfold.
  { induction names as [|n names IH]; intros acc Hacc; [done|].
    simpl. apply IH. by apply set_col_fills. }
  apply Hfold, fills_refl.
Qed.

Lemma fill_mode_loop_fills df names : ∀ σ d,
  heap σ !! df = Some d →
  ∃ d', for_each names (fill_mode_column df) σ
        = Some ((), State (<[df:=d']> (heap σ)) (files σ) (logged σ))
        ∧ fills d d'.
Proof.
  induction names as [|n names IH]; intros σ d Hl.
  - exists d. split; [|apply fills_refl]. simpl. unfold ret.
    rewrite insert_id by done. by destruct σ.
  - simpl. unfold bind at 1. unfold fill_mode_column at 1.
    rewrite (bind_read _ _ _ _ Hl).
    destruct (decide (pd.dtype_of d n = Some object_)).
    + rewrite (write_Some _ _ d) by done.
      edestruct (IH (State (<[df:=pd.set_col d n
                     (pd.fillna match pd.mode (pd.col d n) with
                                | [] => Str "Unknown"
                                | m :: _ => m
                                end (pd.col d n))]> (heap σ)) (files σ) (logged σ)))
        as (d' & Hrun & Hfills); [simpl; apply lookup_insert_eq|].
      exists d'. rewrite Hrun. simpl. rewrite insert_insert_eq.
      split; [done|]. eapply fills_trans; [|exact Hfills].
      apply set_col_fills, fills_refl.
    + unfold ret at 1. by apply IH.
Qed.

(** X6. Each of the three filling strategies returns the frame it was
    given with the same columns, the same number of rows and the same
    labels, and with every value that was present left as it was: only
    nulls are replaced. *)
Theorem filling_keeps_present_values `{Libraries} σ df d strategy :
  heap σ !! df = Some d →
  strategy ∈ ["fill_mean"; "fill_median"; "fill_mode"]%string →
  ∃ σ' d',
    handle_missing_values df strategy σ = Some (df, σ')
    ∧ heap σ' !! df = Some d'
    ∧ columns d' = columns d
    ∧ pd.len d' = pd.len d
    ∧ pd.index d' = pd.index d
    ∧ ∀ i r, rows d !! i = Some r →
        ∃ r', rows d' !! i = Some r'
              ∧ ∀ k c, cells r !! k = Some c → c ≠ NaN → cells r' !! k = Some c.
Proof.
  intros Hl Hs.
  assert (∃ d', handle_missing_values df strategy σ
                = Some (df, State (<[df:=d']> (heap σ)) (files σ) (logged σ))
                ∧ fills d d') as (d' & Hrun & Hcols & Hlen & Hrows).
  { unfold handle_missing_values.
    rewrite !elem_of_cons, elem_of_nil in Hs.
    destruct Hs as [->|[->|[->|[]]]]; simpl.
    - rewrite (bind_read _ _ _ _ Hl). unfold bind.
      rewrite (write_Some _ _ d) by done.
      eexists. split; [reflexivity|]. apply (set_cols_fills d mean).
    - rewrite (bind_read _ _ _ _ Hl). unfold bind.
      rewrite (write_Some _ _ d) by done.
      eexists. split; [reflexivity|]. apply (set_cols_fills d median).
    - rewrite (bind_read _ _ _ _ Hl). unfold bind.
      destruct (fill_mode_loop_fills df (columns d).*1 σ d Hl) as (d' & -> & Hfills).
      by exists d'. }
  exists (State (<[df:=d']> (heap σ)) (files σ) (logged σ)), d'.
  split; [exact Hrun|]. simpl. rewrite lookup_insert_eq.
  split; [done|]. split; [done|]. split; [exact Hlen|]. split.
  - unfold pd.index. apply list_eq. intros i. rewrite !list_lookup_fmap.
    destruct (rows d !! i) as [r|] eqn:Hr.
    + destruct (Hrows i r Hr) as (r' & -> & Hlab & _). simpl. by rewrite Hlab.
    + apply lookup_ge_None in Hr. rewrite <- Hlen in Hr.
      apply lookup_ge_None in Hr. by rewrite Hr.
  - intros i r Hr. destruct (Hrows i r Hr) as (r' & Hr' & _ & _ & Hkeep).
    by exists r'.
Qed.

Lemma filling_keeps_present_values_witness :
  let σ := sample.store sample.mixed in
  let d := sample.mixed in
  heap σ !! 1%positive = Some d
  ∧ "fill_mode"%string ∈ ["fill_mean"; "fill_median"; "fill_mode"]%string
  ∧ ∃ σ' d',
      handle_missing_values (H := sample.libraries) 1%positive "fill_mode" σ = Some (1%positive, σ')
      ∧ heap σ' !! 1%positive = Some d'
      ∧ columns d' = columns d
      ∧ pd.len d' = pd.len d
      ∧ pd.index d' = pd.index d
      ∧ ∀ i r, rows d !! i = Some r →
          ∃ r', rows d' !! i = Some r'
                ∧ ∀ k c, cells r !! k = Some c → c ≠ NaN → cells r' !! k = Some c.
Proof.
  intros σ d. split; [reflexivity|]. split; [compute_done|].
  apply (filling_keeps_present_values (H := sample.libraries) σ 1%positive d "fill_mode");
    [reflexivity|compute_done].
Defined.

Lemma set_col_well_formed d name s : well_formed d → well_formed (pd.set_col d name s).
Proof.
  intros [Hnames Hlen]. unfold pd.set_col.
  destruct (pd.position d name) as [j|]; [|done].
  split; [done|]. simpl.
  intros r' (r & x & -> & Hr & _)%elem_of_zip_with. simpl.
  rewrite length_insert. by apply Hlen.
Qed.

Lemma set_col_len d name s :
  length s = length (rows d) → length (rows (pd.set_col d name s)) = length (rows d).
Proof.
  intros Hs. unfold pd.set_col. destruct (pd.position d name); [|done].
  simpl. by rewrite length_zip_with_l_eq.
Qed.

(** On a well-formed frame, [df[name] = s] makes [s] the column [name] and
    leaves the other columns as they were. *)
Lemma col_set_col d name s c :
  well_formed d → length s = length (rows d) →
  name ∈ (columns d).*1 → c ∈ (columns d).*1 →
  pd.col (pd.set_col d name s) c = if decide (c = name) then s else pd.col d c.
Proof.
  intros [Hnames Hlen] Hs [j Hj]%position_elem_of [jc Hjc]%position_elem_of.
  unfold pd.set_col. rewrite Hj. apply list_eq. intros i.
  rewrite col_lookup. simpl. rewrite lookup_zip_with.
  destruct (rows d !! i) as [r|] eqn:Hr; simpl.
  - destruct (lookup_lt_is_Some_2 s i) as [x Hx].
    { rewrite Hs. by apply lookup_lt_Some in Hr. }
    rewrite Hx. simpl. unfold pd.cell_at at 1. unfold pd.position. simpl.
    fold (pd.position d c). rewrite Hjc.
    assert (length (cells r) = length (columns d)) as Hr_len
      by (eapply Hlen, list_elem_of_lookup_2, Hr).
    destruct (decide (c = name)) as [->|Hne].
    + assert (jc = j) as -> by congruence.
      rewrite list_lookup_insert_eq; [by rewrite Hx|].
      rewrite Hr_len. by eapply position_lt.
    + rewrite list_lookup_insert_ne.
      * rewrite col_lookup, Hr. simpl. unfold pd.cell_at. by rewrite Hjc.
      * intros ->. apply Hne. by eapply position_inj.
  - apply lookup_ge_None in Hr.
    destruct (decide (c = name)).
    + symmetry. apply lookup_ge_None. lia.
    + symmetry. apply lookup_ge_None. rewrite col_length. lia.
Qed.

Lemma col_set_cols names (new : string → list cell) c : ∀ d,
  well_formed d → (∀ n, length (new n) = length (rows d)) →
  (∀ n, n ∈ names → n ∈ (columns d).*1) → c ∈ (columns d).*1 →
  pd.col (pd.set_cols d names new) c
  = if decide (c ∈ names) then new c else pd.col d c.
Proof.
  unfold pd.set_cols.
  induction names as [|n names IH]; intros d Hwf Hnew Hnames Hc.
  { destruct (decide (c ∈ [])) as [Hin|_]; [by apply elem_of_nil in Hin|done]. }
  simpl foldl. rewrite IH.
  - rewrite col_set_col; [|done|done|apply Hnames; by left|done].
    destruct (decide (c ∈ names)) as [Hin|Hin].
    + rewrite decide_True; [done|by right].
    + destruct (decide (c = n)) as [->|Hne].
      * rewrite decide_True; [done|by left].
      * rewrite decide_False; [done|]. rewrite elem_of_cons. tauto.
  - by apply set_col_well_formed.
  - intros m. rewrite set_col_len by done. apply Hnew.
  - intros m Hm. rewrite set_col_columns. apply Hnames. by right.
  - by rewrite set_col_columns.
Qed.

Lemma set_cols_well_formed names new : ∀ d,
  well_formed d → well_formed (pd.set_cols d names new).
Proof.
  unfold pd.set_cols. induction names as [|n names IH]; intros d Hwf; [done|].
  simpl. by apply IH, set_col_well_formed.
Qed.

Lemma fillna_no_null v s : v ≠ NaN → NaN ∉ pd.fillna v s.
Proof.
  intros Hv (c & Hc & _)%list_elem_of_fmap. by destruct c.
Qed.

Lemma fillna_null s : pd.fillna NaN s = s.
Proof.
  unfold pd.fillna. induction s as [|c s IH]; [done|].
  rewrite fmap_cons, IH. by destruct c.
Qed.

Lemma select_dtypes_number_columns d n :
  n ∈ pd.select_dtypes_number d → n ∈ (columns d).*1.
Proof.
  unfold pd.select_dtypes_number.
  intros (x & -> & [_ Hx]%list_elem_of_filter)%list_elem_of_fmap.
  by apply list_elem_of_fmap_2.
Qed.

(** What [fill_mean] and [fill_median] do to the columns of a well-formed
    frame, for the aggregate [agg] they use. *)
Lemma numeric_fill_columns d (agg : list cell → cell) c :
  well_formed d → c ∈ (columns d).*1 →
  pd.col (pd.set_cols d (pd.select_dtypes_number d)
            (λ col, pd.fillna (agg (pd.col d col)) (pd.col d col))) c
  = if decide (c ∈ pd.select_dtypes_number d)
    then pd.fillna (agg (pd.col d c)) (pd.col d c)
    else pd.col d c.
Proof.
  intros Hwf Hc. rewrite col_set_cols; try done.
  - intros n. by rewrite fillna_length, col_length.
  - intros n. apply select_dtypes_number_columns.
Qed.

(** X7. On a well-formed frame [fill_mean] writes into every numeric
    column that column with its nulls replaced by the mean the library
    answers for it, and leaves every other column as it was.  When the mean
    is a number the column has no null afterwards; when it is the null, the
    column stays as it was.  [fill_median] does the same with the
    median. *)
Theorem numeric_filling `{Libraries} σ df d :
  heap σ !! df = Some d →
  well_formed d →
  ∀ strategy agg,
    (strategy = "fill_mean"%string ∧ agg = mean)
    ∨ (strategy = "fill_median"%string ∧ agg = median) →
    ∃ σ' d',
      handle_missing_values df strategy σ = Some (df, σ')
      ∧ heap σ' !! df = Some d'
      ∧ well_formed d'
      ∧ ∀ c, c ∈ (columns d).*1 →
          (c ∉ pd.select_dtypes_number d → pd.col d' c = pd.col d c)
          ∧ (c ∈ pd.select_dtypes_number d →
             pd.col d' c = pd.fillna (agg (pd.col d c)) (pd.col d c)
             ∧ (agg (pd.col d c) ≠ NaN → NaN ∉ pd.col d' c)
             ∧ (agg (pd.col d c) = NaN → pd.col d' c = pd.col d c)).
Proof.
  intros Hl Hwf strategy agg Hs.
  assert (handle_missing_values df strategy σ
          = Some (df, State (<[df:=pd.set_cols d (pd.select_dtypes_number d)
                     (λ col, pd.fillna (agg (pd.col d col)) (pd.col d col))]> (heap σ))
                            (files σ) (logged σ))) as Hrun.
  { unfold handle_missing_values.
    destruct Hs as [[-> ->]|[-> ->]]; simpl;
      rewrite (bind_read _ _ _ _ Hl); unfold bind;
      by rewrite (write_Some _ _ d). }
  eexists _, _. split; [exact Hrun|]. simpl. rewrite lookup_insert_eq.
  split; [done|]. split; [by apply set_cols_well_formed|].
  intros c Hc. rewrite numeric_fill_columns by done. split.
  - intros Hnot. by rewrite decide_False.
  - intros Hnum. rewrite decide_True by done. split; [done|]. split.
    + intros Hsome. by apply fillna_no_null.
    + intros ->. apply fillna_null.
Qed.

Lemma numeric_filling_witness :
  let σ := sample.store sample.mixed in
  let d := sample.mixed in
  let median := median (Libraries := sample.libraries) in
  heap σ !! 1%positive = Some d
  ∧ well_formed d
  ∧ (("fill_median" = "fill_mean"%string ∧ median = mean (Libraries := sample.libraries))
     ∨ ("fill_median" = "fill_median"%string ∧ median = median))
  ∧ ∃ σ' d',
      handle_missing_values (H := sample.libraries) 1%positive "fill_median" σ
      = Some (1%positive, σ')
      ∧ heap σ' !! 1%positive = Some d'
      ∧ well_formed d'
      ∧ ∀ c, c ∈ (columns d).*1 →
          (c ∉ pd.select_dtypes_number d → pd.col d' c = pd.col d c)
          ∧ (c ∈ pd.select_dtypes_number d →
             pd.col d' c = pd.fillna (median (pd.col d c)) (pd.col d c)
             ∧ (median (pd.col d c) ≠ NaN → NaN ∉ pd.col d' c)
             ∧ (median (pd.col d c) = NaN → pd.col d' c = pd.col d c)).
Proof.
  intros σ d median. split; [reflexivity|]. split; [compute_done|].
  split; [right; split; reflexivity|].
  apply (numeric_filling (H := sample.libraries) σ 1%positive d);
    [reflexivity|compute_done|].
  right. split; reflexivity.
Defined.

(** *** The most frequent value *)

Lemma unique_elem_of xs : ∀ seen x, x ∈ pd.unique seen xs ↔ x ∈ xs ∧ x ∉ seen.
Proof.
  induction xs as [|y xs IH]; intros seen x; simpl.
  { split; [by intros ?%elem_of_nil|by intros [?%elem_of_nil _]]. }
  destruct (decide (y ∈ seen)) as [Hy|Hy].
  - rewrite IH, elem_of_cons. split; [tauto|].
    intros [[->|Hx] Hseen]; [done|tauto].
  - rewrite !elem_of_cons, IH, not_elem_of_cons.
    destruct (decide (x = y)) as [->|Hne]; tauto.
Qed.

Lemma unique_head x xs : pd.unique [] (x :: xs) = x :: pd.unique [x] xs.
Proof. cbn [pd.unique]. by destruct (decide (x ∈ [])) as [?%elem_of_nil|]. Qed.

Lemma texts_all l : Forall pd.is_text l → Str <$> pd.texts l = l.
Proof.
  induction 1 as [|c l Hc _ IH]; [done|].
  destruct c as [| |t]; try done.
  change (pd.texts (Str t :: l)) with (t :: pd.texts l).
  by rewrite fmap_cons, IH.
Qed.

Lemma numbers_all l : Forall pd.is_num l → Num <$> pd.numbers l = l.
Proof.
  induction 1 as [|c l Hc _ IH]; [done|].
  destruct c as [|x|]; try done.
  change (pd.numbers (Num x :: l)) with (x :: pd.numbers l).
  by rewrite fmap_cons, IH.
Qed.

(** Sorting the most frequent values rearranges them, if it does
    anything. *)
Lemma sort_modes_Permutation l : pd.sort_modes l ≡ₚ l.
Proof.
  unfold pd.sort_modes.
  destruct (decide (Forall pd.is_text l)) as [Htext|_].
  { rewrite merge_sort_Permutation. by rewrite texts_all. }
  destruct (decide (Forall pd.is_num l)) as [Hnum|_]; [|done].
  rewrite merge_sort_Permutation. by rewrite numbers_all.
Qed.

Lemma sort_modes_text l m rest :
  Forall pd.is_text l → pd.sort_modes l = m :: rest →
  ∀ x, x ∈ l → ∃ a b, m = Str a ∧ x = Str b ∧ String.le a b.
Proof.
  intros Htext Hsort x Hx. unfold pd.sort_modes in Hsort.
  rewrite decide_True in Hsort by done.
  pose proof (StronglySorted_merge_sort String.le (pd.texts l)) as Hsorted.
  pose proof (merge_sort_Permutation String.le (pd.texts l)) as Hperm.
  destruct (merge_sort String.le (pd.texts l)) as [|a sorted]; [done|].
  injection Hsort as <- _.
  rewrite <- (texts_all l Htext) in Hx.
  apply list_elem_of_fmap in Hx as (b & -> & Hb).
  exists a, b. split; [done|]. split; [done|].
  rewrite <- Hperm in Hb. apply elem_of_cons in Hb as [->|Hb]; [done|].
  apply StronglySorted_inv in Hsorted as [_ Hall].
  rewrite Forall_forall in Hall. by apply Hall.
Qed.

Lemma sort_modes_numbers l m rest :
  Forall pd.is_num l → ¬ Forall pd.is_text l → pd.sort_modes l = m :: rest →
  ∀ x, x ∈ l → ∃ a b, m = Num a ∧ x = Num b ∧ (a ≤ b)%Qc.
Proof.
  intros Hnum Htext Hsort x Hx. unfold pd.sort_modes in Hsort.
  rewrite decide_False, decide_True in Hsort by done.
  pose proof (StronglySorted_merge_sort Qcle (pd.numbers l)) as Hsorted.
  pose proof (merge_sort_Permutation Qcle (pd.numbers l)) as Hperm.
  destruct (merge_sort Qcle (pd.numbers l)) as [|a sorted]; [done|].
  injection Hsort as <- _.
  rewrite <- (numbers_all l Hnum) in Hx.
  apply list_elem_of_fmap in Hx as (b & -> & Hb).
  exists a, b. split; [done|]. split; [done|].
  rewrite <- Hperm in Hb. apply elem_of_cons in Hb as [->|Hb]; [done|].
  apply StronglySorted_inv in Hsorted as [_ Hall].
  rewrite Forall_forall in Hall. by apply Hall.
Qed.

(** The values of a column that occur as often as any *)
Lemma most_frequent xs x :
  x ∈ filter (λ x, pd.occurrences x xs
                   = max_list ((λ x, pd.occurrences x xs) <$> xs)) xs
  ↔ x ∈ xs ∧ ∀ y, pd.occurrences y xs ≤ pd.occurrences x xs.
Proof.
  rewrite list_elem_of_filter.
  set (top := max_list ((λ x, pd.occurrences x xs) <$> xs)).
  assert (∀ y, pd.occurrences y xs ≤ top) as Htop.
  { intros y. destruct (decide (y ∈ xs)) as [Hy|Hy].
    - apply max_list_elem_of_le. by apply (list_elem_of_fmap_2 (λ x, pd.occurrences x xs)).
    - unfold pd.occurrences. rewrite filter_none; [simpl; lia|].
      intros z Hz ->. done. }
  split.
  - intros [Heq Hx]. split; [done|]. intros y. rewrite Heq. apply Htop.
  - intros [Hx Hmax]. split; [|done]. apply Nat.le_antisymm; [apply Htop|].
    assert ((λ x, pd.occurrences x xs) <$> xs ≠ []) as Hne.
    { intros Hnil. apply fmap_nil_inv in Hnil. rewrite Hnil in Hx.
      by apply elem_of_nil in Hx. }
    apply max_list_elem_of, list_elem_of_fmap in Hne as (y & Hy & _).
    fold top in Hy. rewrite Hy. apply Hmax.
Qed.

Lemma mode_elem_of s m :
  m ∈ pd.mode s ↔
  m ∈ filter (λ c, c ≠ NaN) s
  ∧ ∀ x, pd.occurrences x (filter (λ c, c ≠ NaN) s)
         ≤ pd.occurrences m (filter (λ c, c ≠ NaN) s).
Proof.
  unfold pd.mode. rewrite sort_modes_Permutation, unique_elem_of, most_frequent.
  split; [tauto|]. intros Hm. split; [done|apply not_elem_of_nil].
Qed.

Lemma mode_nil s : pd.mode s = [] ↔ filter (λ c, c ≠ NaN) s = [].
Proof.
  split.
  - intros Hnil. destruct (filter (λ c, c ≠ NaN) s) as [|x xs] eqn:Hxs; [done|]. exfalso.
    assert ((λ y, pd.occurrences y (x :: xs)) <$> (x :: xs) ≠ []) as Hne by done.
    apply max_list_elem_of, list_elem_of_fmap in Hne as (m & Hm & Hin).
    assert (m ∈ pd.mode s) as Hmode.
    { apply mode_elem_of. rewrite Hxs. split; [done|]. intros y. rewrite <- Hm.
      destruct (decide (y ∈ x :: xs)) as [Hy|Hy].
      - apply max_list_elem_of_le.
        by apply (list_elem_of_fmap_2 (λ y, pd.occurrences y (x :: xs))).
      - unfold pd.occurrences at 1. rewrite filter_none; [simpl; lia|].
        intros z Hz ->. done. }
    rewrite Hnil in Hmode. by apply elem_of_nil in Hmode.
  - intros Hnil. unfold pd.mode. by rewrite Hnil.
Qed.

Lemma filter_head {A} (P : A → Prop) `{∀ x, Decision (P x)} (xs : list A) m rest :
  filter P xs = m :: rest →
  ∃ before after, xs = before ++ m :: after ∧ Forall (λ x, ¬ P x) before.
Proof.
  induction xs as [|x xs IH]; [done|]. rewrite filter_cons.
  destruct (decide (P x)) as [Hx|Hx].
  - intros [= -> _]. by exists [], xs.
  - intros (before & after & -> & Hbefore)%IH.
    exists (x :: before), after. split; [done|]. by constructor.
Qed.

(** Which of the most frequent values comes first in [s.mode()]: the
    least, when they are all text or all numbers; otherwise the one that
    appears first in the column. *)
Lemma mode_head s m rest :
  pd.mode s = m :: rest →
  let xs := filter (λ c, c ≠ NaN) s in
  let tied x := x ∈ xs ∧ pd.occurrences x xs = pd.occurrences m xs in
  ((∀ x, tied x → pd.is_text x) →
   ∀ x, tied x → ∃ a b, m = Str a ∧ x = Str b ∧ String.le a b)
  ∧ ((∀ x, tied x → pd.is_num x) →
     ∀ x, tied x → ∃ a b, m = Num a ∧ x = Num b ∧ (a ≤ b)%Qc)
  ∧ (¬ (∀ x, tied x → pd.is_text x) → ¬ (∀ x, tied x → pd.is_num x) →
     ∃ before after,
       xs = before ++ m :: after
       ∧ ∀ x, x ∈ before → pd.occurrences x xs < pd.occurrences m xs).
Proof.
  intros Hmode xs tied.
  assert (m ∈ pd.mode s) as Hm by (rewrite Hmode; by left).
  apply mode_elem_of in Hm as [Hm Hmax]. fold xs in Hm, Hmax.
  set (modes := pd.unique [] (filter (λ x, pd.occurrences x xs
                   = max_list ((λ x, pd.occurrences x xs) <$> xs)) xs)).
  assert (pd.sort_modes modes = m :: rest) as Hsort by exact Hmode.
  assert (∀ x, x ∈ modes ↔ tied x) as Hmodes.
  { intros x. unfold modes, tied. rewrite unique_elem_of, most_frequent. split.
    - intros [[Hx Hxmax] _]. split; [done|].
      apply Nat.le_antisymm; [apply Hmax|apply Hxmax].
    - intros [Hx Heq]. split; [|apply not_elem_of_nil]. split; [done|].
      intros y. rewrite Heq. apply Hmax. }
  split; [|split].
  - intros Htext x Hx. apply (sort_modes_text modes m rest); [|done|by apply Hmodes].
    apply Forall_forall. intros y Hy. by apply Htext, Hmodes.
  - intros Hnum x Hx.
    destruct (decide (Forall pd.is_text modes)) as [Htext|Htext].
    + assert (pd.is_text x) as Hxt.
      { rewrite Forall_forall in Htext. by apply Htext, Hmodes. }
      assert (pd.is_num x) as Hxn by (by apply Hnum).
      by destruct x.
    + apply (sort_modes_numbers modes m rest); [|done|done|by apply Hmodes].
      apply Forall_forall. intros y Hy. by apply Hnum, Hmodes.
  - intros Htext Hnum.
    assert (pd.sort_modes modes = modes) as Hsame.
    { unfold pd.sort_modes. rewrite !decide_False; [done| |].
      - rewrite Forall_forall. intros Hall. apply Hnum. intros x Hx.
        by apply Hall, Hmodes.
      - rewrite Forall_forall. intros Hall. apply Htext. intros x Hx.
        by apply Hall, Hmodes. }
    rewrite Hsame in Hsort. unfold modes in Hsort.
    destruct (filter (λ x, pd.occurrences x xs
                 = max_list ((λ x, pd.occurrences x xs) <$> xs)) xs)
      as [|first others] eqn:Hfilter; [done|].
    rewrite unique_head in Hsort. injection Hsort as -> _.
    apply filter_head in Hfilter as (before & after & Hxs & Hbefore).
    exists before, after. split; [done|]. intros x Hx.
    rewrite Forall_forall in Hbefore. specialize (Hbefore x Hx).
    assert (x ∈ xs) as Hin by (rewrite Hxs; apply elem_of_app; by left).
    destruct (decide (pd.occurrences x xs = pd.occurrences m xs)) as [Heq|Hne].
    + exfalso. apply Hbefore.
      assert (x ∈ filter (λ x, pd.occurrences x xs
                 = max_list ((λ x, pd.occurrences x xs) <$> xs)) xs) as Hx'.
      { apply most_frequent. split; [done|]. intros y. rewrite Heq. apply Hmax. }
      by apply list_elem_of_filter in Hx' as [? _].
    + pose proof (Hmax x). lia.
Qed.

Lemma dtype_of_columns d d' name :
  columns d' = columns d → pd.dtype_of d' name = pd.dtype_of d name.
Proof. intros Hcols. unfold pd.dtype_of, pd.position. by rewrite Hcols. Qed.

(** The loop of [fill_mode] over distinct column names of a well-formed
    frame: the object columns among them are filled, each from its own
    values, and nothing else changes. *)
Lemma fill_mode_loop_columns df names : ∀ σ d,
  heap σ !! df = Some d → well_formed d → NoDup names →
  (∀ n, n ∈ names → n ∈ (columns d).*1) →
  ∃ d', for_each names (fill_mode_column df) σ
        = Some ((), State (<[df:=d']> (heap σ)) (files σ) (logged σ))
        ∧ well_formed d'
        ∧ columns d' = columns d
        ∧ length (rows d') = length (rows d)
        ∧ ∀ c, c ∈ (columns d).*1 →
            pd.col d' c
            = if decide (c ∈ names ∧ pd.dtype_of d c = Some object_)
              then pd.fillna (match pd.mode (pd.col d c) with
                              | m :: _ => m
                              | [] => Str "Unknown"
                              end) (pd.col d c)
              else pd.col d c.
Proof.
  induction names as [|n names IH]; intros σ d Hl Hwf Hnd Hnames.
  - exists d. split; [simpl; unfold ret; rewrite insert_id by done; by destruct σ|].
    split; [done|]. split; [done|]. split; [done|]. intros c Hc.
    rewrite decide_False; [done|]. intros [Hin _]. by apply elem_of_nil in Hin.
  - apply NoDup_cons in Hnd as [Hn Hnd].
    assert (n ∈ (columns d).*1) as Hn_col by (apply Hnames; by left).
    simpl. unfold bind at 1. unfold fill_mode_column at 1.
    rewrite (bind_read _ _ _ _ Hl).
    set (filled := pd.fillna match pd.mode (pd.col d n) with
                             | m :: _ => m
                             | [] => Str "Unknown"
                             end (pd.col d n)).
    assert (length filled = length (rows d)) as Hfilled
      by (unfold filled; by rewrite fillna_length, col_length).
    destruct (decide (pd.dtype_of d n = Some object_)) as [Hobj|Hobj].
    + rewrite (write_Some _ _ d) by done.
      edestruct (IH (State (<[df:=pd.set_col d n filled]> (heap σ)) (files σ) (logged σ))
                    (pd.set_col d n filled))
        as (d' & Hrun & Hwf' & Hcols' & Hlen' & Hcol');
        [simpl; apply lookup_insert_eq|by apply set_col_well_formed|done| |].
      { intros m Hm. rewrite set_col_columns. apply Hnames. by right. }
      exists d'. rewrite Hrun. simpl. rewrite insert_insert_eq.
      split; [done|]. split; [done|]. rewrite set_col_columns in Hcols'.
      split; [done|]. rewrite set_col_len in Hlen' by done. split; [done|].
      intros c Hc. rewrite Hcol' by (by rewrite set_col_columns).
      rewrite (dtype_of_columns d) by apply set_col_columns.
      rewrite !col_set_col by done.
      destruct (decide (c = n)) as [->|Hne].
      * rewrite decide_False by tauto. rewrite decide_True; [done|].
        split; [by left|done].
      * destruct (decide (c ∈ names ∧ pd.dtype_of d c = Some object_)) as [[Hin Hc_obj]|Hno].
        -- rewrite decide_True; [done|]. split; [by right|done].
        -- rewrite decide_False; [done|]. rewrite elem_of_cons. tauto.
    + unfold ret at 1.
      destruct (IH σ d Hl Hwf Hnd) as (d' & Hrun & Hwf' & Hcols' & Hlen' & Hcol').
      { intros m Hm. apply Hnames. by right. }
      exists d'. split; [done|]. split; [done|]. split; [done|]. split; [done|].
      intros c Hc. rewrite Hcol' by done.
      destruct (decide (c ∈ names ∧ pd.dtype_of d c = Some object_)) as [[Hin Hc_obj]|Hno].
      * rewrite decide_True; [done|]. split; [by right|done].
      * rewrite decide_False; [done|]. rewrite elem_of_cons.
        intros [[->|Hin] Hc_obj]; tauto.
Qed.

(** X8. On a well-formed frame [fill_mode] leaves every column that is not
    of dtype [object] as it was, and leaves no null in an [object] column.
    A column without any value is filled with ["Unknown"].  Any other is
    filled with one of its own values, text or number, that occurs in it
    at least as often as every other value; of the values that occur that
    often it is the least when they are all text or all numbers, and
    otherwise the first of them to appear in the column. *)
Theorem mode_filling `{Libraries} σ df d :
  heap σ !! df = Some d →
  well_formed d →
  ∃ σ' d',
    handle_missing_values df "fill_mode" σ = Some (df, σ')
    ∧ heap σ' !! df = Some d'
    ∧ well_formed d'
    ∧ ∀ c, c ∈ (columns d).*1 →
        (pd.dtype_of d c ≠ Some object_ → pd.col d' c = pd.col d c)
        ∧ (pd.dtype_of d c = Some object_ →
           let xs := filter (λ v, v ≠ NaN) (pd.col d c) in
           (NaN ∉ pd.col d' c)
           ∧ (xs = [] → pd.col d' c = pd.fillna (Str "Unknown") (pd.col d c))
           ∧ (xs ≠ [] →
              ∃ m, pd.col d' c = pd.fillna m (pd.col d c)
                   ∧ m ∈ xs
                   ∧ (∀ x, pd.occurrences x xs ≤ pd.occurrences m xs)
                   ∧ let tied x :=
                       x ∈ xs ∧ pd.occurrences x xs = pd.occurrences m xs in
                     ((∀ x, tied x → pd.is_text x) →
                      ∀ x, tied x → ∃ a b, m = Str a ∧ x = Str b ∧ String.le a b)
                     ∧ ((∀ x, tied x → pd.is_num x) →
                        ∀ x, tied x → ∃ a b, m = Num a ∧ x = Num b ∧ (a ≤ b)%Qc)
                     ∧ (¬ (∀ x, tied x → pd.is_text x) →
                        ¬ (∀ x, tied x → pd.is_num x) →
                        ∃ before after,
                          xs = before ++ m :: after
                          ∧ ∀ x, x ∈ before →
                              pd.occurrences x xs < pd.occurrences m xs))).
Proof.
  intros Hl Hwf.
  destruct (fill_mode_loop_columns df (columns d).*1 σ d Hl Hwf)
    as (d' & Hrun & Hwf' & _ & _ & Hcol'); [apply Hwf|done|].
  exists (State (<[df:=d']> (heap σ)) (files σ) (logged σ)), d'. split.
  { unfold handle_missing_values. simpl. rewrite (bind_read _ _ _ _ Hl).
    unfold bind. by rewrite Hrun. }
  simpl. rewrite lookup_insert_eq. split; [done|]. split; [done|].
  intros c Hc. rewrite (Hcol' c Hc). split.
  - intros Hno. rewrite decide_False; [done|tauto].
  - intros Hobj. rewrite decide_True by done.
    destruct (pd.mode (pd.col d c)) as [|m rest] eqn:Hmode.
    + pose proof Hmode as Hnil%mode_nil. split; [by apply fillna_no_null|].
      split; [done|]. intros Hsome. by destruct Hsome.
    + assert (m ∈ pd.mode (pd.col d c)) as Hm by (rewrite Hmode; by left).
      apply mode_elem_of in Hm as [Hm Hmax].
      assert (m ≠ NaN) as Hnotna by (by apply list_elem_of_filter in Hm as [? _]).
      split; [by apply fillna_no_null|]. split.
      { intros Hnil. rewrite Hnil in Hm. by apply elem_of_nil in Hm. }
      intros _. exists m. split; [done|]. split; [done|]. split; [done|].
      apply (mode_head _ _ _ Hmode).
Qed.

Lemma mode_filling_witness :
  let σ := sample.store sample.objects in
  let d := sample.objects in
  let df := 1%positive in
  heap σ !! df = Some d
  ∧ well_formed d
  ∧ ∃ σ' d',
      handle_missing_values (H := sample.libraries) df "fill_mode" σ = Some (df, σ')
      ∧ heap σ' !! df = Some d'
      ∧ well_formed d'
      ∧ ∀ c, c ∈ (columns d).*1 →
          (pd.dtype_of d c ≠ Some object_ → pd.col d' c = pd.col d c)
          ∧ (pd.dtype_of d c = Some object_ →
             let xs := filter (λ v, v ≠ NaN) (pd.col d c) in
             (NaN ∉ pd.col d' c)
             ∧ (xs = [] → pd.col d' c = pd.fillna (Str "Unknown") (pd.col d c))
             ∧ (xs ≠ [] →
                ∃ m, pd.col d' c = pd.fillna m (pd.col d c)
                     ∧ m ∈ xs
                     ∧ (∀ x, pd.occurrences x xs ≤ pd.occurrences m xs)
                     ∧ let tied x :=
                         x ∈ xs ∧ pd.occurrences x xs = pd.occurrences m xs in
                       ((∀ x, tied x → pd.is_text x) →
                        ∀ x, tied x → ∃ a b, m = Str a ∧ x = Str b ∧ String.le a b)
                       ∧ ((∀ x, tied x → pd.is_num x) →
                          ∀ x, tied x → ∃ a b, m = Num a ∧ x = Num b ∧ (a ≤ b)%Qc)
                       ∧ (¬ (∀ x, tied x → pd.is_text x) →
                          ¬ (∀ x, tied x → pd.is_num x) →
                          ∃ before after,
                            xs = before ++ m :: after
                            ∧ ∀ x, x ∈ before →
                                pd.occurrences x xs < pd.occurrences m xs))).
Proof.
  intros σ d df. split; [reflexivity|]. split; [compute_done|].
  apply (mode_filling (H := sample.libraries) σ df d); [reflexivity|compute_done].
Defined.

(** The filling strategies on the sample frames.  In the frame of
    [object] columns the gaps are filled with the number 7, with the
    number 1 (twice, against one ["a"]), with ["b"] (as frequent as 2, and
    first to appear) and with ["Unknown"].  In the other frame the text
    column gets its most frequent value ["b"], and the numeric one what
    the library answers as mean or median. *)
Lemma filling_sample :
  (λ r, pd.values <$> heap r.2 !! r.1)
    <$> handle_missing_values (H := sample.libraries) 1%positive "fill_mode" (sample.store sample.objects)
  = Some (Some [[sample.z 7; sample.z 1; Str "b"; Str "Unknown"];
                [sample.z 7; sample.z 1; sample.z 2; Str "Unknown"];
                [sample.z 7; Str "a"; Str "b"; Str "Unknown"];
                [sample.z 7; sample.z 1; sample.z 2; Str "Unknown"];
                [sample.z 7; sample.z 1; Str "b"; Str "Unknown"]])
  ∧ (λ r, pd.values <$> heap r.2 !! r.1)
      <$> handle_missing_values (H := sample.libraries) 1%positive "fill_mode" (sample.store sample.mixed)
    = Some (Some [[Str "b"; sample.z 1]; [Str "b"; NaN]; [Str "a"; sample.z 4];
                  [Str "b"; NaN]; [Str "a"; sample.z 1]; [Str "b"; sample.z 1]])
  ∧ (λ r, (λ d, pd.col d "x") <$> heap r.2 !! r.1)
      <$> handle_missing_values (H := sample.libraries) 1%positive "fill_mean" (sample.store sample.mixed)
    = Some (Some [sample.z 1; Num (Q2Qc 1.75); sample.z 4; Num (Q2Qc 1.75);
                  sample.z 1; sample.z 1])
  ∧ (λ r, (λ d, pd.col d "x") <$> heap r.2 !! r.1)
      <$> handle_missing_values (H := sample.libraries) 1%positive "fill_median" (sample.store sample.mixed)
    = Some (Some [sample.z 1; sample.z 1; sample.z 4; sample.z 1;
                  sample.z 1; sample.z 1]).
Proof. repeat split; compute_done. Qed.

(** * Cleaning and the frame that was given *)

(** C2, amended. [remove_duplicates] and the [drop] strategy store their
    result as a new frame and leave the frame they were given as it was;
    [remove_outliers] leaves it as it was too, and returns a new frame or,
    when it skips or fails, the given frame itself.  The strategies
    [fill_mean], [fill_median] and [fill_mode] write into the frame they
    were given and return that same frame: the first two overwrite every
    numeric column with its nulls replaced by what the library answers as
    the mean or the median of the column; the third replaces nulls only,
    and in a well-formed frame it overwrites exactly the columns of dtype
    [object], each with its nulls replaced by the first of its most
    frequent values, or by ["Unknown"] when it holds no value.  Any other
    strategy returns the given frame untouched. *)
Theorem cleaning_and_the_given_frame `{Libraries} σ df d :
  heap σ !! df = Some d →
  (∃ l σ', remove_duplicates df σ = Some (l, σ')
           ∧ l ≠ df ∧ heap σ' !! df = Some d
           ∧ heap σ' !! l = Some (pd.drop_duplicates d))
  ∧ (∃ l σ', handle_missing_values df "drop" σ = Some (l, σ')
             ∧ l ≠ df ∧ heap σ' !! df = Some d
             ∧ heap σ' !! l = Some (pd.dropna d))
  ∧ (∃ l σ', remove_outliers df σ = Some (l, σ')
             ∧ heap σ' !! df = Some d
             ∧ (l = df ∨ heap σ !! l = None))
  ∧ (∃ σ', handle_missing_values df "fill_mean" σ = Some (df, σ')
           ∧ heap σ' !! df
             = Some (pd.set_cols d (pd.select_dtypes_number d)
                       (λ col, pd.fillna (mean (pd.col d col)) (pd.col d col))))
  ∧ (∃ σ', handle_missing_values df "fill_median" σ = Some (df, σ')
           ∧ heap σ' !! df
             = Some (pd.set_cols d (pd.select_dtypes_number d)
                       (λ col, pd.fillna (median (pd.col d col)) (pd.col d col))))
  ∧ (∃ d', handle_missing_values df "fill_mode" σ
           = Some (df, State (<[df:=d']> (heap σ)) (files σ) (logged σ))
           ∧ fills d d'
           ∧ (well_formed d →
              ∀ c, c ∈ (columns d).*1 →
                pd.col d' c
                = if decide (pd.dtype_of d c = Some object_)
                  then pd.fillna (match pd.mode (pd.col d c) with
                                  | m :: _ => m
                                  | [] => Str "Unknown"
                                  end) (pd.col d c)
                  else pd.col d c))
  ∧ (∀ strategy,
       strategy ∉ ["drop"; "fill_mean"; "fill_median"; "fill_mode"]%string →
       handle_missing_values df strategy σ = Some (df, σ)).
Proof.
  intros Hl. pose proof (fresh_heap_ne σ df d Hl) as Hfresh.
  split; [|split; [|split; [|split; [|split; [|split]]]]].
  - eexists _, _. split; [by apply remove_duplicates_run|]. simpl.
    rewrite lookup_insert_eq, lookup_insert_ne by done. done.
  - eexists _, _. split; [by apply handle_missing_values_drop|]. simpl.
    rewrite lookup_insert_eq, lookup_insert_ne by done. done.
  - destruct (remove_outliers_run σ df d Hl)
      as [[record Hrun]|(labels & removed & _ & _ & _ & _ & Hrun)].
    + eexists _, _. split; [exact Hrun|]. simpl. auto.
    + eexists _, _. split; [exact Hrun|]. simpl.
      rewrite lookup_insert_ne by done. split; [done|]. right. apply fresh_heap.
  - eexists. unfold handle_missing_values. simpl. rewrite (bind_read _ _ _ _ Hl). unfold bind.
    rewrite (write_Some _ _ d) by done. split; [reflexivity|].
    simpl. apply lookup_insert_eq.
  - eexists. unfold handle_missing_values. simpl. rewrite (bind_read _ _ _ _ Hl). unfold bind.
    rewrite (write_Some _ _ d) by done. split; [reflexivity|].
    simpl. apply lookup_insert_eq.
  - destruct (fill_mode_loop_fills df (columns d).*1 σ d Hl) as (d' & Hrun & Hfills).
    exists d'. split; [|split; [done|]].
    { unfold handle_missing_values. simpl. rewrite (bind_read _ _ _ _ Hl).
      unfold bind. by rewrite Hrun. }
    intros Hwf c Hc.
    destruct (fill_mode_loop_columns df (columns d).*1 σ d Hl Hwf)
      as (d'' & Hrun' & _ & _ & _ & Hcol); [apply Hwf|done|].
    assert (d'' = d') as ->.
    { rewrite Hrun in Hrun'. injection Hrun' as Hheap.
      assert (<[df:=d']> (heap σ) !! df = <[df:=d'']> (heap σ) !! df) as Hsame
        by (by rewrite Hheap).
      rewrite !lookup_insert_eq in Hsame. by injection Hsame. }
    rewrite (Hcol c Hc).
    destruct (decide (pd.dtype_of d c = Some object_)) as [Hobj|Hobj].
    + by rewrite decide_True.
    + rewrite decide_False; [done|tauto].
  - intros strategy. apply handle_missing_values_other.
Qed.

(** C2, as stated, fails: [fill_mean] returns the frame it was given, and
    that frame now holds the filled column. *)
Lemma fill_mean_overwrites_the_given_frame :
  heap (sample.store sample.gap) !! 1%positive = Some sample.gap
  ∧ handle_missing_values (H := sample.libraries) 1%positive "fill_mean"
      (sample.store sample.gap)
    = Some (1%positive, sample.store sample.filled)
  ∧ heap (sample.store sample.filled) !! 1%positive ≠ Some sample.gap.
Proof. repeat split; compute_done. Qed.

Lemma cleaning_and_the_given_frame_witness :
  let σ := sample.store sample.mixed in
  let df := 1%positive in
  let d := sample.mixed in
  heap σ !! df = Some d
  ∧ ((∃ l σ', remove_duplicates df σ = Some (l, σ')
              ∧ l ≠ df ∧ heap σ' !! df = Some d
              ∧ heap σ' !! l = Some (pd.drop_duplicates d))
     ∧ (∃ l σ', handle_missing_values (H := sample.libraries) df "drop" σ = Some (l, σ')
                ∧ l ≠ df ∧ heap σ' !! df = Some d
                ∧ heap σ' !! l = Some (pd.dropna d))
     ∧ (∃ l σ', remove_outliers (H := sample.libraries) df σ = Some (l, σ')
                ∧ heap σ' !! df = Some d
                ∧ (l = df ∨ heap σ !! l = None))
     ∧ (∃ σ', handle_missing_values (H := sample.libraries) df "fill_mean" σ = Some (df, σ')
              ∧ heap σ' !! df
                = Some (pd.set_cols d (pd.select_dtypes_number d)
                          (λ col, pd.fillna (mean (Libraries := sample.libraries) (pd.col d col)) (pd.col d col))))
     ∧ (∃ σ', handle_missing_values (H := sample.libraries) df "fill_median" σ = Some (df, σ')
              ∧ heap σ' !! df
                = Some (pd.set_cols d (pd.select_dtypes_number d)
                          (λ col, pd.fillna (median (Libraries := sample.libraries) (pd.col d col)) (pd.col d col))))
     ∧ (∃ d', handle_missing_values (H := sample.libraries) df "fill_mode" σ
              = Some (df, State (<[df:=d']> (heap σ)) (files σ) (logged σ))
              ∧ fills d d'
              ∧ (well_formed d →
                 ∀ c, c ∈ (columns d).*1 →
                   pd.col d' c
                   = if decide (pd.dtype_of d c = Some object_)
                     then pd.fillna (match pd.mode (pd.col d c) with
                                     | m :: _ => m
                                     | [] => Str "Unknown"
                                     end) (pd.col d c)
                     else pd.col d c))
     ∧ (∀ strategy,
          strategy ∉ ["drop"; "fill_mean"; "fill_median"; "fill_mode"]%string →
          handle_missing_values (H := sample.libraries) df strategy σ = Some (df, σ))).
Proof.
  intros σ df d. split; [reflexivity|].
  apply (cleaning_and_the_given_frame (H := sample.libraries)). reflexivity.
Defined.

(** * Further properties of loading *)

Section loading_more.
Context `{Libraries}.

Lemma try_encodings_after_latin_1 data before after :
  try_encodings data (before ++ "latin-1"%string :: after)
  = try_encodings data (before ++ ["latin-1"%string]).
Proof.
  induction before as [|c before IH]; simpl.
  - destruct (read_csv data "latin-1") as [df|e] eqn:Hread; [done|].
    destruct e; try done. by apply read_csv_latin_1 in Hread; [|left].
  - destruct (read_csv data c) as [df|e]; [done|]. by destruct e.
Qed.

(** X9. The candidates listed after ["latin-1"] are never tried: a
    processor whose list is cut after ["latin-1"] loads every path, in
    every state, exactly as the processor with the full list does. *)
Theorem later_encodings_are_never_tried self before after :
  encodings self = before ++ "latin-1"%string :: after →
  ∀ file_path σ,
    load_data self file_path σ
    = load_data {| max_rows := max_rows self;
                   encodings := before ++ ["latin-1"%string] |} file_path σ.
Proof.
  intros Henc file_path σ.
  assert (read_file self file_path σ
          = read_file {| max_rows := max_rows self;
                         encodings := before ++ ["latin-1"%string] |} file_path σ)
    as Hread.
  { unfold read_file, bind, open_file. cbn [encodings]. rewrite Henc.
    destruct (decide (_ = "csv"%string)); [|done].
    by rewrite try_encodings_after_latin_1. }
  unfold load_data, bind. by rewrite Hread.
Qed.

(** X10. Whatever the path and the state, [load_data] of the processor
    built by [init] leaves the files and the existing frames as they are.
    When it returns a frame, that frame is a new object with at least one
    column, at least one row and at most 100,000 rows. *)
Theorem load_data_returns_bounded_frames σ file_path :
  ∃ result σ',
    load_data init file_path σ = Some (result, σ')
    ∧ files σ' = files σ
    ∧ match result with
      | None => heap σ' = heap σ
      | Some l =>
          heap σ !! l = None
          ∧ ∃ d, heap σ' = <[l:=d]> (heap σ)
                 ∧ columns d ≠ []
                 ∧ 1 ≤ pd.len d
                 ∧ (Z.of_nat (pd.len d) ≤ 100000)%Z
      end.
Proof.
  unfold load_data. unfold bind at 1.
  destruct (read_file_init σ file_path)
    as [(df & m & ->)|[(e & -> & He)|[-> Hext]]];
    [|by eexists _, _|by eexists _, _].
  destruct (pd.empty df) eqn:Hempty; [by eexists _, _|].
  apply bool_decide_eq_false in Hempty.
  assert (rows df ≠ [] ∧ columns df ≠ []) as [Hrows Hcols] by tauto.
  assert (1 ≤ pd.len df) as Hlen.
  { unfold pd.len. destruct (rows df); [done|simpl; lia]. }
  destruct (decide (max_rows init < Z.of_nat (pd.len df))%Z) as [Hbig|Hsmall].
  - eexists _, _. split; [reflexivity|]. simpl. split; [done|].
    split; [apply (fresh_heap (State (heap σ) (files σ) (logged σ ++ [(INFO, m)])))|].
    eexists. split; [reflexivity|]. unfold pd.head, pd.len in *. simpl in *.
    rewrite length_take. split; [done|]. lia.
  - eexists _, _. split; [reflexivity|]. simpl. split; [done|].
    split; [apply (fresh_heap (State (heap σ) (files σ) (logged σ ++ [(INFO, m)])))|].
    eexists. split; [reflexivity|]. simpl in Hsmall. split; [done|]. lia.
Qed.

(** X11. A file that reads as a non-empty frame of at most 100,000 rows is
    returned whole: the new frame is the frame read, and nothing is added
    to the log; the limit itself is still within bounds. *)
Theorem load_data_within_limit σ file_path d σ1 :
  read_file init file_path σ = Some (Next d, σ1) →
  pd.empty d = false →
  (Z.of_nat (pd.len d) ≤ 100000)%Z →
  ∃ l, load_data init file_path σ
       = Some (Some l, State (<[l:=d]> (heap σ1)) (files σ1) (logged σ1))
       ∧ heap σ1 !! l = None.
Proof.
  intros Hread Hempty Hlen. exists (fresh (dom (heap σ1))).
  rewrite (load_data_after_read _ _ _ _ _ Hread Hempty).
  rewrite decide_False by (simpl; lia). split; [done|apply fresh_heap].
Qed.

End loading_more.

Lemma later_encodings_are_never_tried_witness :
  encodings init = ["utf-8"%string] ++ "latin-1"%string :: ["iso-8859-1"; "cp1252"]%string
  ∧ ∀ file_path σ,
      load_data (H := sample.libraries) init file_path σ
      = load_data (H := sample.libraries)
          {| max_rows := max_rows init;
             encodings := ["utf-8"%string] ++ ["latin-1"%string] |} file_path σ.
Proof.
  split; [reflexivity|].
  apply (later_encodings_are_never_tried (H := sample.libraries) init
           ["utf-8"%string] ["iso-8859-1"; "cp1252"]%string).
  reflexivity.
Defined.

Lemma load_data_within_limit_witness :
  let σ := sample.disk (sample.text_file 100000) in
  let d := sample.text_frame 100000 in
  let σ1 := State ∅ {[ "data.csv"%string := sample.text_file 100000 ]}
                  [(INFO, Loaded_csv "utf-8")] in
  read_file (H := sample.libraries) init "data.csv" σ = Some (Next d, σ1)
  ∧ pd.empty d = false
  ∧ (Z.of_nat (pd.len d) ≤ 100000)%Z
  ∧ ∃ l, load_data (H := sample.libraries) init "data.csv" σ
         = Some (Some l, State (<[l:=d]> (heap σ1)) (files σ1) (logged σ1))
         ∧ heap σ1 !! l = None.
Proof.
  intros σ d σ1.
  assert (Z.of_nat (pd.len d) ≤ 100000)%Z as Hlen
    by (unfold d; rewrite text_frame_len; done).
  assert (pd.empty d = false) as Hempty by (by apply text_frame_not_empty).
  split; [apply read_text_file|]. split; [exact Hempty|]. split; [exact Hlen|].
  apply (load_data_within_limit (H := sample.libraries) σ "data.csv" d σ1);
    [apply read_text_file|exact Hempty|exact Hlen].
Defined.

(** * File names *)

Lemma lower_ascii_dot a : lower_ascii a = "."%char ↔ a = "."%char.
Proof. destruct a as [[] [] [] [] [] [] [] []]; vm_compute; split; congruence. Qed.

Lemma contains_lower s : contains "." (lower s) = contains "." s.
Proof.
  induction s as [|a s IH]; [done|]. simpl. rewrite IH. f_equal.
  apply bool_decide_ext, lower_ascii_dot.
Qed.

Lemma lower_app s t : lower (s +:+ t) = lower s +:+ lower t.
Proof. induction s as [|a s IH]; [done|]. simpl. by rewrite IH. Qed.

Lemma string_app_assoc (s t u : string) : (s +:+ t) +:+ u = s +:+ (t +:+ u).
Proof.
  induction s as [|a s IH]; [done|].
  change (String a ((s +:+ t) +:+ u) = String a (s +:+ (t +:+ u))). by f_equal.
Qed.

Lemma split_without_dot s : contains "." s = false → split "." s = [s].
Proof.
  induction s as [|a s IH]; [done|]. simpl.
  intros [Ha Hs]%orb_false_elim. apply bool_decide_eq_false in Ha.
  rewrite decide_False by done. by rewrite IH.
Qed.

(** The text after the last dot *)
Lemma split_last stem ext :
  contains "." ext = false →
  ∃ w ws, split "." (stem +:+ String "." ext) = w :: ws
          ∧ ws ≠ [] ∧ last ws = Some ext.
Proof.
  intros Hext. induction stem as [|a stem (w & ws & IH & Hws & Hlast)]; simpl.
  - exists EmptyString, [ext]. by rewrite split_without_dot.
  - rewrite IH. destruct (decide (a = "."%char)).
    + exists EmptyString, (w :: ws). split; [done|]. split; [done|].
      destruct ws; [done|]. exact Hlast.
    + by exists (String a w), ws.
Qed.

Lemma extension_of stem ext :
  contains "." ext = false →
  default EmptyString (last (split "." (lower (stem +:+ String "." ext)))) = lower ext.
Proof.
  intros Hext. rewrite lower_app. simpl lower.
  assert (lower_ascii "." = "."%char) as -> by done.
  destruct (split_last (lower stem) (lower ext)) as (w & ws & -> & Hws & Hlast).
  { by rewrite contains_lower. }
  destruct ws as [|w' ws]; [done|]. simpl in *. by rewrite Hlast.
Qed.

Lemma rpartition_None s : rpartition "." s = None ↔ contains "." s = false.
Proof.
  induction s as [|a s IH]; [done|]. simpl.
  destruct (rpartition "." s) as [[b t]|].
  - split; [done|]. intros [_ Hs]%orb_false_elim. by apply IH in Hs.
  - destruct IH as [IH _]. rewrite IH by done. rewrite orb_false_r.
    destruct (decide (a = "."%char)) as [->|Hne].
    + by rewrite bool_decide_eq_true_2.
    + by rewrite bool_decide_eq_false_2.
Qed.

Lemma rpartition_Some s before after :
  rpartition "." s = Some (before, after) →
  s = before +:+ String "." after ∧ contains "." after = false.
Proof.
  revert before. induction s as [|a s IH]; intros before; [done|]. simpl.
  destruct (rpartition "." s) as [[b t]|] eqn:Hs.
  - intros [= <- <-]. destruct (IH b eq_refl) as [-> Hafter]. done.
  - destruct (decide (a = "."%char)) as [->|]; [|done].
    intros [= <- <-]. split; [done|]. by apply rpartition_None.
Qed.

(** X12. [allowed_file] accepts a name exactly when the name contains a
    dot and the extension [load_data] would compute from it, the text
    after the last dot of the lower-cased name, is [csv], [xlsx] or
    [xls]. *)
Theorem allowed_file_agrees_with_load_data filename :
  allowed_file filename = true ↔
  contains "." filename = true
  ∧ default EmptyString (last (split "." (lower filename)))
    ∈ ["csv"; "xlsx"; "xls"]%string.
Proof.
  unfold allowed_file. rewrite andb_true_iff, bool_decide_eq_true.
  assert (contains "." filename = true →
          lower (default EmptyString (rsplit1 "." filename !! 1))
          = default EmptyString (last (split "." (lower filename)))) as Hsame.
  { intros Hdot. unfold rsplit1.
    destruct (rpartition "." filename) as [[before after]|] eqn:Hpart.
    - apply rpartition_Some in Hpart as [-> Hafter].
      by rewrite extension_of.
    - apply rpartition_None in Hpart. congruence. }
  unfold ALLOWED_EXTENSIONS.
  split; intros [Hdot Hext]; (split; [done|]); rewrite Hsame in * by done;
    revert Hext;
    rewrite !elem_of_union, !elem_of_singleton, !elem_of_cons, elem_of_nil; tauto.
Qed.

Section extension_dispatch.
Context `{Libraries}.

(** [load_data] looks at the text after the last dot of the lower-cased
    path before it looks at the file. *)
Lemma load_data_other_extension self file_path σ :
  let file_extension := default EmptyString (last (split "." (lower file_path))) in
  file_extension ∉ ["csv"; "xlsx"; "xls"]%string →
  load_data self file_path σ
  = Some (None, State (heap σ) (files σ)
                      (logged σ ++ [(ERROR, Unsupported_format file_extension)])).
Proof.
  intros file_extension Hother. unfold load_data, read_file, bind, open_file.
  fold file_extension.
  rewrite decide_False by (intros Heq; apply Hother; rewrite Heq; by left).
  rewrite decide_False; [done|].
  intros Hin. apply Hother. by right.
Qed.

(** X13. A path whose text after the last dot is, in lower case, none of
    [csv], [xlsx] and [xls] is rejected by [load_data] without a look at
    the file: the result is [None] whether or not the file exists, one
    error naming the extension is logged, and nothing else changes. *)
Theorem load_data_rejects_other_extensions self stem ext σ :
  contains "." ext = false →
  lower ext ∉ ["csv"; "xlsx"; "xls"]%string →
  load_data self (stem +:+ String "." ext) σ
  = Some (None, State (heap σ) (files σ)
                      (logged σ ++ [(ERROR, Unsupported_format (lower ext))])).
Proof.
  intros Hext Hother.
  pose proof (load_data_other_extension self (stem +:+ String "." ext) σ) as Hload.
  cbv zeta in Hload. rewrite extension_of in Hload by done. by apply Hload.
Qed.

End extension_dispatch.

Lemma load_data_rejects_other_extensions_witness :
  contains "." "JSON" = false
  ∧ (lower "JSON" ∉ ["csv"; "xlsx"; "xls"]%string)
  ∧ load_data (H := sample.libraries) init ("exports/report.v2" +:+ String "." "JSON")
      (sample.disk [])
    = Some (None, State (heap (sample.disk [])) (files (sample.disk []))
                        (logged (sample.disk [])
                         ++ [(ERROR, Unsupported_format (lower "JSON"))])).
Proof.
  split; [reflexivity|]. split; [compute_done|].
  apply (load_data_rejects_other_extensions (H := sample.libraries));
    [reflexivity|compute_done].
Defined.

(** Names with and without a dot, in either case *)
Lemma allowed_file_samples :
  allowed_file "Sales.2024.CSV" = true
  ∧ allowed_file "book.xlsx" = true
  ∧ allowed_file "notes.txt" = false
  ∧ allowed_file "csv" = false
  ∧ allowed_file ".xls" = true.
Proof. repeat split; compute_done. Qed.

(** * Exports *)

Section exports.
Context `{Writers}.

(** X14. [export_data] touches at most the one file whose path it
    computes, [export_folder] joined with
    [exported_data_<timestamp>.<format>].  With a format that is not
    supported it returns [None] and writes nothing; when it returns a path,
    it is that path and the format is a supported one; it returns [None]
    for a supported format only when the writer raised. *)
Theorem export_data_writes_one_file self timestamp df format export_folder fs :
  let filepath :=
    path_join export_folder ("exported_data_" +:+ timestamp +:+ "." +:+ format) in
  ∃ result fs' records,
    export_data self timestamp df format export_folder fs = (result, fs', records)
    ∧ (∀ other, other ≠ filepath → fs' !! other = fs !! other)
    ∧ (format ∉ supported_formats self →
       result = None ∧ fs' = fs
       ∧ records = [(ERROR, Unsupported_export_format format)])
    ∧ (∀ p, result = Some p →
       p = filepath ∧ format ∈ supported_formats self
       ∧ records = [(INFO, Data_exported filepath)])
    ∧ (format ∈ supported_formats self → result = None →
       ∃ e, records = [(ERROR, Error_exporting e)]).
Proof.
  intros filepath. unfold export_data. fold filepath.
  destruct (decide (format ∉ supported_formats self)) as [Hno|Hyes].
  { eexists _, _, _. split; [reflexivity|]. repeat split; done. }
  apply dec_stable in Hyes.
  set (w := if decide (format = "csv"%string) then to_csv df filepath
            else if decide (format = "xlsx"%string) then to_excel df filepath
            else if decide (format = "json"%string) then to_json df filepath
            else {| content := None; raised := None |}).
  assert (∀ other, other ≠ filepath →
            match content w with Some bytes => <[filepath:=bytes]> fs | None => fs end
            !! other = fs !! other) as Hother.
  { intros other Hne. destruct (content w); [|done]. by rewrite lookup_insert_ne. }
  destruct (raised w) as [e|].
  - eexists _, _, _. split; [reflexivity|]. split; [exact Hother|].
    split; [done|]. split; [intros p [=]|]. intros _ _. by exists e.
  - eexists _, _, _. split; [reflexivity|]. split; [exact Hother|].
    split; [done|]. split; [by intros p [= <-]|]. intros _ [=].
Qed.

(** A returned path is the computed one, and the format was supported. *)
Lemma export_data_returns_path self timestamp df format export_folder fs p fs' records :
  export_data self timestamp df format export_folder fs = (Some p, fs', records) →
  p = path_join export_folder ("exported_data_" +:+ timestamp +:+ "." +:+ format)
  ∧ format ∈ supported_formats self.
Proof.
  unfold export_data.
  destruct (decide (format ∉ supported_formats self)) as [Hno|Hyes]; [done|].
  apply dec_stable in Hyes.
  match goal with |- context [raised ?w] => destruct (raised w) end; [done|].
  by intros [= <- _ _].
Qed.

Lemma export_path_extension timestamp format export_folder :
  contains "." format = false →
  ∃ stem, path_join export_folder ("exported_data_" +:+ timestamp +:+ "." +:+ format)
          = stem +:+ String "." format.
Proof.
  intros Hformat. unfold path_join.
  change (startswith "/" ("exported_data_" +:+ timestamp +:+ "." +:+ format)) with false.
  cbv iota.
  destruct (bool_decide (export_folder = EmptyString) || endswith "/" export_folder).
  - exists (export_folder +:+ "exported_data_" +:+ timestamp).
    by rewrite !string_app_assoc.
  - exists (export_folder +:+ "/" +:+ "exported_data_" +:+ timestamp).
    by rewrite !string_app_assoc.
Qed.

(** X15. The path of an export made by the handler built by
    [ExportHandler_init] ends in the format it was asked for, so
    [load_data] dispatches on that format: an export in the [json] format,
    which the handler supports, is rejected by [load_data] as an
    unsupported file format, whatever was written. *)
Theorem exported_json_cannot_be_loaded `{Libraries} timestamp df format export_folder
    fs p fs' records :
  export_data ExportHandler_init timestamp df format export_folder fs
  = (Some p, fs', records) →
  default EmptyString (last (split "." (lower p))) = format
  ∧ (format = "json"%string →
     ∀ self σ,
       load_data self p σ
       = Some (None, State (heap σ) (files σ)
                           (logged σ ++ [(ERROR, Unsupported_format "json")]))).
Proof.
  intros Hrun.
  destruct (export_data_returns_path _ _ _ _ _ _ _ _ _ Hrun) as [-> Hin].
  assert (contains "." format = false ∧ lower format = format) as [Hdot Hlower].
  { simpl in Hin. rewrite !elem_of_cons, elem_of_nil in Hin.
    destruct Hin as [->|[->|[->|[]]]]; done. }
  destruct (export_path_extension timestamp format export_folder Hdot) as [stem ->].
  split; [by rewrite extension_of, Hlower|].
  intros -> self σ.
  pose proof (load_data_other_extension self (stem +:+ String "." "json") σ) as Hload.
  cbv zeta in Hload. rewrite extension_of in Hload by done. apply Hload.
  rewrite !elem_of_cons, elem_of_nil. intros [|[|[|[]]]]; done.
Qed.

End exports.

Lemma exported_json_cannot_be_loaded_witness :
  let fs : gmap string (list byte) := ∅ in
  let p := "exports/exported_data_20240101_120000.json"%string in
  export_data (H := sample.writers) ExportHandler_init "20240101_120000" sample.gap
    "json" "exports" fs
  = (Some p, <[p:=[x63; x63; x63]]> fs, [(INFO, Data_exported p)])
  ∧ default EmptyString (last (split "." (lower p))) = "json"%string
  ∧ ("json" = "json"%string →
     ∀ self σ,
       load_data (H := sample.libraries) self p σ
       = Some (None, State (heap σ) (files σ)
                           (logged σ ++ [(ERROR, Unsupported_format "json")]))).
Proof.
  intros fs p. split; [reflexivity|].
  apply (exported_json_cannot_be_loaded (H := sample.writers) (H0 := sample.libraries)
           "20240101_120000" sample.gap "json" "exports" fs p
           (<[p:=[x63; x63; x63]]> fs) [(INFO, Data_exported p)]).
  reflexivity.
Defined.

(** * Further properties of outlier removal and of the cleaning request *)

Lemma filter_all {A} (P : A → Prop) `{∀ x, Decision (P x)} (xs : list A) :
  (∀ x, x ∈ xs → P x) → filter P xs = xs.
Proof.
  induction xs as [|x xs IH]; intros Hall; [done|].
  rewrite filter_cons_True by (apply Hall; by left).
  f_equal. apply IH. intros y Hy. apply Hall. by right.
Qed.

Lemma valid_columns_columns d n : n ∈ valid_columns d → n ∈ (columns d).*1.
Proof.
  unfold valid_columns. intros [_ Hn]%list_elem_of_filter.
  by apply select_dtypes_number_columns.
Qed.

(** On a well-formed frame without nulls every row is in the fit set. *)
Lemma fit_set_of_complete_frame d :
  well_formed d → complete d →
  filter (λ r, NaN ∉ (λ n, pd.cell_at d n r) <$> valid_columns d) (rows d) = rows d.
Proof.
  intros [_ Hlen] Hcomplete. apply filter_all.
  intros r Hr (n & Hnull & Hn)%list_elem_of_fmap.
  apply (Hcomplete r Hr). rewrite Hnull.
  apply cell_at_elem_of; [by apply Hlen|by apply valid_columns_columns].
Qed.

Section outliers_more.
Context `{Libraries}.

(** X16. On a well-formed frame without nulls and with distinct labels,
    such as the [drop] strategy leaves behind, every row is given to the
    detector, and when the detector runs the result holds exactly the rows
    it labels [1], in their order; the other rows are the ones the log
    counts as removed. *)
Theorem remove_outliers_on_complete_frame σ df d outlier_labels :
  heap σ !! df = Some d →
  well_formed d →
  complete d →
  NoDup (pd.index d) →
  valid_columns d ≠ [] →
  10 ≤ pd.len d →
  fit_predict (Q2Qc 0.1) 42 (pd.values (data_for_outliers d)) = inl outlier_labels →
  length outlier_labels = pd.len d →
  pd.len (data_for_outliers d) = pd.len d
  ∧ ∃ l σ' d',
      remove_outliers df σ = Some (l, σ') ∧ heap σ' !! l = Some d'
      ∧ rows d' = pd.keep ((λ y, bool_decide (y = 1%Z)) <$> outlier_labels) (rows d)
      ∧ logged σ'
        = logged σ ++ [(INFO, Removed_outliers
                                (Z.of_nat (pd.len d) - Z.of_nat (pd.len d')))].
Proof.
  intros Hl Hwf Hcomplete Hnd Hvalid Hrows Hfit Hlen.
  assert (pd.len (data_for_outliers d) = pd.len d) as Hall.
  { unfold pd.len. rewrite data_for_outliers_rows, length_fmap.
    by rewrite fit_set_of_complete_frame. }
  split; [exact Hall|].
  assert (rows (pd.loc d (pd.keep ((λ y, bool_decide (y = 1%Z)) <$> outlier_labels)
                                  (pd.index (data_for_outliers d))))
          = pd.keep ((λ y, bool_decide (y = 1%Z)) <$> outlier_labels) (rows d))
    as Hkept.
  { unfold pd.loc. simpl. rewrite data_for_outliers_index, keep_fmap.
    rewrite fit_set_of_complete_frame by done.
    apply loc_of_labels; [exact Hnd|]. intros y. apply keep_elem_of. }
  unfold remove_outliers. rewrite (bind_read _ _ _ _ Hl).
  destruct (decide (length (pd.select_dtypes_number d) = 0)) as [Hnum|_].
  { apply nil_length_inv in Hnum. unfold valid_columns in Hvalid.
    by rewrite Hnum in Hvalid. }
  destruct (decide (valid_columns d = [])); [done|].
  destruct (decide (pd.len (data_for_outliers d) < 10)); [lia|].
  rewrite Hfit. unfold index_mask.
  destruct (decide (length _ = length _)) as [_|Hne].
  - eexists _, _, _. split; [reflexivity|]. simpl. rewrite lookup_insert_eq.
    split; [reflexivity|]. split; [exact Hkept|]. done.
  - exfalso. apply Hne. unfold pd.index. rewrite !length_fmap.
    rewrite Hlen, <- Hall. done.
Qed.

(** X17. A request that selects duplicate removal and missing-value
    handling, with the strategy [drop] or with no strategy given, and no
    outlier removal, returns a new table: the rows of the input that have
    no null, each distinct row once, in the order of the input.  The table
    the request was given is left as it was. *)
Theorem clean_deduplicates_then_drops (clean_options : gmap string string) σ df d :
  heap σ !! df = Some d →
  is_Some (clean_options !! "remove_duplicates"%string) →
  is_Some (clean_options !! "handle_missing"%string) →
  clean_options !! "missing_strategy"%string = None
  ∨ clean_options !! "missing_strategy"%string = Some "drop"%string →
  clean_options !! "remove_outliers"%string = None →
  ∃ l σ' d',
    clean clean_options df σ = Some (l, σ')
    ∧ heap σ' !! l = Some d'
    ∧ heap σ' !! df = Some d
    ∧ l ≠ df
    ∧ d' = pd.dropna (pd.drop_duplicates d)
    ∧ NoDup (pd.values d')
    ∧ complete d'
    ∧ rows d' `sublist_of` rows d.
Proof.
  intros Hl Hdup Hmissing Hstrategy Hout.
  pose proof (fresh_heap_ne σ df d Hl) as Hfresh.
  assert (default "drop"%string (clean_options !! "missing_strategy"%string)
          = "drop"%string) as Hdrop by (destruct Hstrategy as [-> | ->]; done).
  unfold clean. rewrite decide_True by done.
  unfold bind at 1. rewrite (remove_duplicates_run _ _ _ Hl).
  rewrite decide_True by done. rewrite Hdrop.
  unfold bind at 1.
  erewrite handle_missing_values_drop by (simpl; apply lookup_insert_eq).
  rewrite Hout. rewrite decide_False by (intros [? ?]; discriminate).
  eexists _, _, _. split; [reflexivity|]. simpl.
  set (l1 := fresh (dom (heap σ))) in *.
  set (l2 := fresh (dom (<[l1:=pd.drop_duplicates d]> (heap σ)))).
  assert (l2 ≠ l1) as Hl21.
  { refine (fresh_heap_ne (State (<[l1:=pd.drop_duplicates d]> (heap σ)) (files σ) [])
              l1 (pd.drop_duplicates d) _). simpl. apply lookup_insert_eq. }
  assert (l2 ≠ df) as Hl2.
  { refine (fresh_heap_ne (State (<[l1:=pd.drop_duplicates d]> (heap σ)) (files σ) [])
              df d _). simpl. by rewrite lookup_insert_ne. }
  rewrite lookup_insert_eq. split; [done|].
  rewrite !lookup_insert_ne by done. split; [done|]. split; [done|].
  split; [done|]. split; [|split].
  - unfold pd.values, pd.dropna. simpl.
    apply (sublist_NoDup _ (cells <$> dedup [] (rows d)));
      [apply (dedup_NoDup (rows d) [])|].
    apply fmap_sublist. apply sublist_filter.
  - apply dropna_complete.
  - unfold pd.dropna. simpl. etrans; [apply sublist_filter|].
    apply (dedup_sublist (rows d) []).
Qed.

End outliers_more.

Lemma clean_deduplicates_then_drops_witness :
  let clean_options : gmap string string :=
    {[ "remove_duplicates" := "on"; "handle_missing" := "on" ]}%string in
  let σ := sample.store sample.repeated in
  let d := sample.repeated in
  heap σ !! 1%positive = Some d
  ∧ is_Some (clean_options !! "remove_duplicates"%string)
  ∧ is_Some (clean_options !! "handle_missing"%string)
  ∧ (clean_options !! "missing_strategy"%string = None
     ∨ clean_options !! "missing_strategy"%string = Some "drop"%string)
  ∧ clean_options !! "remove_outliers"%string = None
  ∧ ∃ l σ' d',
      clean (H := sample.libraries) clean_options 1%positive σ = Some (l, σ')
      ∧ heap σ' !! l = Some d'
      ∧ heap σ' !! 1%positive = Some d
      ∧ l ≠ 1%positive
      ∧ d' = pd.dropna (pd.drop_duplicates d)
      ∧ NoDup (pd.values d')
      ∧ complete d'
      ∧ rows d' `sublist_of` rows d.
Proof.
  intros clean_options σ d.
  split; [reflexivity|]. split; [by eexists|]. split; [by eexists|].
  split; [by left|]. split; [reflexivity|].
  apply (clean_deduplicates_then_drops (H := sample.libraries) clean_options σ 1%positive d);
    [reflexivity|by eexists|by eexists|by left|reflexivity].
Defined.

Lemma remove_outliers_on_complete_frame_witness :
  let σ := sample.store sample.twelve in
  let d := sample.twelve in
  let outlier_labels := replicate 11 1%Z ++ [(-1)%Z] in
  heap σ !! 1%positive = Some d
  ∧ well_formed d
  ∧ complete d
  ∧ NoDup (pd.index d)
  ∧ valid_columns d ≠ []
  ∧ 10 ≤ pd.len d
  ∧ sample.threshold (Q2Qc 0.1) 42 (pd.values (data_for_outliers d)) = inl outlier_labels
  ∧ length outlier_labels = pd.len d
  ∧ pd.len (data_for_outliers d) = pd.len d
  ∧ ∃ l σ' d',
      remove_outliers (H := sample.libraries) 1%positive σ = Some (l, σ')
      ∧ heap σ' !! l = Some d'
      ∧ rows d' = pd.keep ((λ y, bool_decide (y = 1%Z)) <$> outlier_labels) (rows d)
      ∧ logged σ'
        = logged σ ++ [(INFO, Removed_outliers
                                (Z.of_nat (pd.len d) - Z.of_nat (pd.len d')))].
Proof.
  intros σ d outlier_labels.
  split; [reflexivity|]. split; [compute_done|]. split; [compute_done|].
  split; [compute_done|]. split; [compute_done|]. split; [compute_done|].
  split; [compute_done|]. split; [reflexivity|].
  apply (remove_outliers_on_complete_frame (H := sample.libraries) σ 1%positive d
           outlier_labels);
    [reflexivity|compute_done|compute_done|compute_done|compute_done|compute_done
    |compute_done|reflexivity].
Defined.

(** * The quality sheet of the summary report *)

Lemma isnull_notna_sum s : pd.isnull_sum s + pd.notna_sum s = length s.
Proof.
  unfold pd.isnull_sum, pd.notna_sum. induction s as [|c s IH]; [done|].
  rewrite !filter_cons. destruct c; simpl in *; lia.
Qed.

Lemma remove_dups_length {A} `{EqDecision A} (xs : list A) :
  length (remove_dups xs) ≤ length xs.
Proof.
  induction xs as [|x xs IH]; [done|]. simpl.
  destruct (decide_rel _ _ _); simpl; lia.
Qed.

(** X18. For a frame with at least one row the quality sheet has one
    record per column, in column order; each record carries the number of
    rows, and its missing and distinct values together never exceed it.
    The missing counts and percentages are those of the quality report of
    [get_data_quality_info], which lists exactly the columns whose record
    has a missing value.  For a frame with columns and no row the sheet is
    the error frame of a division by zero. *)
Theorem quality_sheet_agrees_with_report `{Libraries} `{Floats} σ df d :
  heap σ !! df = Some d →
  (pd.len d = 0 → columns d ≠ [] →
   _create_quality_dataframe d = Error_sheet "division by zero")
  ∧ (0 < pd.len d →
     ∃ records report,
       _create_quality_dataframe d = Sheet records
       ∧ get_data_quality_info df σ = Some (report, σ)
       ∧ Column <$> records = (columns d).*1
       ∧ ∀ record, record ∈ records →
           Total_Values record = pd.len d
           ∧ Missing_Values record + Unique_Values record ≤ Total_Values record
           ∧ missing_data report !! Column record
             = if decide (Missing_Values record = 0) then None
               else Some {| missing_count := Missing_Values record;
                            missing_percentage := Missing_Percentage record |}).
Proof.
  intros Hl. unfold _create_quality_dataframe. split.
  { intros Hlen Hcols. by rewrite decide_False, decide_True. }
  intros Hlen.
  destruct (missing_data_lookup σ df d Hl) as (report & Hrun & _ & _ & Hmissing).
  destruct (decide (columns d = [])) as [Hcols|Hcols].
  { exists [], report. rewrite Hcols. split; [done|]. split; [done|].
    split; [done|]. intros record Hrec. by apply elem_of_nil in Hrec. }
  rewrite decide_False by lia. eexists _, report.
  split; [reflexivity|]. split; [exact Hrun|]. split.
  { rewrite <- list_fmap_compose. by apply list_fmap_id. }
  intros record (column & -> & Hcolumn)%list_elem_of_fmap. simpl.
  split; [done|]. split.
  - unfold nunique. pose proof (isnull_notna_sum (pd.col d column)) as Hsum.
    rewrite col_length in Hsum. unfold pd.len.
    pose proof (remove_dups_length (filter (λ c, c ≠ NaN) (pd.col d column))).
    unfold pd.notna_sum in Hsum. lia.
  - rewrite Hmissing.
    destruct (decide (pd.isnull_sum (pd.col d column) = 0)) as [Hzero|Hpos].
    + apply decide_False. lia.
    + apply decide_True. split; [done|lia].
Qed.

Lemma quality_sheet_agrees_with_report_witness :
  let σ := sample.store sample.mixed in
  let d := sample.mixed in
  heap σ !! 1%positive = Some d
  ∧ (pd.len d = 0 → columns d ≠ [] →
     _create_quality_dataframe (H := sample.floats) d = Error_sheet "division by zero")
  ∧ (0 < pd.len d →
     ∃ records report,
       _create_quality_dataframe (H := sample.floats) d = Sheet records
       ∧ get_data_quality_info (H := sample.libraries) (H0 := sample.floats) 1%positive σ = Some (report, σ)
       ∧ Column <$> records = (columns d).*1
       ∧ ∀ record, record ∈ records →
           Total_Values record = pd.len d
           ∧ Missing_Values record + Unique_Values record ≤ Total_Values record
           ∧ missing_data report !! Column record
             = if decide (Missing_Values record = 0) then None
               else Some {| missing_count := Missing_Values record;
                            missing_percentage := Missing_Percentage record |}).
Proof.
  intros σ d. split; [reflexivity|].
  apply (quality_sheet_agrees_with_report (H := sample.libraries) (H0 := sample.floats)
           σ 1%positive d). reflexivity.
Defined.

(** The quality sheet of the sample frame: one missing city and two
    distinct ones, two missing numbers and two distinct ones. *)
Lemma quality_sheet_sample :
  match _create_quality_dataframe (H := sample.floats) sample.mixed with
  | Sheet records =>
      (λ r, (Column r, Missing_Values r, Missing_Percentage r, Unique_Values r))
        <$> records
  | Error_sheet _ => []
  end
  = [("city"%string, 1, Q2Qc 16.67, 2); ("x"%string, 2, Q2Qc 33.33, 2)]
  ∧ _create_quality_dataframe (H := sample.floats) (Frame [("x", float64)]%string [])
    = Error_sheet "division by zero".
Proof. split; compute_done. Qed.

(** *** The quartiles and the bounds of the outlier report

    First the quartiles in exact arithmetic, which the sample library
    answers. *)

Lemma item_sorted xs i j :
  StronglySorted Qcle xs → i ≤ j → j < length xs →
  (exact.item xs i ≤ exact.item xs j)%Qc.
Proof.
  unfold exact.item. intros Hsorted. revert i j.
  induction Hsorted as [|x xs Hsorted IH Hall]; intros i j Hij Hj; simpl in Hj.
  { lia. }
  destruct i as [|i], j as [|j]; simpl; try lia.
  - apply Qcle_refl.
  - destruct (lookup_lt_is_Some_2 xs j) as [y Hy]; [lia|]. rewrite Hy. simpl.
    rewrite Forall_forall in Hall. apply Hall. by eapply list_elem_of_lookup_2.
  - apply IH; lia.
Qed.

Lemma item_elem_of xs i : i < length xs → exact.item xs i ∈ xs.
Proof.
  intros Hi. unfold exact.item.
  destruct (lookup_lt_is_Some_2 xs i) as [y Hy]; [done|]. rewrite Hy. simpl.
  by eapply list_elem_of_lookup_2.
Qed.

Lemma floor_bounds (h : Qc) (m : nat) :
  (0 ≤ h)%Qc → (h ≤ pd.of_nat m)%Qc →
  (0 ≤ Qfloor h ≤ Z.of_nat m)%Z
  ∧ (Qc_of_Z (Qfloor h) ≤ h)%Qc ∧ (h < Qc_of_Z (Qfloor h) + 1)%Qc.
Proof.
  intros H0 Hm. repeat split.
  - rewrite <- (Qfloor_Z 0). by apply Qfloor_resp_le.
  - rewrite <- (Qfloor_Z (Z.of_nat m)). by apply Qfloor_resp_le.
  - unfold Qcle. cbn [this Qc_of_Z]. apply Qfloor_le.
  - generalize (Qlt_floor h). unfold Qclt, Qcplus. cbn [this Qc_of_Z Q2Qc].
    rewrite Qred_correct, inject_Z_plus. done.
Qed.

Lemma interpolation_between (a b f : Qc) :
  (a ≤ b)%Qc → (0 ≤ f)%Qc → (f ≤ 1)%Qc →
  (a ≤ a + f * (b - a))%Qc ∧ (a + f * (b - a) ≤ b)%Qc.
Proof.
  unfold Qcle, Qcminus, Qcplus, Qcmult, Qcopp. cbn [this Q2Qc].
  rewrite !Qred_correct. intros Hab Hf0 Hf1. split; nra.
Qed.

Lemma interpolation_mono (a b f g : Qc) :
  (a ≤ b)%Qc → (f ≤ g)%Qc → (a + f * (b - a) ≤ a + g * (b - a))%Qc.
Proof.
  unfold Qcle, Qcminus, Qcplus, Qcmult, Qcopp. cbn [this Q2Qc].
  rewrite !Qred_correct. intros Hab Hfg. nra.
Qed.

Lemma of_nat_nonneg m : (0 ≤ pd.of_nat m)%Qc.
Proof.
  unfold pd.of_nat, Qcle. cbn [this Qc_of_Z Q2Qc]. unfold Qle. simpl. lia.
Qed.

Lemma position_in_range (q : Qc) (m : nat) :
  (0 ≤ q)%Qc → (q ≤ 1)%Qc →
  (0 ≤ q * pd.of_nat m)%Qc ∧ (q * pd.of_nat m ≤ pd.of_nat m)%Qc.
Proof.
  intros H0 H1. pose proof (of_nat_nonneg m) as Hm. revert H0 H1 Hm.
  unfold Qcle, Qcmult. cbn [this Q2Qc]. rewrite !Qred_correct.
  intros H0 H1 Hm. split; nra.
Qed.

(** A quantile lies between two neighbours of the sorted values. *)
Lemma quantile_between q s Q :
  (0 ≤ q)%Qc → (q ≤ 1)%Qc → exact.quantile q s = Num Q →
  let xs := exact.sorted (pd.numbers s) in
  let m := length xs - 1 in
  let h := (q * pd.of_nat m)%Qc in
  ∃ lo : nat,
    0 < length xs ∧ lo ≤ m ∧ Qfloor h = Z.of_nat lo
    ∧ Q = (exact.item xs lo
           + (h - Qc_of_Z (Qfloor h))
             * (exact.item xs (Nat.min (lo + 1) m) - exact.item xs lo))%Qc
    ∧ (exact.item xs lo ≤ Q)%Qc ∧ (Q ≤ exact.item xs (Nat.min (lo + 1) m))%Qc.
Proof.
  intros H0 H1. unfold exact.quantile.
  assert (StronglySorted Qcle (exact.sorted (pd.numbers s))) as Hsorted
    by apply (StronglySorted_merge_sort Qcle).
  destruct (exact.sorted (pd.numbers s)) as [|x xs] eqn:Hxs; [done|].
  intros [= <-]. cbn zeta.
  set (ys := x :: xs) in *. set (m := length ys - 1).
  destruct (position_in_range q m H0 H1) as [Hh0 Hhm].
  destruct (floor_bounds _ m Hh0 Hhm) as ([Hf0 Hfm] & Hlow & Hhigh).
  set (h := (q * pd.of_nat m)%Qc) in *.
  exists (Z.to_nat (Qfloor h)).
  assert (Z.to_nat (Qfloor h) ≤ m) as Hlo by lia.
  assert (length ys = S m) as Hlen by (unfold m, ys; simpl; lia).
  assert (exact.item ys (Z.to_nat (Qfloor h))
          ≤ exact.item ys (Nat.min (Z.to_nat (Qfloor h) + 1) m))%Qc as Hab
    by (apply item_sorted; [done|lia|lia]).
  assert (0 ≤ h - Qc_of_Z (Qfloor h))%Qc as Hfrac0.
  { revert Hlow. unfold Qcle, Qcminus, Qcplus, Qcopp. cbn [this Q2Qc].
    rewrite !Qred_correct. intros; lra. }
  assert (h - Qc_of_Z (Qfloor h) ≤ 1)%Qc as Hfrac1.
  { revert Hhigh. unfold Qcle, Qclt, Qcminus, Qcplus, Qcopp. cbn [this Q2Qc].
    rewrite !Qred_correct. intros; lra. }
  destruct (interpolation_between _ _ _ Hab Hfrac0 Hfrac1) as [Ha Hb].
  repeat split; [lia|done|lia|done|done].
Qed.

(** Quantiles grow with their level. *)
Lemma quantile_mono q1 q2 s Q1 Q2 :
  (0 ≤ q1)%Qc → (q1 ≤ q2)%Qc → (q2 ≤ 1)%Qc →
  exact.quantile q1 s = Num Q1 → exact.quantile q2 s = Num Q2 → (Q1 ≤ Q2)%Qc.
Proof.
  intros H0 H12 H1 HQ1 HQ2.
  assert (0 ≤ q2)%Qc as H0' by (by etrans).
  assert (q1 ≤ 1)%Qc as H1' by (by etrans).
  destruct (quantile_between _ _ _ H0 H1' HQ1)
    as (lo1 & Hlen & Hlo1 & Hf1 & -> & Ha1 & Hb1).
  destruct (quantile_between _ _ _ H0' H1 HQ2)
    as (lo2 & _ & Hlo2 & Hf2 & -> & Ha2 & Hb2).
  set (xs := exact.sorted (pd.numbers s)) in *. set (m := length xs - 1) in *.
  assert (StronglySorted Qcle xs) as Hsorted
    by apply (StronglySorted_merge_sort Qcle).
  assert (q1 * pd.of_nat m ≤ q2 * pd.of_nat m)%Qc as Hh
    by (apply Qcmult_le_mono_nonneg_r; [apply of_nat_nonneg|done]).
  assert (lo1 ≤ lo2) as Hlo.
  { apply Qfloor_resp_le in Hh. lia. }
  destruct (decide (lo1 = lo2)) as [<-|Hne].
  - rewrite Hf1 in *. rewrite Hf2.
    apply interpolation_mono.
    + apply item_sorted; [done|lia|lia].
    + revert Hh. unfold Qcle, Qcminus, Qcplus, Qcopp. cbn [this Q2Qc].
      rewrite !Qred_correct. intros; lra.
  - etrans; [apply Hb1|]. etrans; [|apply Ha2].
    apply item_sorted; [done|lia|lia].
Qed.

Lemma quartile_levels :
  (0 ≤ Q2Qc 0.25)%Qc ∧ (Q2Qc 0.25 ≤ Q2Qc 0.75)%Qc ∧ (Q2Qc 0.75 ≤ 1)%Qc.
Proof. repeat split; compute_done. Qed.

Lemma numbers_length s : length (pd.numbers s) ≤ pd.notna_sum s.
Proof.
  unfold pd.numbers, pd.notna_sum. induction s as [|c s IH]; [done|].
  rewrite filter_cons. unfold omap in *.
  destruct c; destruct (decide _) as [Hy|Hn]; simpl in *;
    first [lia|done|by destruct Hn].
Qed.

Lemma outside_count s lower upper :
  length (filter (outside lower upper) s) ≤ length (pd.numbers s)
  ∧ ∀ x, x ∈ pd.numbers s → (lower ≤ x)%Qc → (x ≤ upper)%Qc →
         length (filter (outside lower upper) s) < length (pd.numbers s).
Proof.
  unfold pd.numbers, omap. induction s as [|c s [IH1 IH2]].
  { split; [done|]. intros x Hx. by apply elem_of_nil in Hx. }
  rewrite filter_cons. destruct c as [|y|t]; simpl.
  - done.
  - split.
    + destruct (decide _); simpl; lia.
    + intros x [->|Hx]%elem_of_cons Hlow Hup.
      * rewrite decide_False; [lia|].
        intros [H|H]; [by apply Qclt_not_le in H|by apply Qclt_not_le in H].
      * specialize (IH2 x Hx Hlow Hup). destruct (decide _); simpl; lia.
  - done.
Qed.

Lemma numbers_elem_of s v : v ∈ pd.numbers s → Num v ∈ s.
Proof.
  unfold pd.numbers. intros (c & Hc & Hv)%list_elem_of_omap.
  destruct c; try done. by injection Hv as ->.
Qed.

Lemma elem_of_numbers s v : Num v ∈ s → v ∈ pd.numbers s.
Proof.
  unfold pd.numbers. intros Hv. apply list_elem_of_omap. by exists (Num v).
Qed.

Lemma numbers_without_text s :
  ¬ Exists pd.is_text s → length (pd.numbers s) = pd.notna_sum s.
Proof.
  unfold pd.numbers, pd.notna_sum. induction s as [|c s IH]; [done|].
  intros Hno. rewrite filter_cons. unfold omap in *.
  assert (¬ Exists pd.is_text s) as Hs by (intros ?; apply Hno; by right).
  specialize (IH Hs).
  destruct c as [|x|t].
  - rewrite decide_False by (by intros []). done.
  - rewrite decide_True by done. simpl in *. lia.
  - exfalso. apply Hno. by left.
Qed.

(** With more than ten values one of them lies between the quartiles. *)
Lemma value_between_quartiles s Q1 Q3 :
  10 < length (pd.numbers s) →
  exact.quantile (Q2Qc 0.25) s = Num Q1 → exact.quantile (Q2Qc 0.75) s = Num Q3 →
  ∃ v, Num v ∈ s ∧ (Q1 ≤ v)%Qc ∧ (v ≤ Q3)%Qc.
Proof.
  intros Hn HQ1 HQ3. destruct quartile_levels as (H0 & H12 & H1).
  assert (0 ≤ Q2Qc 0.75)%Qc as H0' by (by etrans).
  assert (Q2Qc 0.25 ≤ 1)%Qc as H1' by (by etrans).
  destruct (quantile_between _ _ _ H0 H1' HQ1)
    as (lo1 & Hlen & Hlo1 & Hf1 & _ & _ & Hb1).
  destruct (quantile_between _ _ _ H0' H1 HQ3)
    as (lo3 & _ & Hlo3 & Hf3 & _ & Ha3 & _).
  set (xs := exact.sorted (pd.numbers s)) in *. set (m := length xs - 1) in *.
  assert (StronglySorted Qcle xs) as Hsorted
    by apply (StronglySorted_merge_sort Qcle).
  assert (length xs = length (pd.numbers s)) as Hxs.
  { unfold xs, exact.sorted. by rewrite (merge_sort_Permutation Qcle). }
  assert (10 ≤ m) as Hm by (unfold m; lia).
  assert (lo1 + 1 ≤ lo3) as Hlo.
  { destruct (position_in_range _ m H0 H1') as [Hh0 Hhm].
    destruct (floor_bounds _ m Hh0 Hhm) as (_ & Hlow1 & _).
    destruct (position_in_range _ m H0' H1) as [Hh0' Hhm'].
    destruct (floor_bounds _ m Hh0' Hhm') as (_ & _ & Hhigh3).
    rewrite Hf1 in Hlow1. rewrite Hf3 in Hhigh3.
    assert (10 <= inject_Z (Z.of_nat m))%Q as Hten
      by (rewrite <- (Zle_Qle 10); lia).
    revert Hlow1 Hhigh3. unfold pd.of_nat, Qcle, Qclt, Qcplus, Qcmult.
    cbn [this Q2Qc Qc_of_Z]. rewrite !Qred_correct. intros Hlow1 Hhigh3.
    assert (inject_Z (Z.of_nat lo1) + 1 < inject_Z (Z.of_nat lo3) + 1)%Q as Hlt
      by lra.
    assert (inject_Z (Z.of_nat lo1) < inject_Z (Z.of_nat lo3))%Q as Hlt' by lra.
    rewrite <- Zlt_Qlt in Hlt'. lia. }
  exists (exact.item xs lo3). split; [|split].
  - apply numbers_elem_of.
    assert (exact.item xs lo3 ∈ xs) as Hin by (apply item_elem_of; lia).
    revert Hin. generalize (exact.item xs lo3). intros x Hin.
    unfold xs, exact.sorted in Hin.
    by rewrite (merge_sort_Permutation Qcle (pd.numbers s)) in Hin.
  - etrans; [apply Hb1|]. apply item_sorted; [done|lia|lia].
  - done.
Qed.

(** Arithmetic without rounding and the quartiles by interpolation keep
    the order that the bounds of the outlier report rely on. *)
Lemma exact_statistics_are_ordered :
  Ordered (H := sample.libraries) (H0 := sample.floats).
Proof.
  split.
  - intros x y. cbn [fsub sample.floats].
    unfold Qcle, Qcminus, Qcplus, Qcopp. cbn [this Q2Qc].
    rewrite !Qred_correct. intros; lra.
  - intros x y. cbn [fmul sample.floats].
    unfold Qcle, Qcmult. cbn [this Q2Qc].
    rewrite !Qred_correct. intros; nra.
  - intros x w. cbn [fsub sample.floats].
    unfold Qcle, Qcminus, Qcplus, Qcopp. cbn [this Q2Qc].
    rewrite !Qred_correct. intros; lra.
  - intros x w. cbn [fadd sample.floats].
    unfold Qcle, Qcplus. cbn [this Q2Qc].
    rewrite !Qred_correct. intros; lra.
  - intros s Q1 Q3 Hn. cbn [quantile sample.libraries]. unfold sample.of_numbers.
    destruct (decide (Exists pd.is_text s)) as [|Hno]; [done|].
    apply value_between_quartiles. by rewrite numbers_without_text.
Qed.

(** X19. Whatever the library and the floating-point arithmetic, as long as
    they keep the order of what they compute (a difference of ordered
    numbers and a product of non-negative ones are not negative, taking a
    non-negative number away does not increase and adding it does not
    decrease, and one of more than ten values lies between the quartiles):
    in the quality report an entry of [outliers] always has its lower
    bound at or below its upper bound, and it counts at least one but
    never all of the values present in the column. *)
Theorem outlier_entries_are_consistent `{Libraries} `{Floats}
    (ordered : Ordered) σ df d :
  heap σ !! df = Some d →
  ∃ report,
    get_data_quality_info df σ = Some (report, σ)
    ∧ ∀ col entry,
        outliers report !! col = Some entry →
        (lower_bound entry ≤ upper_bound entry)%Qc
        ∧ 0 < count entry < pd.notna_sum (pd.col d col).
Proof.
  intros Hl. eexists. split.
  { unfold get_data_quality_info. rewrite (bind_read _ _ _ _ Hl). reflexivity. }
  intros col entry. simpl.
  rewrite (loop_insert_lookup
             (λ col, if decide (10 < pd.notna_sum (pd.col d col))
                     then detect_outliers d col else None));
    [|intros acc c; by destruct (decide (10 < _))].
  rewrite lookup_empty.
  destruct (decide (col ∈ pd.select_dtypes_number d)) as [Hin|Hin]; [|done].
  destruct (decide (10 < pd.notna_sum (pd.col d col))) as [Hn|Hn]; [|done].
  unfold detect_outliers.
  destruct (quantile (Q2Qc 0.25) (pd.col d col)) as [|Q1|?] eqn:HQ1; try done.
  destruct (quantile (Q2Qc 0.75) (pd.col d col)) as [|Q3|?] eqn:HQ3; try done.
  rewrite outlier_mask_count.
  destruct (decide (0 < _)) as [Hpos|Hzero]; [|done].
  intros [= <-]. simpl.
  destruct (quartiles_enclose _ _ _ Hn HQ1 HQ3) as (v & Hv & HQ1v & HvQ3).
  assert (Q1 ≤ Q3)%Qc as Hle by (by etrans).
  assert (0 ≤ fmul (Q2Qc 1.5) (fsub Q3 Q1))%Qc as Hwidth.
  { apply fmul_nonneg; [compute_done|by apply fsub_nonneg]. }
  pose proof (fsub_le Q1 _ Hwidth) as Hlower.
  pose proof (fadd_ge Q3 _ Hwidth) as Hupper.
  destruct (outside_count (pd.col d col) (fsub Q1 (fmul (Q2Qc 1.5) (fsub Q3 Q1)))
              (fadd Q3 (fmul (Q2Qc 1.5) (fsub Q3 Q1)))) as [_ Hcount].
  specialize (Hcount v (elem_of_numbers _ _ Hv)).
  pose proof (numbers_length (pd.col d col)).
  split.
  - etrans; [apply Hlower|]. by etrans.
  - split; [done|]. apply Nat.lt_le_trans with (length (pd.numbers (pd.col d col)));
      [|done]. apply Hcount; by etrans.
Qed.

Lemma outlier_entries_are_consistent_witness :
  let σ := sample.store sample.eleven_far in
  Ordered (H := sample.libraries) (H0 := sample.floats)
  ∧ heap σ !! 1%positive = Some sample.eleven_far
  ∧ ∃ report,
      get_data_quality_info (H := sample.libraries) (H0 := sample.floats) 1%positive σ = Some (report, σ)
      ∧ ∀ col entry,
          outliers report !! col = Some entry →
          (lower_bound entry ≤ upper_bound entry)%Qc
          ∧ 0 < count entry < pd.notna_sum (pd.col sample.eleven_far col).
Proof.
  split; [exact exact_statistics_are_ordered|]. split; [reflexivity|].
  apply (outlier_entries_are_consistent exact_statistics_are_ordered
           _ 1%positive sample.eleven_far).
  reflexivity.
Defined.

(** * Charts *)

Lemma select_pair_columns d x y :
  x ∈ (columns d).*1 → y ∈ (columns d).*1 →
  ∃ dx dy, columns (pd.select d [x; y]) = [(x, dx); (y, dy)].
Proof.
  intros [i Hi]%position_elem_of [j Hj]%position_elem_of.
  unfold pd.select. simpl. rewrite Hi, Hj. simpl. by eexists _, _.
Qed.

Lemma dropna_pairs (f g : row → cell) (rs : list row) :
  filter (λ r, NaN ∉ cells r) ((λ r, Row (label r) [f r; g r]) <$> rs)
  = (λ r, Row (label r) [f r; g r]) <$> filter (λ r, f r ≠ NaN ∧ g r ≠ NaN) rs.
Proof.
  induction rs as [|r rs IH]; [done|].
  rewrite fmap_cons, !filter_cons, IH. simpl.
  destruct (decide (NaN ∉ [f r; g r])) as [Hno|Hyes].
  - rewrite decide_True; [done|].
    split; intros Heq; apply Hno; rewrite Heq; [by left|right; by left].
  - rewrite decide_False; [done|].
    intros [Hf Hg]. apply Hyes.
    rewrite !elem_of_cons, elem_of_nil. intros [?|[?|[]]]; by subst.
Qed.

(** The frame [df[[x, y]].dropna()] of the scatter plot, for two columns
    of the frame with different names *)
Lemma clean_pairs d x y :
  x ∈ (columns d).*1 → y ∈ (columns d).*1 → x ≠ y →
  let points :=
    filter (λ r, pd.cell_at d x r ≠ NaN ∧ pd.cell_at d y r ≠ NaN) (rows d) in
  let clean_df := pd.dropna (pd.select d [x; y]) in
  pd.col clean_df x = pd.cell_at d x <$> points
  ∧ pd.col clean_df y = pd.cell_at d y <$> points
  ∧ pd.empty clean_df = bool_decide (points = []).
Proof.
  intros Hx Hy Hne points clean_df.
  destruct (select_pair_columns d x y Hx Hy) as (dx & dy & Hcols).
  assert (pd.position clean_df x = Some 0) as Hpx.
  { unfold pd.position, clean_df. simpl columns. unfold pd.select in Hcols.
    simpl in Hcols. rewrite Hcols. simpl. by rewrite decide_True. }
  assert (pd.position clean_df y = Some 1) as Hpy.
  { unfold pd.position, clean_df. simpl columns. unfold pd.select in Hcols.
    simpl in Hcols. rewrite Hcols. simpl.
    rewrite decide_False by done. by rewrite decide_True. }
  assert (rows clean_df
          = (λ r, Row (label r) [pd.cell_at d x r; pd.cell_at d y r]) <$> points)
    as Hrows by apply dropna_pairs.
  unfold pd.col, pd.empty. rewrite Hrows. split; [|split].
  - rewrite <- list_fmap_compose. apply list_fmap_ext. intros i r _.
    unfold pd.cell_at at 1. by rewrite Hpx.
  - rewrite <- list_fmap_compose. apply list_fmap_ext. intros i r _.
    unfold pd.cell_at at 1. by rewrite Hpy.
  - apply bool_decide_ext. split.
    + intros [Hnil|Hnil]; [by apply fmap_nil_inv in Hnil|].
      unfold clean_df in Hnil. simpl in Hnil. unfold pd.select in Hcols.
      simpl in Hcols. by rewrite Hcols in Hnil.
    + intros ->. by left.
Qed.

Section charts_more.
Context `{Plotly}.

(** X20. For two columns of the frame with different names the scatter
    plot has one point for each row in which both values are present, in
    row order, the two coordinates of a point coming from the same row:
    the two series are free of nulls and equally long.  Without such a row
    the method logs that there are no valid data points and returns
    [None]; otherwise, with a third colour in the palette, it renders the
    figure with one trace of these points. *)
Theorem scatter_plot_points self d x_column y_column title :
  x_column ∈ (columns d).*1 → y_column ∈ (columns d).*1 → x_column ≠ y_column →
  let points :=
    filter (λ r, pd.cell_at d x_column r ≠ NaN ∧ pd.cell_at d y_column r ≠ NaN)
           (rows d) in
  let xs := pd.cell_at d x_column <$> points in
  let ys := pd.cell_at d y_column <$> points in
  (NaN ∉ xs) ∧ (NaN ∉ ys) ∧ length xs = length ys
  ∧ (points = [] →
     create_scatter_plot self d x_column y_column title
     = (None, [(ERROR, No_valid_points)]))
  ∧ (points ≠ [] →
     ∀ color, color_palette self !! 2 = Some color →
       create_scatter_plot self d x_column y_column title
       = render "scatter plot"
           {| data := [Markers xs ys color 8 (Q2Qc 0.7)];
              title := or_default title (y_column +:+ " vs " +:+ x_column);
              xaxis_title := Some x_column;
              yaxis_title := Some y_column;
              template := theme self;
              height := 500;
              showlegend := Some false |}
           (div_id_of_values xs)).
Proof.
  intros Hx Hy Hne points xs ys.
  destruct (clean_pairs d x_column y_column Hx Hy Hne) as (Hxs & Hys & Hempty).
  fold points in Hxs, Hys, Hempty. fold xs in Hxs. fold ys in Hys.
  split; [|split; [|split; [|split]]].
  - intros (r & Hr & [[Hnotna _] _]%list_elem_of_filter)%list_elem_of_fmap. done.
  - intros (r & Hr & [[_ Hnotna] _]%list_elem_of_filter)%list_elem_of_fmap. done.
  - unfold xs, ys. by rewrite !length_fmap.
  - intros Hnil. unfold create_scatter_plot.
    rewrite decide_False by tauto. cbv zeta.
    rewrite Hempty. by rewrite bool_decide_eq_true_2.
  - intros Hpoints color Hcolor. unfold create_scatter_plot.
    rewrite decide_False by tauto. cbv zeta.
    rewrite Hempty, bool_decide_eq_false_2 by done.
    rewrite Hcolor, !decide_False by done. by rewrite Hxs, Hys.
Qed.

End charts_more.

Lemma scatter_plot_points_witness :
  "x"%string ∈ (columns sample.pairs).*1
  ∧ "y"%string ∈ (columns sample.pairs).*1
  ∧ "x"%string ≠ "y"%string
  ∧ let points :=
      filter (λ r, pd.cell_at sample.pairs "x" r ≠ NaN ∧ pd.cell_at sample.pairs "y" r ≠ NaN)
             (rows sample.pairs) in
    let xs := pd.cell_at sample.pairs "x" <$> points in
    let ys := pd.cell_at sample.pairs "y" <$> points in
    (NaN ∉ xs) ∧ (NaN ∉ ys) ∧ length xs = length ys
    ∧ (points = [] →
       create_scatter_plot (H := sample.plotly) sample.chart_generator sample.pairs "x" "y" None
       = (None, [(ERROR, No_valid_points)]))
    ∧ (points ≠ [] →
       ∀ color, color_palette sample.chart_generator !! 2 = Some color →
         create_scatter_plot (H := sample.plotly) sample.chart_generator sample.pairs "x" "y" None
         = render (H := sample.plotly) "scatter plot"
             {| data := [Markers xs ys color 8 (Q2Qc 0.7)];
                title := or_default None ("y" +:+ " vs " +:+ "x");
                xaxis_title := Some "x"%string;
                yaxis_title := Some "y"%string;
                template := theme sample.chart_generator;
                height := 500;
                showlegend := Some false |}
             (div_id_of_values (Plotly := sample.plotly) xs)).
Proof.
  split; [compute_done|]. split; [compute_done|]. split; [done|].
  apply (scatter_plot_points (H := sample.plotly) sample.chart_generator sample.pairs
           "x" "y" None); [compute_done|compute_done|done].
Defined.

(** The points of the sample frame: rows 0 and 3 *)
Lemma scatter_plot_sample :
  create_scatter_plot (H := sample.plotly) sample.chart_generator sample.pairs "x" "y" None
  = render (H := sample.plotly) "scatter plot"
      {| data := [Markers [sample.z 1; sample.z 4] [sample.z 10; sample.z 40]
                    "rgb(190,186,218)" 8 (Q2Qc 0.7)];
         title := "y vs x";
         xaxis_title := Some "x"%string;
         yaxis_title := Some "y"%string;
         template := "plotly_white";
         height := 500;
         showlegend := Some false |}
      "chart-1".
Proof. compute_done. Qed.

(** ** The [generate_chart] view *)







Section chart_view_more.
Context `{Plotly} `{Aggregates}.



















End chart_view_more.

(** Requests on the sample frame: a scatter plot of its two columns under
    the default title, a histogram of a column it does not have, a box
    plot asked for that column and [y], a number as chart type, and a list
    as [x_column]. *)
Lemma generate_chart_samples :
  let request (chart_type x_column y_column : json) : json :=
    JObject [("chart_type", chart_type); ("x_column", x_column);
             ("y_column", y_column)]%string in
  let view := generate_chart (H := sample.plotly) (H0 := sample.aggregates)
                sample.chart_generator in
  view (request (JString "scatter") (JString "x") (JString "y")) sample.pairs
  = (Chart_json "<div id=chart-1></div>" (JString "Scatter Chart"), [], [])
  ∧ view (request (JString "histogram") (JString "q") (JString "y")) sample.pairs
    = (Error_json "Could not generate chart with selected parameters" 400, [], [])
  ∧ view (request (JString "box") (JString "q") (JString "y")) sample.pairs
    = (Chart_json "<div id=chart-2></div>" (JString "Box Chart"), [], [])
  ∧ view (request (JNumber (Qc_of_Z 5)) (JString "x") (JString "y")) sample.pairs
    = (Error_json "Error generating chart" 500, [],
       [(ERROR, Chart_generation_error AttributeError)])
  ∧ view (request (JString "histogram") (JArray [JString "x"]) JNull) sample.pairs
    = (Error_json "Error generating chart" 500, [],
       [(ERROR, Chart_generation_error TypeError)])
  ∧ view (JArray [JString "bar"]) sample.pairs
    = (Error_json "Error generating chart" 500, [],
       [(ERROR, Chart_generation_error AttributeError)])
  ∧ view (JObject []) sample.pairs
    = (Error_json "No JSON data provided" 400, [], []).
Proof. repeat split; vm_compute; reflexivity. Qed.

(** ** Box plots *)


Section boxes.
Context `{Plotly}.


End boxes.


(** A column of nulls only: the histogram is refused, the box plot is
    rendered without a box; and when rendering raises, the box plot of a
    column of the frame logs that error. *)
Lemma charts_of_an_empty_column :
  let d := sample.series "x" [NaN; NaN] in
  create_histogram (H := sample.plotly) sample.chart_generator d "x" None
  = (None, [(ERROR, No_valid_histogram_data)])
  ∧ create_box_plot (H := sample.failing_plotly) sample.chart_generator d ["x"]%string None
    = (None, [(ERROR, Error_creating "box plot" (Raised ValueError))])
  ∧ create_box_plot (H := sample.plotly) sample.chart_generator d ["x"]%string None
    = render (H := sample.plotly) "box plot"
        {| data := [];
           title := "Box Plot of x";
           xaxis_title := None;
           yaxis_title := Some "Values"%string;
           template := "plotly_white";
           height := 500;
           showlegend := None |}
        "chart-2".
Proof. repeat split; vm_compute; reflexivity. Qed.
